(** * simple-editor: tab lifecycle, save-state tracking and the action registry

    A shallow embedding of the parts of [tabs.py], [actions.py], [utils.py]
    and [_run.py] that carry the editor's invariants, followed by the
    properties proved about them.

    Python objects become records, module-level globals become fields of a
    [World] record that is threaded explicitly, exceptions become the
    [Raise] constructor of [outcome], and loops whose termination is not
    structural run on fuel ([OutOfFuel] marks exhaustion, and the theorems
    show that the fuel handed out is always enough). *)

From Stdlib Require Import Ascii String ZArith Lia.
From stdpp Require Import base option list strings gmap fin_maps.

Set Implicit Arguments.
Unset Strict Implicit.

(* ===================================================================== *)
(** * Python values, exceptions and outcomes *)
(* ===================================================================== *)

(** The classes deriving from [Exception] that the modelled code raises or
    catches.  [OSError] also stands for its subclasses
    ([FileNotFoundError], [PermissionError], ...), [UnicodeError] for
    [UnicodeEncodeError] and [UnicodeDecodeError]. *)
Inductive exn :=
| ValueError | TypeError | RuntimeError | AssertionError | AttributeError
| KeyError | OSError | UnicodeError | TclError.

#[global] Instance exn_eq_dec : EqDecision exn.
Proof. solve_decision. Defined.

Inductive outcome (A : Type) :=
| Ok (a : A)
| Raise (e : exn)
| OutOfFuel.
Arguments Ok {A} a.
Arguments Raise {A} e.
Arguments OutOfFuel {A}.

(** The few Python values that are inspected dynamically. *)
Inductive pyval :=
| VNone
| VBool (b : bool)
| VInt (z : Z)
| VStr (s : string).

#[global] Instance pyval_eq_dec : EqDecision pyval.
Proof. solve_decision. Defined.

(** [bool(v)]: Python truthiness. *)
Definition truthy (v : pyval) : bool :=
  match v with
  | VNone => false
  | VBool b => b
  | VInt z => negb (Z.eqb z 0)
  | VStr s => negb (String.eqb s "")
  end.

(** [isinstance(v, bool)]. *)
Definition is_pybool (v : pyval) : bool :=
  match v with VBool _ => true | _ => false end.

(* ===================================================================== *)
(** * String methods *)
(* ===================================================================== *)

Module Str.

(** [c in chars]. *)
Fixpoint contains (chars : string) (c : ascii) : bool :=
  match chars with
  | EmptyString => false
  | String d r => Ascii.eqb c d || contains r c
  end.

(** [s.startswith(prefix)]. *)
Definition startswith (s prefix : string) : bool := String.prefix prefix s.

(** [s.endswith(suffix)]: [suffix] is [s] itself or a suffix of its tail. *)
Fixpoint endswith (s suffix : string) : bool :=
  String.eqb s suffix ||
  match s with
  | EmptyString => false
  | String _ r => endswith r suffix
  end.

(** [s.rstrip(chars)]: drops the longest suffix made of characters of
    [chars]. *)
Fixpoint rstrip (s chars : string) : string :=
  match s with
  | EmptyString => EmptyString
  | String c r =>
      match rstrip r chars with
      | EmptyString => if contains chars c then EmptyString else String c EmptyString
      | r' => String c r'
      end
  end.

(** [s.rfind(c)] for a one-character needle: the last index of [c], or
    [-1]. *)
Fixpoint rfind_from (s : string) (c : ascii) (i acc : Z) : Z :=
  match s with
  | EmptyString => acc
  | String d r => rfind_from r c (i + 1) (if Ascii.eqb d c then i else acc)
  end.
Definition rfind (s : string) (c : ascii) : Z := rfind_from s c 0 (-1).

(** [s[:k]] and [s[k:]] for [0 <= k]. *)
Definition slice_to (s : string) (k : nat) : string := String.substring 0 k s.
Definition slice_from (s : string) (k : nat) : string :=
  String.substring k (String.length s - k) s.

(** Every character of [s] is one of [chars]. *)
Fixpoint all_in (chars s : string) : bool :=
  match s with
  | EmptyString => true
  | String c r => contains chars c && all_in chars r
  end.

(** [s.count(c)] for a one-character needle. *)
Fixpoint count (s : string) (c : ascii) : nat :=
  match s with
  | EmptyString => 0
  | String d r => (if Ascii.eqb d c then 1 else 0) + count r c
  end.

(** [''.join(l)]. *)
Definition join (l : list string) : string := String.concat "" l.

End Str.

(* ===================================================================== *)
(** * [os.path] on POSIX *)
(* ===================================================================== *)

Module OsPath.

(** The [while filenameIndex < dotIndex] loop of [genericpath._splitext]:
    [true] when some character of [p[filenameIndex:dotIndex]] is not a
    dot, [n] being the number of iterations left. *)
Fixpoint splitext_scan (p : string) (filenameIndex n : nat) : bool :=
  match n with
  | O => false
  | S n' =>
      match String.get filenameIndex p with
      | Some c =>
          if Ascii.eqb c "." then splitext_scan p (S filenameIndex) n'
          else true
      | None => true
      end
  end.

(** [os.path.splitext(p)]: the extension starts at the last dot of the
    last component, leading dots of that component not counting. *)
Definition splitext (p : string) : string * string :=
  let sepIndex := Str.rfind p "/" in
  let dotIndex := Str.rfind p "." in
  if (sepIndex <? dotIndex)%Z then
    let filenameIndex := Z.to_nat (sepIndex + 1) in
    if splitext_scan p filenameIndex (Z.to_nat dotIndex - filenameIndex) then
      (Str.slice_to p (Z.to_nat dotIndex), Str.slice_from p (Z.to_nat dotIndex))
    else (p, EmptyString)
  else (p, EmptyString).

(** [os.path.basename(p)]: [p[p.rfind('/') + 1:]]. *)
Definition basename (p : string) : string :=
  Str.slice_from p (Z.to_nat (Str.rfind p "/" + 1)).

End OsPath.

(* ===================================================================== *)
(** * utils.py: [backup_open] *)
(* ===================================================================== *)

Module Utils.

(** The file system as far as [backup_open] sees it: regular files, by
    path, with their bytes.  Directories, links and permissions are not
    modelled, so the only failure of [shutil.copy], [shutil.move] and
    [os.remove] is a missing source. *)
Abbreviation filesystem := (gmap string string).

Definition exists_ (fs : filesystem) (path : string) : bool :=
  bool_decide (is_Some (fs !! path)).

Definition shutil_copy (fs : filesystem) (src dst : string) : outcome filesystem :=
  match fs !! src with
  | Some data => Ok (<[dst := data]> fs)
  | None => Raise OSError
  end.

Definition shutil_move (fs : filesystem) (src dst : string) : outcome filesystem :=
  match fs !! src with
  | Some data => Ok (<[dst := data]> (delete src fs))
  | None => Raise OSError
  end.

Definition os_remove (fs : filesystem) (path : string) : outcome filesystem :=
  match fs !! path with
  | Some _ => Ok (delete path fs)
  | None => Raise OSError
  end.

(** [open(path, 'w')] creates or truncates the file; the file object is
    represented by the path it was opened on. *)
Definition open_w (fs : filesystem) (path : string) : filesystem :=
  <[path := EmptyString]> fs.

(** [f.write(data)]: unbuffered, so that every partial state of the file
    is visible. *)
Definition write (fs : filesystem) (f data : string) : filesystem :=
  alter (fun old => old +:+ data) f fs.

(** What the body of a [with backup_open(...) as f:] block does with
    [f]: it writes, and it may raise.  In Python an error raised by a
    write is an instance of [Exception]; [exn] has no other. *)
Inductive body_step :=
| Write (data : string)
| RaiseExn (e : exn).

Fixpoint run_body (fs : filesystem) (f : string) (body : list body_step)
  : filesystem * option exn :=
  match body with
  | [] => (fs, None)
  | Write data :: rest => run_body (write fs f data) f rest
  | RaiseExn e :: _ => (fs, Some e)
  end.

(** The exception that ends the body, if it does not run to its end. *)
Fixpoint first_error (body : list body_step) : option exn :=
  match body with
  | [] => None
  | Write _ :: rest => first_error rest
  | RaiseExn e :: _ => Some e
  end.

(** [while os.path.exists(name + ext): name += '-backup'], returning the
    final [name]. *)
Fixpoint backup_name (fuel : nat) (fs : filesystem) (name ext : string)
  : option string :=
  match fuel with
  | O => None
  | S fuel' =>
      if exists_ fs (name +:+ ext)
      then backup_name fuel' fs (name +:+ "-backup") ext
      else Some name
  end.

(** [backup_open(path, 'w', ...)] around a body.  The generator is
    resumed by the context manager either normally (the [else:] branch)
    or by throwing the body's exception in at the [yield] (the
    [except Exception] branch). *)
Definition backup_open (fuel : nat) (fs : filesystem) (path : string)
    (body : list body_step) : filesystem * outcome unit :=
  if exists_ fs path then
    let '(name, ext) := OsPath.splitext path in
    match backup_name fuel fs name ext with
    | None => (fs, OutOfFuel)
    | Some name' =>
        let backuppath := name' +:+ ext in
        match shutil_copy fs path backuppath with
        | Ok fs1 =>
            match run_body (open_w fs1 path) path body with
            | (fs2, Some e) =>
                match shutil_move fs2 backuppath path with
                | Ok fs3 => (fs3, Raise e)
                | Raise e' => (fs2, Raise e')
                | OutOfFuel => (fs2, OutOfFuel)
                end
            | (fs2, None) =>
                match os_remove fs2 backuppath with
                | Ok fs3 => (fs3, Ok tt)
                | Raise e' => (fs2, Raise e')
                | OutOfFuel => (fs2, OutOfFuel)
                end
            end
        | Raise e => (fs, Raise e)
        | OutOfFuel => (fs, OutOfFuel)
        end
    end
  else
    match run_body (open_w fs path) path body with
    | (fs1, Some e) => (fs1, Raise e)
    | (fs1, None) => (fs1, Ok tt)
    end.

(** The name after [k] rounds of the loop. *)
Fixpoint add_backups (k : nat) (name : string) : string :=
  match k with
  | O => name
  | S k' => add_backups k' (name +:+ "-backup")
  end.

(** Fuel that always suffices for the backup-name loop: there are
    [size fs] existing paths and the candidates are pairwise distinct. *)
Definition backup_fuel (fs : filesystem) : nat := S (size fs).

End Utils.

(* ===================================================================== *)
(** * The Tk text widget, as far as [iter_chunks] uses it *)
(* ===================================================================== *)

Module TkText.

Definition newline : ascii := "010"%char.

(** A text widget always ends with a newline of its own after the
    content that was inserted. *)
Definition all (content : string) : string :=
  content +:+ String newline EmptyString.

(** The indices the code uses: ['%d.0' % line], ['end'] and
    ['end - 1 char']. *)
Inductive index_expr :=
| LineStart (line : nat)
| End
| EndMinus1Char.

(** Offset just after the [k]-th newline of [s], or [length s] when [s]
    has fewer newlines. *)
Fixpoint after_newlines (s : string) (k : nat) {struct s} : nat :=
  match k with
  | O => 0
  | S k' =>
      match s with
      | EmptyString => 0
      | String c r => S (after_newlines r (if Ascii.eqb c newline then k' else k))
      end
  end.

(** [widget.index(expr)], as a character offset: Tk normalises every
    index, so two index strings are equal exactly when the offsets are.
    A line past the last one is ['end']. *)
Definition index (content : string) (i : index_expr) : nat :=
  match i with
  | LineStart line => after_newlines (all content) (line - 1)
  | End => String.length (all content)
  | EndMinus1Char => String.length (all content) - 1
  end.

(** [widget.get(i, j)]. *)
Definition get (content : string) (i j : index_expr) : string :=
  String.substring (index content i) (index content j - index content i)
    (all content).

End TkText.

(* ===================================================================== *)
(** * tabs.py: [FileTab] *)
(* ===================================================================== *)

(** The library functions the hashing and saving code calls:
    [str.encode(encoding, errors='replace')], the strict encoder of a file
    opened in text mode ([None]: [UnicodeEncodeError]), and
    [hashlib.md5(data).hexdigest()].  Feeding a hash object chunk by chunk
    with [update] hashes the concatenation of the chunks. *)
Class PyLib := {
  encode_replace : string -> string -> string;
  encode_strict : string -> string -> option string;
  md5_hexdigest : string -> string;
}.

Module FileTabs.

Record FileTab := {
  _path : option string;
  textwidget : string;              (* the content of the text widget *)
  _save_hash : option string;
  _tokens : list string;
  _title : string;
  filetype_name : string;
}.

Definition with_path (p : option string) (t : FileTab) : FileTab :=
  {| _path := p; textwidget := textwidget t; _save_hash := _save_hash t;
     _tokens := _tokens t; _title := _title t; filetype_name := filetype_name t |}.
Definition with_content (c : string) (t : FileTab) : FileTab :=
  {| _path := _path t; textwidget := c; _save_hash := _save_hash t;
     _tokens := _tokens t; _title := _title t; filetype_name := filetype_name t |}.
Definition with_save_hash (h : option string) (t : FileTab) : FileTab :=
  {| _path := _path t; textwidget := textwidget t; _save_hash := h;
     _tokens := _tokens t; _title := _title t; filetype_name := filetype_name t |}.
Definition with_tokens (l : list string) (t : FileTab) : FileTab :=
  {| _path := _path t; textwidget := textwidget t; _save_hash := _save_hash t;
     _tokens := l; _title := _title t; filetype_name := filetype_name t |}.
Definition with_title (s : string) (t : FileTab) : FileTab :=
  {| _path := _path t; textwidget := textwidget t; _save_hash := _save_hash t;
     _tokens := _tokens t; _title := s; filetype_name := filetype_name t |}.

(** What a [FileTab] method shows to the user or to listeners. *)
Inductive ui_event :=
| EvSave                                   (* event_generate('<<Save>>') *)
| EvPathChanged                            (* event_generate('<<PathChanged>>') *)
| EvErrorDialog (title message : string)   (* utils.errordialog(...) *)
| EvAskSaveAs                              (* filedialog.asksaveasfilename(...) *)
| EvAskYesNoCancel (message : string).     (* messagebox.askyesnocancel(...) *)

(** Everything outside the tab that its methods read or change: the file
    system, the [encoding] setting of the [General] section, the answers
    the user will give to the next dialogs, the write call at which the
    device will fail (if any), and the log of what was shown. *)
Record Env := {
  env_fs : gmap string string;
  env_encoding : string;
  env_saveas_answers : list string;
  env_yesnocancel_answers : list (option bool);
  env_write_fault : option nat;
  env_log : list ui_event;
}.

Definition with_fs (fs : gmap string string) (e : Env) : Env :=
  {| env_fs := fs; env_encoding := env_encoding e;
     env_saveas_answers := env_saveas_answers e;
     env_yesnocancel_answers := env_yesnocancel_answers e;
     env_write_fault := env_write_fault e; env_log := env_log e |}.
Definition log (ev : ui_event) (e : Env) : Env :=
  {| env_fs := env_fs e; env_encoding := env_encoding e;
     env_saveas_answers := env_saveas_answers e;
     env_yesnocancel_answers := env_yesnocancel_answers e;
     env_write_fault := env_write_fault e; env_log := env_log e ++ [ev] |}.

(** [filedialog.asksaveasfilename(...)]: the empty string on cancel. *)
Definition asksaveasfilename (e : Env) : string * Env :=
  (hd EmptyString (env_saveas_answers e),
   log EvAskSaveAs
     {| env_fs := env_fs e; env_encoding := env_encoding e;
        env_saveas_answers := tl (env_saveas_answers e);
        env_yesnocancel_answers := env_yesnocancel_answers e;
        env_write_fault := env_write_fault e; env_log := env_log e |}).

(** [messagebox.askyesnocancel(...)]: [None] on cancel. *)
Definition askyesnocancel (message : string) (e : Env) : option bool * Env :=
  (hd None (env_yesnocancel_answers e),
   log (EvAskYesNoCancel message)
     {| env_fs := env_fs e; env_encoding := env_encoding e;
        env_saveas_answers := env_saveas_answers e;
        env_yesnocancel_answers := tl (env_yesnocancel_answers e);
        env_write_fault := env_write_fault e; env_log := env_log e |}).

(** [iter_chunks]: the [while True] loop, [start] being the loop
    variable. *)
Fixpoint iter_chunks_loop (fuel : nat) (content : string) (n start : nat)
  : outcome (list string) :=
  match fuel with
  | O => OutOfFuel
  | S fuel' =>
      let end_ := start + n in
      if Nat.eqb (TkText.index content (TkText.LineStart end_))
                 (TkText.index content TkText.End)
      then
        let last_chunk :=
          TkText.get content (TkText.LineStart start) TkText.EndMinus1Char in
        Ok (if String.eqb last_chunk EmptyString then [] else [last_chunk])
      else
        match iter_chunks_loop fuel' content n (start + n) with
        | Ok rest =>
            Ok (TkText.get content (TkText.LineStart start) (TkText.LineStart end_)
                :: rest)
        | other => other
        end
  end.

(** One round of the loop per chunk, and a chunk of [n >= 1] lines holds
    at least one character of the widget. *)
Definition iter_chunks (content : string) (n : nat) : outcome (list string) :=
  iter_chunks_loop (S (String.length content)) content n 1.

Section WithLib.
Context `{PyLib}.

(** [_get_hash]. *)
Definition _get_hash (encoding : string) (t : FileTab) : outcome string :=
  match iter_chunks (textwidget t) 100 with
  | Ok chunks => Ok (md5_hexdigest (Str.join (map (encode_replace encoding) chunks)))
  | Raise e => Raise e
  | OutOfFuel => OutOfFuel
  end.

(** [is_saved]: [self._get_hash() == self._save_hash]; a string never
    equals [None]. *)
Definition is_saved (encoding : string) (t : FileTab) : outcome bool :=
  match _get_hash encoding t with
  | Ok h =>
      Ok (match _save_hash t with
          | Some saved => String.eqb h saved
          | None => false
          end)
  | Raise e => Raise e
  | OutOfFuel => OutOfFuel
  end.

(** [_update_title].  (The label of the notebook tab, which the
    [title] setter also updates, is not modelled.) *)
Definition _update_title (encoding : string) (t : FileTab) : outcome FileTab :=
  let text :=
    match _path t with
    | None => "New File"
    | Some p => OsPath.basename p
    end in
  match is_saved encoding t with
  | Ok saved =>
      Ok (with_title (if saved then text else "*" +:+ text +:+ "*") t)
  | Raise e => Raise e
  | OutOfFuel => OutOfFuel
  end.

(** [mark_saved]. *)
Definition mark_saved (encoding : string) (t : FileTab) : outcome FileTab :=
  match _get_hash encoding t with
  | Ok h => _update_title encoding (with_save_hash (Some h) t)
  | Raise e => Raise e
  | OutOfFuel => OutOfFuel
  end.

(** The [path] setter; [os.path.normcase] is the identity on POSIX.
    [<<PathChanged>>] runs [_update_title] (and [_update_status], which
    only writes the status text, not modelled). *)
Definition set_path (new_path : option string) (t : FileTab) (e : Env)
  : outcome unit * FileTab * Env :=
  let it_changes :=
    match _path t, new_path with
    | None, None => false
    | None, Some _ | Some _, None => true
    | Some old, Some new => negb (String.eqb old new)
    end in
  let t1 := with_path new_path t in
  if it_changes then
    match _update_title (env_encoding e) t1 with
    | Ok t2 => (Ok tt, t2, log EvPathChanged e)
    | Raise x => (Raise x, t1, log EvPathChanged e)
    | OutOfFuel => (OutOfFuel, t1, log EvPathChanged e)
    end
  else (Ok tt, t1, e).

(** The [tokens] setter. *)
Definition set_tokens (new_tokens : list string) (t : FileTab) : FileTab :=
  if Nat.ltb 0 (length new_tokens) then with_tokens new_tokens t else t.

(** The body of the [with] block of [save]: one [f.write(chunk)] per
    chunk.  A write raises [UnicodeEncodeError] when the chunk cannot
    be encoded and [OSError] when the device fails. *)
Fixpoint save_body (encoding : string) (fault : option nat)
    (chunks : list string) : list Utils.body_step :=
  match chunks with
  | [] => []
  | chunk :: rest =>
      match fault with
      | Some O => [Utils.RaiseExn OSError]
      | _ =>
          match encode_strict encoding chunk with
          | None => [Utils.RaiseExn UnicodeError]
          | Some bytes =>
              Utils.Write bytes :: save_body encoding (Nat.pred <$> fault) rest
          end
      end
  end.

(** [save] and [save_as] call each other; the fuel bounds the depth of
    the calls. *)
Fixpoint save (fuel : nat) (t : FileTab) (e : Env) {struct fuel}
  : outcome pyval * FileTab * Env :=
  match fuel with
  | O => (OutOfFuel, t, e)
  | S fuel' =>
      match _path t with
      | None => save_as fuel' t e
      | Some path =>
          let e1 := log EvSave e in
          let encoding := env_encoding e1 in
          match iter_chunks (textwidget t) 100 with
          | Ok chunks =>
              let body := save_body encoding (env_write_fault e1) chunks in
              let '(fs', r) :=
                Utils.backup_open (Utils.backup_fuel (env_fs e1)) (env_fs e1)
                  path body in
              let e2 := with_fs fs' e1 in
              match r with
              | Ok _ =>
                  match mark_saved (env_encoding e2) t with
                  | Ok t' => (Ok (VBool true), t', e2)
                  | Raise x => (Raise x, t, e2)
                  | OutOfFuel => (OutOfFuel, t, e2)
                  end
              | Raise OSError =>
                  (Ok VNone, t, log (EvErrorDialog "OSError" "Saving failed!") e2)
              | Raise UnicodeError =>
                  (Ok VNone, t, log (EvErrorDialog "UnicodeError" "Saving failed!") e2)
              | Raise x => (Raise x, t, e2)
              | OutOfFuel => (OutOfFuel, t, e2)
              end
          | Raise x => (Raise x, t, e1)
          | OutOfFuel => (OutOfFuel, t, e1)
          end
      end
  end
with save_as (fuel : nat) (t : FileTab) (e : Env) {struct fuel}
  : outcome pyval * FileTab * Env :=
  match fuel with
  | O => (OutOfFuel, t, e)
  | S fuel' =>
      let '(path, e1) := asksaveasfilename e in
      if String.eqb path EmptyString then (Ok (VBool false), t, e1)
      else
        match set_path (Some path) t e1 with
        | (Ok _, t1, e2) =>
            match save fuel' t1 e2 with
            | (Ok _, t2, e3) => (Ok (VBool true), t2, e3)
            | other => other
            end
        | (Raise x, t1, e2) => (Raise x, t1, e2)
        | (OutOfFuel, t1, e2) => (OutOfFuel, t1, e2)
        end
  end.

(** [can_be_closed]. *)
Definition can_be_closed (fuel : nat) (t : FileTab) (e : Env)
  : outcome pyval * FileTab * Env :=
  match is_saved (env_encoding e) t with
  | Ok true => (Ok (VBool true), t, e)
  | Ok false =>
      let msg :=
        match _path t with
        | None => "Do you want to save your changes?"
        | Some p =>
            "Do you want to save your changes to " +:+ OsPath.basename p +:+ "?"
        end in
      let '(answer, e1) := askyesnocancel msg e in
      match answer with
      | None => (Ok (VBool false), t, e1)
      | Some true => save fuel t e1
      | Some false => (Ok (VBool true), t, e1)
      end
  | Raise x => (Raise x, t, e)
  | OutOfFuel => (OutOfFuel, t, e)
  end.

(** Depth of the deepest chain [save -> save_as -> save]. *)
Definition save_fuel : nat := 3.

(** [FileTab(manager, content, path)]: the state at the end of
    [__init__]. *)
Definition new_FileTab (encoding content : string) (path : option string)
  : outcome FileTab :=
  mark_saved encoding
    {| _path := path; textwidget := content; _save_hash := None;
       _tokens := []; _title := EmptyString; filetype_name := "Plain Text" |}.

End WithLib.

End FileTabs.

(* ===================================================================== *)
(** * tabs.py, actions.py, _run.py: the running application *)
(* ===================================================================== *)

Module App.
Import FileTabs.

(** ** Tabs *)

(** A tab is a widget (identified, as in Tk, by its widget name) of
    class [Tab] or of its subclass [FileTab]. *)
Inductive tab_body :=
| PlainTab
| AFileTab (f : FileTab).

Record Tab := {
  winfo_name : nat;
  tab_body_of : tab_body;
}.

(** [a is b] on widgets. *)
Definition same_widget (a b : Tab) : bool :=
  Nat.eqb (winfo_name a) (winfo_name b).

Inductive pyclass := ClsNoneType | ClsTab | ClsFileTab.

#[global] Instance pyclass_eq_dec : EqDecision pyclass.
Proof. solve_decision. Defined.

(** [type(v)] for what [TabManager.select()] returns. *)
Definition class_of (v : option Tab) : pyclass :=
  match v with
  | None => ClsNoneType
  | Some t =>
      match tab_body_of t with
      | PlainTab => ClsTab
      | AFileTab _ => ClsFileTab
      end
  end.

Definition issubclass (c d : pyclass) : bool :=
  match c, d with
  | ClsFileTab, ClsTab => true
  | _, _ => bool_decide (c = d)
  end.

(** [isinstance(v, classes)] for a tuple of classes. *)
Definition isinstance (v : option Tab) (classes : list pyclass) : bool :=
  existsb (issubclass (class_of v)) classes.

(** [os.path.samefile(p, q)]: both paths are [stat]ed, and a failing
    [stat] raises. *)
Definition samefile (stat : gmap string nat) (p q : string) : outcome bool :=
  match stat !! p, stat !! q with
  | Some a, Some b => Ok (Nat.eqb a b)
  | _, _ => Raise OSError
  end.

(** [Tab.equivalent] and its override [FileTab.equivalent]. *)
Definition equivalent (stat : gmap string nat) (self other : Tab) : outcome bool :=
  match tab_body_of self with
  | PlainTab => Ok false
  | AFileTab f =>
      match tab_body_of other with
      | PlainTab => Ok false
      | AFileTab g =>
          match _path f, _path g with
          | Some p, Some q => samefile stat p q
          | _, _ => Ok false
          end
      end
  end.

(** ** The ttk notebook under [TabManager]

    Tk keeps the managed windows in display order together with the
    index of the current one, and queues a [<<NotebookTabChanged>>]
    virtual event whenever another tab becomes current. *)
Record Notebook := {
  nb_tabs : list Tab;
  nb_current : option nat;
  nb_pending : nat;      (* queued <<NotebookTabChanged>> events *)
}.

Inductive tab_id :=
| ByWidget (t : Tab)
| ByIndex (i : Z).

Definition index_of (l : list Tab) (t : Tab) : option nat :=
  fst <$> list_find (fun x => winfo_name x = winfo_name t) l.

(** How Tk resolves a tab identifier: an integer must be a valid index,
    a window must be managed by the notebook. *)
Definition resolve (nb : Notebook) (id : tab_id) : outcome nat :=
  match id with
  | ByIndex i =>
      if (0 <=? i)%Z && (i <? Z.of_nat (length (nb_tabs nb)))%Z
      then Ok (Z.to_nat i) else Raise TclError
  | ByWidget t =>
      match index_of (nb_tabs nb) t with
      | Some i => Ok i
      | None => Raise TclError
      end
  end.

(** Tk's [SelectTab]. *)
Definition select_tab (nb : Notebook) (i : nat) : Notebook :=
  if bool_decide (nb_current nb = Some i) then nb
  else {| nb_tabs := nb_tabs nb; nb_current := Some i;
          nb_pending := S (nb_pending nb) |}.

(** Tk's [AddTab]: insert at [dest]; the first tab of an empty notebook
    becomes current. *)
Definition add_tab_at (nb : Notebook) (dest : nat) (t : Tab) : Notebook :=
  let tabs' := take dest (nb_tabs nb) ++ t :: drop dest (nb_tabs nb) in
  match nb_current nb with
  | None =>
      select_tab {| nb_tabs := tabs'; nb_current := None;
                    nb_pending := nb_pending nb |} dest
  | Some c =>
      {| nb_tabs := tabs';
         nb_current := Some (if Nat.leb dest c then S c else c);
         nb_pending := nb_pending nb |}
  end.

(** Tk's [NextTab]: the tab after [i], else the one before, else none
    ([n] tabs, none hidden or disabled). *)
Definition next_tab (n i : nat) : option nat :=
  if Nat.ltb (S i) n then Some (S i)
  else if Nat.ltb 0 i then Some (i - 1)
  else None.

(** Tk's [TabRemoved]: when the current tab goes, [SelectNearestTab]
    picks its neighbour and queues the event; indices after [i] shift. *)
Definition remove_tab (nb : Notebook) (i : nat) : Notebook :=
  let n := length (nb_tabs nb) in
  let '(cur1, pending1) :=
    if bool_decide (nb_current nb = Some i)
    then (next_tab n i, S (nb_pending nb))
    else (nb_current nb, nb_pending nb) in
  {| nb_tabs := delete i (nb_tabs nb);
     nb_current := (fun c => if Nat.ltb i c then c - 1 else c) <$> cur1;
     nb_pending := pending1 |}.

(** Tk's reordering of a managed window ([insert] on a window the
    notebook already has). *)
Definition reorder_tab (nb : Notebook) (src dest : nat) : Notebook :=
  match nb_tabs nb !! src with
  | None => nb
  | Some t =>
      let rest := delete src (nb_tabs nb) in
      {| nb_tabs := take dest rest ++ t :: drop dest rest;
         nb_current :=
           (fun c =>
              if Nat.eqb c src then dest
              else if Nat.leb dest c && Nat.ltb c src then S c
              else if Nat.ltb src c && Nat.leb c dest then c - 1
              else c) <$> nb_current nb;
         nb_pending := nb_pending nb |}
  end.

Definition tk_select (nb : Notebook) (id : tab_id) : outcome Notebook :=
  match resolve nb id with
  | Ok i => Ok (select_tab nb i)
  | Raise e => Raise e
  | OutOfFuel => OutOfFuel
  end.

Definition tk_add (nb : Notebook) (t : Tab) : Notebook :=
  match index_of (nb_tabs nb) t with
  | Some _ => nb
  | None => add_tab_at nb (length (nb_tabs nb)) t
  end.

Definition tk_forget (nb : Notebook) (id : tab_id) : outcome Notebook :=
  match resolve nb id with
  | Ok i => Ok (remove_tab nb i)
  | Raise e => Raise e
  | OutOfFuel => OutOfFuel
  end.

Definition tk_insert (nb : Notebook) (pos : Z) (t : Tab) : outcome Notebook :=
  match resolve nb (ByIndex pos) with
  | Ok dest =>
      match index_of (nb_tabs nb) t with
      | Some src => Ok (reorder_tab nb src dest)
      | None => Ok (add_tab_at nb dest t)
      end
  | Raise e => Raise e
  | OutOfFuel => OutOfFuel
  end.

(** The current tab, [None] when there is none. *)
Definition current_tab (nb : Notebook) : option Tab :=
  nb_current nb ≫= fun c => nb_tabs nb !! c.

(** ** Actions *)

Inductive callable_or_choices :=
| Callback (id : nat)
| Choices (l : list pyval).

Record Action := {
  path : string;
  kind : string;
  binding : option string;
  _enabled : bool;
  callback : option callable_or_choices;
  var : option string;                    (* the name of a Tk variable *)
  choices : option callable_or_choices;
}.

Definition with_enabled (b : bool) (a : Action) : Action :=
  {| path := path a; kind := kind a; binding := binding a; _enabled := b;
     callback := callback a; var := var a; choices := choices a |}.

(** The closures the code hands to Tk, with what they capture.  An
    action is captured by reference; since actions are never removed
    from [_actions] nor replaced, its path stands for the object. *)
Inductive handler :=
| H_focus_selected_tab
| H_enable_or_disable_tabtypes (action_path : string) (tabtypes : list pyclass)
| H_enable_or_disable_filetypes (action_path : string) (filetype_names : list string)
| H_on_new_tab (action_path : string) (filetype_names : list string)
| H_bind_callback (action_path : string) (action_kind : string).

(** What observers of the main window see. *)
Inductive event :=
| EvNewAction (action_path : string)
| EvActionEnabled (action_path : string)
| EvActionDisabled (action_path : string)
| EvNewTab (t : Tab)
| EvCalled (id : nat)                                (* a command callback ran *)
| EvWarning (action_path : string) (value : pyval).  (* warnings.warn(...) *)

Record Bindings := {
  tab_changed_bindings : list handler;     (* <<NotebookTabChanged>> on the manager *)
  new_tab_bindings : list handler;         (* <<NewTab>> on the manager *)
  filetype_changed_bindings : list (nat * handler);  (* <<FiletypeChanged>> per tab *)
  bind_all_bindings : list (string * handler);
  text_class_unbound : list string;        (* bind Text <sequence> {} *)
}.

(** The module-level state of [_run] and [actions], the Tk state behind
    it, and the inode table that [os.stat] reads. *)
Record World := {
  m_root : bool;              (* [_run.init()] has run *)
  notebook : Notebook;        (* [m_tab_manager] *)
  bindings : Bindings;
  _actions : gmap string Action;
  _actions_order : list string;           (* insertion order of the OrderedDict *)
  tk_vars : gmap string pyval;
  var_traces : list (string * string);    (* variable name, path of the choice action *)
  focus : option nat;
  stat : gmap string nat;
  trace : list event;
}.

Definition set_notebook (nb : Notebook) (w : World) : World :=
  {| m_root := m_root w; notebook := nb; bindings := bindings w;
     _actions := _actions w; _actions_order := _actions_order w;
     tk_vars := tk_vars w; var_traces := var_traces w; focus := focus w;
     stat := stat w; trace := trace w |}.
Definition set_bindings (b : Bindings) (w : World) : World :=
  {| m_root := m_root w; notebook := notebook w; bindings := b;
     _actions := _actions w; _actions_order := _actions_order w;
     tk_vars := tk_vars w; var_traces := var_traces w; focus := focus w;
     stat := stat w; trace := trace w |}.
Definition set_actions (m : gmap string Action) (order : list string) (w : World) : World :=
  {| m_root := m_root w; notebook := notebook w; bindings := bindings w;
     _actions := m; _actions_order := order;
     tk_vars := tk_vars w; var_traces := var_traces w; focus := focus w;
     stat := stat w; trace := trace w |}.
Definition set_tk_vars (vars : gmap string pyval) (w : World) : World :=
  {| m_root := m_root w; notebook := notebook w; bindings := bindings w;
     _actions := _actions w; _actions_order := _actions_order w;
     tk_vars := vars; var_traces := var_traces w; focus := focus w;
     stat := stat w; trace := trace w |}.
Definition set_var_traces (l : list (string * string)) (w : World) : World :=
  {| m_root := m_root w; notebook := notebook w; bindings := bindings w;
     _actions := _actions w; _actions_order := _actions_order w;
     tk_vars := tk_vars w; var_traces := l; focus := focus w;
     stat := stat w; trace := trace w |}.
Definition set_focus (f : option nat) (w : World) : World :=
  {| m_root := m_root w; notebook := notebook w; bindings := bindings w;
     _actions := _actions w; _actions_order := _actions_order w;
     tk_vars := tk_vars w; var_traces := var_traces w; focus := f;
     stat := stat w; trace := trace w |}.
Definition emit (ev : event) (w : World) : World :=
  {| m_root := m_root w; notebook := notebook w; bindings := bindings w;
     _actions := _actions w; _actions_order := _actions_order w;
     tk_vars := tk_vars w; var_traces := var_traces w; focus := focus w;
     stat := stat w; trace := trace w ++ [ev] |}.

(** [_run.get_main_window()] and [_run.get_tab_manager()]. *)
Definition get_main_window (w : World) : outcome unit :=
  if m_root w then Ok tt else Raise RuntimeError.
Definition get_tab_manager (w : World) : outcome Notebook :=
  if m_root w then Ok (notebook w) else Raise RuntimeError.

(** [TabManager.select()] without argument, and [TabManager.tabs()]. *)
Definition selected (w : World) : option Tab := current_tab (notebook w).
Definition tabs (w : World) : list Tab := nb_tabs (notebook w).

(** The [enabled] setter of [_Action]. *)
Definition set_enabled (p : string) (is_enabled : pyval) (w : World)
  : World * outcome unit :=
  match is_enabled with
  | VBool b =>
      match _actions w !! p with
      | Some a =>
          if Bool.eqb (_enabled a) b then (w, Ok tt)
          else
            let w1 := set_actions (<[p := with_enabled b a]> (_actions w))
                        (_actions_order w) w in
            match get_main_window w1 with
            | Ok _ =>
                (emit (if b then EvActionEnabled p else EvActionDisabled p) w1, Ok tt)
            | Raise e => (w1, Raise e)
            | OutOfFuel => (w1, OutOfFuel)
            end
      | None => (w, Raise AttributeError)
      end
  | _ => (w, Raise TypeError)
  end.

(** [_Action._var_set_check], run by Tk when the variable is written. *)
Definition _var_set_check (p : string) (w : World) : World :=
  match _actions w !! p with
  | Some a =>
      match var a, choices a with
      | Some v, Some (Choices l) =>
          let value := default VNone (tk_vars w !! v) in
          if bool_decide (value ∈ l) then w else emit (EvWarning p value) w
      | _, _ => w
      end
  | None => w
  end.

(** [var.get()]; a [BooleanVar] that was never set holds [False]. *)
Definition var_get (v : string) (w : World) : pyval :=
  default (VBool false) (tk_vars w !! v).

(** [var.set(value)], with the write traces on that variable. *)
Definition var_set (v : string) (value : pyval) (w : World) : World :=
  foldl (fun w' '(v', p) => if String.eqb v' v then _var_set_check p w' else w')
    (set_tk_vars (<[v := value]> (tk_vars w)) w) (var_traces w).

(** [bind_callback] of [_add_any_action]; the result is what the
    function returns to Tk: ['break'] or [None]. *)
Definition bind_callback (p : string) (k : string) (w : World)
  : World * outcome (option string) :=
  match _actions w !! p with
  | None => (w, Raise AttributeError)
  | Some a =>
      if _enabled a then
        let '(w1, r1) :=
          if String.eqb k "command" then
            match callback a with
            | Some (Callback id) => (emit (EvCalled id) w, Ok tt)
            | Some (Choices _) => (w, Raise TypeError)
            | None => (w, Raise AttributeError)
            end
          else (w, Ok tt) in
        match r1 with
        | Ok _ =>
            if String.eqb k "yesno" then
              match var a with
              | Some v =>
                  (var_set v (VBool (negb (truthy (var_get v w1)))) w1,
                   Ok (Some "break"))
              | None => (w1, Raise AttributeError)
              end
            else (w1, Ok (Some "break"))
        | Raise e => (w1, Raise e)
        | OutOfFuel => (w1, OutOfFuel)
        end
      else (w, Ok None)
  end.

(** The two [enable_or_disable] closures. *)
Definition enable_or_disable_tabtypes (p : string) (tabtypes : list pyclass)
    (w : World) : World * outcome unit :=
  match get_tab_manager w with
  | Ok nb => set_enabled p (VBool (isinstance (current_tab nb) tabtypes)) w
  | Raise e => (w, Raise e)
  | OutOfFuel => (w, OutOfFuel)
  end.

Definition enable_or_disable_filetypes (p : string) (filetype_names : list string)
    (w : World) : World * outcome unit :=
  match get_tab_manager w with
  | Ok nb =>
      match tab_body_of <$> current_tab nb with
      | Some (AFileTab f) =>
          set_enabled p (VBool (bool_decide (filetype_name f ∈ filetype_names))) w
      | _ => set_enabled p (VBool false) w
      end
  | Raise e => (w, Raise e)
  | OutOfFuel => (w, OutOfFuel)
  end.

(** Running a bound closure on an event; [data] is the widget the event
    carries, if any. *)
Definition run_handler (h : handler) (data : option Tab) (w : World)
  : World * outcome (option string) :=
  match h with
  | H_focus_selected_tab =>
      match selected w with
      | Some t =>
          match tab_body_of t with
          | AFileTab _ => (set_focus (Some (winfo_name t)) w, Ok None)
          | PlainTab => (w, Ok None)
          end
      | None => (w, Ok None)
      end
  | H_enable_or_disable_tabtypes p tabtypes =>
      let '(w', r) := enable_or_disable_tabtypes p tabtypes w in
      (w', match r with Ok _ => Ok None | Raise e => Raise e | OutOfFuel => OutOfFuel end)
  | H_enable_or_disable_filetypes p names =>
      let '(w', r) := enable_or_disable_filetypes p names w in
      (w', match r with Ok _ => Ok None | Raise e => Raise e | OutOfFuel => OutOfFuel end)
  | H_on_new_tab p names =>
      match data with
      | Some t =>
          match tab_body_of t with
          | AFileTab _ =>
              let b := bindings w in
              (set_bindings
                 {| tab_changed_bindings := tab_changed_bindings b;
                    new_tab_bindings := new_tab_bindings b;
                    filetype_changed_bindings :=
                      filetype_changed_bindings b ++
                      [(winfo_name t, H_enable_or_disable_filetypes p names)];
                    bind_all_bindings := bind_all_bindings b;
                    text_class_unbound := text_class_unbound b |} w,
               Ok None)
          | PlainTab => (w, Ok None)
          end
      | None => (w, Ok None)
      end
  | H_bind_callback p k => bind_callback p k w
  end.

(** Tk runs the scripts bound to an event in the order they were bound
    and stops at the first that returns ['break']; an exception in a
    callback is reported and the event goes on. *)
Fixpoint dispatch (hs : list handler) (data : option Tab) (w : World)
  : World * bool :=
  match hs with
  | [] => (w, false)
  | h :: rest =>
      match run_handler h data w with
      | (w', Ok (Some _)) => (w', true)
      | (w', _) => dispatch rest data w'
      end
  end.

(** [update()]: the queued [<<NotebookTabChanged>>] events are
    delivered. *)
Fixpoint deliver (k : nat) (w : World) : World :=
  match k with
  | O => w
  | S k' =>
      deliver k' (dispatch (tab_changed_bindings (bindings w)) None w).1
  end.

Definition update (w : World) : World :=
  let nb := notebook w in
  deliver (nb_pending nb)
    (set_notebook {| nb_tabs := nb_tabs nb; nb_current := nb_current nb;
                     nb_pending := 0 |} w).

(** ** actions.py *)

(** [_Action.__init__]; for a choice action the write trace on its
    variable is installed. *)
Definition new_Action (p k : string) (callback_or_choices : callable_or_choices)
    (b : option string) (v : option string) (w : World) : World * outcome Action :=
  if String.eqb k "command" then
    (w, Ok {| path := p; kind := k; binding := b; _enabled := true;
              callback := Some callback_or_choices; var := None; choices := None |})
  else if String.eqb k "choice" then
    match v with
    | Some name =>
        (set_var_traces (var_traces w ++ [(name, p)]) w,
         Ok {| path := p; kind := k; binding := b; _enabled := true;
               callback := None; var := Some name;
               choices := Some callback_or_choices |})
    | None => (w, Raise AttributeError)
    end
  else if String.eqb k "yesno" then
    (w, Ok {| path := p; kind := k; binding := b; _enabled := true;
              callback := None; var := v; choices := None |})
  else (w, Raise AssertionError).

Definition bind_tab_changed (h : handler) (w : World) : World :=
  let b := bindings w in
  set_bindings
    {| tab_changed_bindings := tab_changed_bindings b ++ [h];
       new_tab_bindings := new_tab_bindings b;
       filetype_changed_bindings := filetype_changed_bindings b;
       bind_all_bindings := bind_all_bindings b;
       text_class_unbound := text_class_unbound b |} w.

Definition bind_new_tab (h : handler) (w : World) : World :=
  let b := bindings w in
  set_bindings
    {| tab_changed_bindings := tab_changed_bindings b;
       new_tab_bindings := new_tab_bindings b ++ [h];
       filetype_changed_bindings := filetype_changed_bindings b;
       bind_all_bindings := bind_all_bindings b;
       text_class_unbound := text_class_unbound b |} w.

(** [widget.bind_all(binding, bind_callback, add=True)] followed by
    [widget.tk.call('bind', 'Text', binding, '')]. *)
Definition bind_key (sequence : string) (h : handler) (w : World) : World :=
  let b := bindings w in
  set_bindings
    {| tab_changed_bindings := tab_changed_bindings b;
       new_tab_bindings := new_tab_bindings b;
       filetype_changed_bindings := filetype_changed_bindings b;
       bind_all_bindings := bind_all_bindings b ++ [(sequence, h)];
       text_class_unbound := text_class_unbound b ++ [sequence] |} w.

(** The part of [_add_any_action] after the action was stored: the
    enablement rule, then the key binding. *)
Definition install_binding (p k : string) (b : option string) (w : World)
  : World * outcome unit :=
  match b with
  | None => (w, Ok tt)
  | Some sequence =>
      if String.eqb k "command" || String.eqb k "yesno"
      then (bind_key sequence (H_bind_callback p k) w, Ok tt)
      else (w, Raise AssertionError)
  end.

Definition install_rule (p : string) (filetype_names : option (list string))
    (tabtypes : option (list (option pyclass))) (w : World) : World * outcome unit :=
  match tabtypes, filetype_names with
  | None, None => (w, Ok tt)
  | _, Some names =>
      (* with both given the call was rejected before; the second [def]
         is the one that counts *)
      match get_tab_manager w with
      | Ok _ =>
          let w1 := bind_new_tab (H_on_new_tab p names) w in
          match enable_or_disable_filetypes p names w1 with
          | (w2, Ok _) =>
              (bind_tab_changed (H_enable_or_disable_filetypes p names) w2, Ok tt)
          | (w2, r) => (w2, r)
          end
      | Raise e => (w, Raise e)
      | OutOfFuel => (w, OutOfFuel)
      end
  | Some classes, None =>
      let classes' := map (default ClsNoneType) classes in
      match enable_or_disable_tabtypes p classes' w with
      | (w1, Ok _) =>
          match get_tab_manager w1 with
          | Ok _ => (bind_tab_changed (H_enable_or_disable_tabtypes p classes') w1, Ok tt)
          | Raise e => (w1, Raise e)
          | OutOfFuel => (w1, OutOfFuel)
          end
      | (w1, r) => (w1, r)
      end
  end.

(** [_add_any_action]. *)
Definition _add_any_action (p k : string) (callback_or_choices : callable_or_choices)
    (b : option string) (v : option string)
    (filetype_names : option (list string))
    (tabtypes : option (list (option pyclass))) (w : World)
  : World * outcome Action :=
  if Str.startswith p "/" || Str.endswith p "/" then (w, Raise ValueError)
  else if bool_decide (is_Some filetype_names) && bool_decide (is_Some tabtypes)
  then (w, Raise TypeError)
  else if bool_decide (is_Some (_actions w !! p)) then (w, Raise RuntimeError)
  else
    match new_Action p k callback_or_choices b v w with
    | (w1, Ok action) =>
        let w2 := set_actions (<[p := action]> (_actions w1))
                    (_actions_order w1 ++ [p]) w1 in
        match get_main_window w2 with
        | Ok _ =>
            let w3 := emit (EvNewAction p) w2 in
            match install_rule p filetype_names tabtypes w3 with
            | (w4, Ok _) =>
                match install_binding p k b w4 with
                | (w5, Ok _) =>
                    (w5, match _actions w5 !! p with
                         | Some a => Ok a
                         | None => Raise KeyError
                         end)
                | (w5, Raise e) => (w5, Raise e)
                | (w5, OutOfFuel) => (w5, OutOfFuel)
                end
            | (w4, Raise e) => (w4, Raise e)
            | (w4, OutOfFuel) => (w4, OutOfFuel)
            end
        | Raise e => (w2, Raise e)
        | OutOfFuel => (w2, OutOfFuel)
        end
    | (w1, Raise e) => (w1, Raise e)
    | (w1, OutOfFuel) => (w1, OutOfFuel)
    end.

(** [add_command]. *)
Definition add_command (p : string) (cb : nat) (keyboard_binding : option string)
    (filetype_names : option (list string))
    (tabtypes : option (list (option pyclass))) (w : World)
  : World * outcome Action :=
  _add_any_action p "command" (Callback cb) keyboard_binding None
    filetype_names tabtypes w.

(** [get_action] and [get_all_actions]. *)
Definition get_action (action_path : string) (w : World) : outcome Action :=
  match _actions w !! Str.rstrip action_path "/" with
  | Some a => Ok a
  | None => Raise KeyError
  end.

Definition get_all_actions (w : World) : list Action :=
  omap (fun p => _actions w !! p) (_actions_order w).

(** A key press reaches the [bind_all] bindings of its sequence; the
    result tells whether one of them returned ['break']. *)
Definition press_key (sequence : string) (w : World) : World * bool :=
  dispatch
    (snd <$> filter (fun x => x.1 = sequence) (bind_all_bindings (bindings w)))
    None w.

(** ** tabs.py: [TabManager] *)

(** [TabManager.select(tab_id)] with a tab or an index. *)
Definition select (id : tab_id) (w : World) : World * outcome unit :=
  match tk_select (notebook w) id with
  | Ok nb => (set_notebook nb w, Ok tt)
  | Raise e => (w, Raise e)
  | OutOfFuel => (w, OutOfFuel)
  end.

(** The [for existing_tab in self.tabs()] loop of [add_tab]: the first
    existing tab the new one is equivalent to. *)
Fixpoint find_equivalent (st : gmap string nat) (tab : Tab) (existing : list Tab)
  : outcome (option Tab) :=
  match existing with
  | [] => Ok None
  | existing_tab :: rest =>
      match equivalent st tab existing_tab with
      | Ok true => Ok (Some existing_tab)
      | Ok false => find_equivalent st tab rest
      | Raise e => Raise e
      | OutOfFuel => OutOfFuel
      end
  end.

(** [event_generate('<<NewTab>>', data=tab)]. *)
Definition generate_new_tab (tab : Tab) (w : World) : World :=
  (dispatch (new_tab_bindings (bindings w)) (Some tab) (emit (EvNewTab tab) w)).1.

(** [TabManager.add_tab]. *)
Definition add_tab (tab : Tab) (select_it : bool) (w : World) : World * outcome Tab :=
  if existsb (same_widget tab) (tabs w) then (w, Raise AssertionError)
  else
    match find_equivalent (stat w) tab (tabs w) with
    | Ok (Some existing_tab) =>
        if select_it then
          match select (ByWidget existing_tab) w with
          | (w1, Ok _) => (w1, Ok existing_tab)
          | (w1, Raise e) => (w1, Raise e)
          | (w1, OutOfFuel) => (w1, OutOfFuel)
          end
        else (w, Ok existing_tab)
    | Ok None =>
        let w1 := set_notebook (tk_add (notebook w) tab) w in
        match (if select_it then select (ByWidget tab) w1 else (w1, Ok tt)) with
        | (w2, Ok _) => (generate_new_tab tab (update w2), Ok tab)
        | (w2, Raise e) => (w2, Raise e)
        | (w2, OutOfFuel) => (w2, OutOfFuel)
        end
    | Raise e => (w, Raise e)
    | OutOfFuel => (w, OutOfFuel)
    end.

(** [tab.destroy()]: the bindings on the widget go with it. *)
Definition destroy (tab : Tab) (w : World) : World :=
  let b := bindings w in
  set_bindings
    {| tab_changed_bindings := tab_changed_bindings b;
       new_tab_bindings := new_tab_bindings b;
       filetype_changed_bindings :=
         filter (fun x => x.1 ≠ winfo_name tab) (filetype_changed_bindings b);
       bind_all_bindings := bind_all_bindings b;
       text_class_unbound := text_class_unbound b |} w.

(** [TabManager.close_tab]. *)
Definition close_tab (tab : Tab) (w : World) : World * outcome unit :=
  match tk_forget (notebook w) (ByWidget tab) with
  | Ok nb => (destroy tab (set_notebook nb w), Ok tt)
  | Raise e => (w, Raise e)
  | OutOfFuel => (w, OutOfFuel)
  end.

(** [self.index(self.select())]. *)
Definition index_of_selected (w : World) : outcome nat :=
  match selected w with
  | Some t => resolve (notebook w) (ByWidget t)
  | None => Raise TclError
  end.

Definition valid_diff (diff : Z) : bool := Z.eqb diff 1 || Z.eqb diff (-1).

(** [TabManager.select_another_tab]. *)
Definition select_another_tab (diff : Z) (w : World) : World * outcome bool :=
  if negb (valid_diff diff) then (w, Raise AssertionError)
  else if bool_decide (tabs w = []) then (w, Ok false)
  else
    match index_of_selected w with
    | Ok index =>
        match select (ByIndex (Z.of_nat index + diff)) w with
        | (w1, Ok _) => (w1, Ok true)
        | (w1, Raise TclError) => (w1, Ok false)
        | (w1, Raise e) => (w1, Raise e)
        | (w1, OutOfFuel) => (w1, OutOfFuel)
        end
    | Raise e => (w, Raise e)
    | OutOfFuel => (w, OutOfFuel)
    end.

(** The second half of [move_selected_tab], from the bounds check on:
    the tab at [i2] is taken out and put back at [i1]. *)
Definition move_tab (i1 i2 : Z) (w : World) : World * outcome bool :=
  if (i1 <? 0)%Z || (Z.of_nat (length (tabs w)) <=? i2)%Z then (w, Ok false)
  else
    match tabs w !! Z.to_nat i2 with
    | None => (w, Raise KeyError)
    | Some tab =>
        let is_selected :=
          match selected w with
          | Some s => same_widget tab s
          | None => false
          end in
        match tk_forget (notebook w) (ByIndex i2) with
        | Ok nb1 =>
            let w1 := set_notebook nb1 w in
            match tk_insert nb1 i1 tab with
            | Ok nb2 =>
                let w2 := set_notebook nb2 w in
                if is_selected then
                  match select (ByWidget tab) w2 with
                  | (w3, Ok _) => (w3, Ok true)
                  | (w3, Raise e) => (w3, Raise e)
                  | (w3, OutOfFuel) => (w3, OutOfFuel)
                  end
                else (w2, Ok true)
            | Raise e => (w1, Raise e)
            | OutOfFuel => (w1, OutOfFuel)
            end
        | Raise e => (w, Raise e)
        | OutOfFuel => (w, OutOfFuel)
        end
    end.

(** [TabManager.move_selected_tab]. *)
Definition move_selected_tab (diff : Z) (w : World) : World * outcome bool :=
  if negb (valid_diff diff) then (w, Raise AssertionError)
  else if bool_decide (tabs w = []) then (w, Ok false)
  else
    match index_of_selected w with
    | Ok index =>
        let i1 := Z.of_nat index in
        let i2 := (i1 + diff)%Z in
        let '(i1, i2) := if (i2 <? i1)%Z then (i2, i1) else (i1, i2) in
        move_tab i1 i2 w
    | Raise e => (w, Raise e)
    | OutOfFuel => (w, OutOfFuel)
    end.

(** ** The application as a transition system *)

(** What can happen between two rounds of the Tk event loop. *)
Inductive op :=
| Op_add_any_action (p k : string) (callback_or_choices : callable_or_choices)
    (b : option string) (v : option string)
    (filetype_names : option (list string))
    (tabtypes : option (list (option pyclass)))
| Op_set_enabled (p : string) (is_enabled : pyval)     (* action.enabled = ... *)
| Op_press_key (sequence : string)
| Op_add_tab (tab : Tab) (select_it : bool)
| Op_close_tab (tab : Tab)
| Op_select (id : tab_id)
| Op_select_another_tab (diff : Z)
| Op_move_selected_tab (diff : Z)
| Op_file_tab_changed (name : nat) (f : FileTab)   (* a method or an edit changed a FileTab *)
| Op_files_changed (st : gmap string nat).         (* the file system changed *)

Definition replace_file_tab (name : nat) (f : FileTab) (t : Tab) : Tab :=
  match tab_body_of t with
  | AFileTab _ =>
      if Nat.eqb (winfo_name t) name
      then {| winfo_name := name; tab_body_of := AFileTab f |} else t
  | PlainTab => t
  end.

Definition set_stat (st : gmap string nat) (w : World) : World :=
  {| m_root := m_root w; notebook := notebook w; bindings := bindings w;
     _actions := _actions w; _actions_order := _actions_order w;
     tk_vars := tk_vars w; var_traces := var_traces w; focus := focus w;
     stat := st; trace := trace w |}.

(** The operation itself, up to its return or its exception. *)
Definition op_body (o : op) (w : World) : World :=
  match o with
  | Op_add_any_action p k c b v names types =>
      (_add_any_action p k c b v names types w).1
  | Op_set_enabled p v => (set_enabled p v w).1
  | Op_press_key sequence => (press_key sequence w).1
  | Op_add_tab tab select_it => (add_tab tab select_it w).1
  | Op_close_tab tab => (close_tab tab w).1
  | Op_select id => (select id w).1
  | Op_select_another_tab diff => (select_another_tab diff w).1
  | Op_move_selected_tab diff => (move_selected_tab diff w).1
  | Op_file_tab_changed name f =>
      let nb := notebook w in
      set_notebook {| nb_tabs := replace_file_tab name f <$> nb_tabs nb;
                      nb_current := nb_current nb;
                      nb_pending := nb_pending nb |} w
  | Op_files_changed st => set_stat st w
  end.

(** Back in the event loop, Tk delivers what was queued. *)
Definition run_op (o : op) (w : World) : World := update (op_body o w).

Definition run_ops (ops : list op) (w : World) : World :=
  foldl (fun w' o => run_op o w') w ops.

(** The state after [_run.init()] built the window and the tab manager
    ([TabManager.__init__] binds [_focus_selected_tab]) and before
    [_setup_actions]. *)
Definition init_world (st : gmap string nat) : World :=
  {| m_root := true;
     notebook := {| nb_tabs := []; nb_current := None; nb_pending := 0 |};
     bindings := {| tab_changed_bindings := [H_focus_selected_tab];
                    new_tab_bindings := [];
                    filetype_changed_bindings := [];
                    bind_all_bindings := [];
                    text_class_unbound := [] |};
     _actions := ∅;
     _actions_order := [];
     tk_vars := ∅;
     var_traces := [];
     focus := None;
     stat := st;
     trace := [] |}.

Inductive reachable : World -> Prop :=
| reachable_init st : reachable (init_world st)
| reachable_step o w : reachable w -> reachable (run_op o w).

(** The action of a path, and whether it is enabled. *)
Definition enabled (p : string) (w : World) : option bool :=
  _enabled <$> _actions w !! p.

Definition is_FileTab (v : option Tab) : bool :=
  match tab_body_of <$> v with
  | Some (AFileTab _) => true
  | _ => false
  end.

(** ** Invariants of the running application *)

(** The action whose [enabled] flag a closure assigns. *)
Definition handler_target (h : handler) : option string :=
  match h with
  | H_enable_or_disable_tabtypes p _ => Some p
  | H_enable_or_disable_filetypes p _ => Some p
  | _ => None
  end.

(** The closures that return [None] whatever happens. *)
Definition never_breaks (h : handler) : bool :=
  match h with
  | H_bind_callback _ _ => false
  | _ => true
  end.

Definition targets (hs : list handler) : list string := omap handler_target hs.

(** What Tk guarantees of a notebook: a window is managed once, and a
    tab is current exactly when there are tabs. *)
Definition nb_wf (nb : Notebook) : Prop :=
  NoDup (winfo_name <$> nb_tabs nb) /\
  match nb_current nb with
  | Some c => c < length (nb_tabs nb)
  | None => nb_tabs nb = []
  end.

(** What [actions.py] maintains: an action is stored under its own
    path, which has no separator at either end; the closures bound to
    [<<NotebookTabChanged>>] never stop the event, and at most one of
    them assigns the flag of a given action, which is registered;
    [<<NewTab>>] closures assign no flag. *)
Record registry_wf (w : World) : Prop := {
  wf_root : m_root w = true;
  wf_paths : forall p a,
    _actions w !! p = Some a ->
    path a = p /\ Str.startswith p "/" = false /\ Str.endswith p "/" = false;
  wf_never_breaks :
    Forall (fun h => never_breaks h = true) (tab_changed_bindings (bindings w));
  wf_targets_nodup : NoDup (targets (tab_changed_bindings (bindings w)));
  wf_targets_registered : forall p,
    p ∈ targets (tab_changed_bindings (bindings w)) -> is_Some (_actions w !! p);
  wf_new_tab :
    Forall (fun h => handler_target h = None) (new_tab_bindings (bindings w));
}.

Definition wf (w : World) : Prop :=
  registry_wf w /\ nb_wf (notebook w) /\ nb_pending (notebook w) = 0.

(** Two registries with the same actions, up to their flags. *)
Definition actions_like (m m' : gmap string Action) : Prop :=
  forall q,
    match m !! q, m' !! q with
    | Some a, Some a' => exists b, a' = with_enabled b a
    | None, None => True
    | _, _ => False
    end.

(** What running closures leaves alone. *)
Definition evolves (w w' : World) : Prop :=
  m_root w' = m_root w /\
  tab_changed_bindings (bindings w') = tab_changed_bindings (bindings w) /\
  new_tab_bindings (bindings w') = new_tab_bindings (bindings w) /\
  actions_like (_actions w) (_actions w').

Definition frame (w w' : World) : Prop :=
  evolves w w' /\ notebook w' = notebook w /\ stat w' = stat w.

(** Changes to the trace, to the focus and to the Tk variables. *)
Definition quiet (w w' : World) : Prop :=
  m_root w' = m_root w /\ notebook w' = notebook w /\
  bindings w' = bindings w /\ _actions w' = _actions w /\
  _actions_order w' = _actions_order w /\ stat w' = stat w /\
  var_traces w' = var_traces w.

(** A later state has the closures and the actions of an earlier one. *)
Definition grows (w w' : World) : Prop :=
  (forall h, h ∈ tab_changed_bindings (bindings w) ->
             h ∈ tab_changed_bindings (bindings w')) /\
  (forall q, is_Some (_actions w !! q) -> is_Some (_actions w' !! q)).

(** What a step of the registration leaves in place. *)
Definition registration_step (w w' : World) : Prop :=
  grows w w' /\ notebook w' = notebook w /\ stat w' = stat w /\
  (forall q, is_Some (_actions w' !! q) -> is_Some (_actions w !! q)).

(** Either a [<<NotebookTabChanged>>] was queued, or the tab that was
    current is still current. *)
Definition nb_step (nb nb' : Notebook) : Prop :=
  nb_pending nb <= nb_pending nb' /\
  (nb_pending nb' = nb_pending nb -> current_tab nb' = current_tab nb).

(** The flag of [p] says whether the current tab is of one of the
    classes [tabtypes]. *)
Definition consistent (p : string) (tabtypes : list pyclass) (w : World) : Prop :=
  enabled p w = Some (isinstance (selected w) tabtypes).

(** The rule of [p] is installed and [p] is registered. *)
Definition rule_installed (p : string) (tt : list pyclass) (w : World) : Prop :=
  H_enable_or_disable_tabtypes p tt ∈ tab_changed_bindings (bindings w) /\
  is_Some (_actions w !! p).

(** The widget that is current, by name. *)
Definition selected_name (w : World) : option nat := winfo_name <$> selected w.

(** ** What observers can tell from the events *)

(** The flag of [p] as [<<ActionEnabled>>] and [<<ActionDisabled>>]
    tell it; an action starts enabled. *)
Definition flag_step (p : string) (b : bool) (ev : event) : bool :=
  match ev with
  | EvActionEnabled q => if String.eqb q p then true else b
  | EvActionDisabled q => if String.eqb q p then false else b
  | _ => b
  end.

Definition flag_of_trace (p : string) (tr : list event) : bool :=
  foldl (flag_step p) true tr.

(** The paths announced by [<<NewAction>>], in order. *)
Definition announced (tr : list event) : list string :=
  omap (fun ev => match ev with EvNewAction p => Some p | _ => None end) tr.

(** The events about the registry. *)
Definition is_action_event (ev : event) : bool :=
  match ev with
  | EvNewAction _ | EvActionEnabled _ | EvActionDisabled _ => true
  | _ => false
  end.

(** The [bind_all] binding that the registration of [p] made, if any. *)
Definition key_of (m : gmap string Action) (p : string) : option (string * handler) :=
  match m !! p with
  | Some a =>
      match binding a with
      | Some sequence =>
          if String.eqb (kind a) "command" || String.eqb (kind a) "yesno"
          then Some (sequence, H_bind_callback p (kind a)) else None
      | None => None
      end
  | None => None
  end.

(** The registry, its insertion order, the key bindings and the events
    agree. *)
Record log_wf (w : World) : Prop := {
  log_root : m_root w = true;
  log_nodup : NoDup (_actions_order w);
  log_order : forall q, q ∈ _actions_order w <-> is_Some (_actions w !! q);
  log_announced : announced (trace w) = _actions_order w;
  log_flags : forall q, flag_of_trace q (trace w) = default true (enabled q w);
  log_keys :
    bind_all_bindings (bindings w) = omap (key_of (_actions w)) (_actions_order w);
}.

(** A step that leaves the registry and the key bindings alone and
    adds no event about the registry. *)
Definition neutral (w w' : World) : Prop :=
  m_root w' = m_root w /\ _actions w' = _actions w /\
  _actions_order w' = _actions_order w /\
  bind_all_bindings (bindings w') = bind_all_bindings (bindings w) /\
  exists evs, trace w' = trace w ++ evs /\
              Forall (fun ev => is_action_event ev = false) evs.

(** What the enablement rule makes of the flag of a new action. *)
Definition initial_flag (names : option (list string))
    (types : option (list (option pyclass))) (w : World) : bool :=
  match types, names with
  | None, None => true
  | _, Some ns =>
      match tab_body_of <$> selected w with
      | Some (AFileTab f) => bool_decide (filetype_name f ∈ ns)
      | _ => false
      end
  | Some classes, None => isinstance (selected w) (map (default ClsNoneType) classes)
  end.

(** The actions registered with the key [sequence], in the order of
    their registration. *)
Definition bound_paths (sequence : string) (w : World) : list string :=
  filter (fun p => fst <$> key_of (_actions w) p = Some sequence) (_actions_order w).

(** Small instances of the library for the examples: an encoder that
    rejects the chunk ["?"] only, and the identity as digest. *)
Definition example_lib : PyLib :=
  {| encode_replace := fun _ s => s;
     encode_strict := fun _ s => if String.eqb s "?" then None else Some s;
     md5_hexdigest := fun s => s |}.

End App.

(* ===================================================================== *)
(** * Properties *)
(* ===================================================================== *)

(** ** Strings *)

Section StringFacts.

Lemma append_nil_l (t : string) : "" +:+ t = t.
Proof. reflexivity. Qed.

Lemma append_cons (c : ascii) (s t : string) :
  String c s +:+ t = String c (s +:+ t).
Proof. reflexivity. Qed.

Lemma append_nil_r (s : string) : s +:+ "" = s.
Proof. induction s as [|c s IH]; [done|]. by rewrite append_cons, IH. Qed.

Lemma append_assoc (a b c : string) : (a +:+ b) +:+ c = a +:+ (b +:+ c).
Proof. induction a as [|x a IH]; [done|]. by rewrite !append_cons, IH. Qed.

Lemma length_append (a b : string) :
  String.length (a +:+ b) = String.length a + String.length b.
Proof.
  induction a as [|x a IH]; [done|].
  rewrite append_cons. simpl. by rewrite IH.
Qed.

Lemma substring_split (s : string) (k : nat) :
  k <= String.length s ->
  String.substring 0 k s +:+ String.substring k (String.length s - k) s = s.
Proof.
  revert k. induction s as [|c s IH]; intros [|k] Hk; simpl in *; try lia.
  - done.
  - rewrite append_nil_l. f_equal.
    clear. induction s as [|d s IH]; [done|]. simpl. by rewrite IH.
  - rewrite append_cons. f_equal. apply IH. lia.
Qed.

Lemma rstrip_all_in (chars s : string) :
  Str.all_in chars s = true -> Str.rstrip s chars = "".
Proof.
  induction s as [|c s IH]; [done|]. simpl.
  intros [Hc Hs]%andb_prop. by rewrite IH, Hc.
Qed.

Lemma rstrip_app (chars p s : string) :
  Str.all_in chars s = true ->
  Str.rstrip (p +:+ s) chars = Str.rstrip p chars.
Proof.
  intros Hs. induction p as [|c p IH].
  - rewrite append_nil_l. by apply rstrip_all_in.
  - rewrite append_cons. simpl. by rewrite IH.
Qed.

Lemma rstrip_no_trailing (p : string) :
  Str.endswith p "/" = false -> Str.rstrip p "/" = p.
Proof.
  induction p as [|c p IH]; [done|].
  cbn [Str.endswith Str.rstrip].
  intros [Heq Hend]%orb_false_elim. rewrite (IH Hend).
  destruct p as [|d p]; [|done].
  simpl in Heq. simpl.
  destruct (Ascii.eqb c "/"); [|done].
  discriminate.
Qed.

End StringFacts.

(** ** [os.path.splitext] and the backup name *)

Section BackupFacts.
Import Utils.

Lemma rfind_from_lt (s : string) (c : ascii) (i acc : Z) :
  (acc < i + Z.of_nat (String.length s))%Z ->
  (Str.rfind_from s c i acc < i + Z.of_nat (String.length s))%Z.
Proof.
  revert i acc. induction s as [|d s IH]; intros i acc Hacc; simpl in *.
  - lia.
  - specialize (IH (i + 1)%Z (if Ascii.eqb d c then i else acc)).
    destruct (Ascii.eqb d c); lia.
Qed.

Lemma splitext_join (p : string) :
  (OsPath.splitext p).1 +:+ (OsPath.splitext p).2 = p.
Proof.
  unfold OsPath.splitext.
  destruct (Str.rfind p "/" <? Str.rfind p ".")%Z; [|apply append_nil_r].
  destruct (OsPath.splitext_scan _ _ _); [|apply append_nil_r].
  simpl. apply substring_split.
  pose proof (rfind_from_lt (s:=p) "." (i:=0) (acc:=-1)) as Hlt.
  unfold Str.rfind. lia.
Qed.

Lemma length_add_backups (k : nat) (name : string) :
  String.length (add_backups k name) = String.length name + 7 * k.
Proof.
  revert name. induction k as [|k IH]; intros name; simpl; [lia|].
  rewrite IH, length_append. simpl. lia.
Qed.

Lemma backup_name_None (fuel : nat) (fs : filesystem) (name ext : string) :
  backup_name fuel fs name ext = None ->
  forall k, k < fuel -> exists_ fs (add_backups k name +:+ ext) = true.
Proof.
  revert name. induction fuel as [|fuel IH]; intros name Hnone k Hk; [lia|].
  simpl in Hnone. destruct (exists_ fs (name +:+ ext)) eqn:E; [|done].
  destruct k as [|k]; [done|]. simpl. apply IH; [done|lia].
Qed.

Lemma backup_name_Some (fuel : nat) (fs : filesystem) (name ext name' : string) :
  backup_name fuel fs name ext = Some name' ->
  exists_ fs (name' +:+ ext) = false.
Proof.
  revert name. induction fuel as [|fuel IH]; intros name Hsome; [done|].
  simpl in Hsome. destruct (exists_ fs (name +:+ ext)) eqn:E.
  - by eapply IH.
  - by simplify_eq.
Qed.

Lemma candidate_inj (name ext : string) :
  Inj (=) (=) (fun k => add_backups k name +:+ ext).
Proof.
  intros k1 k2 Heq.
  apply (f_equal String.length) in Heq.
  rewrite !length_append, !length_add_backups in Heq. lia.
Qed.

(** The loop ends: more candidates than files. *)
Lemma backup_name_total (fs : filesystem) (name ext : string) :
  is_Some (backup_name (backup_fuel fs) fs name ext).
Proof.
  destruct (backup_name (backup_fuel fs) fs name ext) eqn:E; [by eexists|].
  exfalso.
  pose proof (backup_name_None E) as Hall.
  set (cand := fun k => add_backups k name +:+ ext) in *.
  set (l := cand <$> seq 0 (backup_fuel fs)).
  assert (NoDup l) as Hnd.
  { pose proof (@candidate_inj name ext) as Hinj.
    apply (NoDup_fmap_2 cand), NoDup_seq. }
  assert (list_to_set l ⊆ (dom fs : gset string)) as Hsub.
  { intros x [k [-> Hk%elem_of_seq]]%elem_of_list_to_set%list_elem_of_fmap.
    apply elem_of_dom. specialize (Hall k ltac:(lia)). unfold exists_ in Hall.
    by apply bool_decide_eq_true in Hall. }
  apply subseteq_size in Hsub.
  rewrite size_list_to_set, size_dom in Hsub by done.
  unfold l in Hsub. rewrite length_fmap, length_seq in Hsub.
  unfold backup_fuel in Hsub. lia.
Qed.

Lemma join_cons (d : string) (l : list string) :
  Str.join (d :: l) = d +:+ Str.join l.
Proof.
  unfold Str.join. destruct l as [|x l]; simpl.
  - by rewrite append_nil_r.
  - done.
Qed.

Lemma write_insert (fs : filesystem) (f old data : string) :
  fs !! f = Some old -> write fs f data = <[f := old +:+ data]> fs.
Proof.
  intros Hf. unfold write. apply map_eq. intros k.
  rewrite lookup_alter. destruct (decide (f = k)) as [->|Hne].
  - by rewrite Hf, lookup_insert_eq.
  - by rewrite lookup_insert_ne.
Qed.

Lemma run_body_writes (fs : filesystem) (f old : string)
    (chunks : list string) (tail : list body_step) :
  fs !! f = Some old ->
  run_body fs f ((Write <$> chunks) ++ tail) =
  run_body (<[f := old +:+ Str.join chunks]> fs) f tail.
Proof.
  revert fs old. induction chunks as [|d chunks IH]; intros fs old Hf.
  - simpl. unfold Str.join. simpl. rewrite append_nil_r. by rewrite insert_id.
  - simpl. rewrite (write_insert _ Hf).
    rewrite (IH _ (old +:+ d)) by apply lookup_insert_eq.
    by rewrite insert_insert_eq, join_cons, append_assoc.
Qed.

Lemma restore_backup (fs : filesystem) (p bp A data : string) :
  fs !! p = Some A -> fs !! bp = None ->
  <[p := A]> (delete bp (<[p := data]> (<[bp := A]> fs))) = fs.
Proof.
  intros Hp Hbp. assert (p ≠ bp) by congruence.
  apply map_eq. intros k.
  destruct (decide (k = p)) as [->|Hkp].
  { by rewrite lookup_insert_eq. }
  rewrite lookup_insert_ne by done.
  destruct (decide (k = bp)) as [->|Hkb].
  { by rewrite lookup_delete_eq. }
  by rewrite lookup_delete_ne, !lookup_insert_ne.
Qed.

Lemma remove_backup (fs : filesystem) (p bp A data : string) :
  fs !! p = Some A -> fs !! bp = None ->
  delete bp (<[p := data]> (<[bp := A]> fs)) = <[p := data]> fs.
Proof.
  intros Hp Hbp. assert (p ≠ bp) by congruence.
  apply map_eq. intros k.
  destruct (decide (k = bp)) as [->|Hkb].
  { by rewrite lookup_delete_eq, lookup_insert_ne. }
  rewrite lookup_delete_ne by done.
  destruct (decide (k = p)) as [->|Hkp].
  { by rewrite !lookup_insert_eq. }
  by rewrite !lookup_insert_ne.
Qed.

(** The run of [backup_open] on an existing file, for any body that
    writes [chunks] and then does [tail]. *)
Lemma backup_open_existing (fs : filesystem) (path A : string)
    (chunks : list string) (tail : list body_step) :
  fs !! path = Some A ->
  exists bp,
    fs !! bp = None /\
    backup_open (backup_fuel fs) fs path ((Write <$> chunks) ++ tail) =
    match run_body (<[path := Str.join chunks]> (<[bp := A]> fs)) path tail with
    | (fs2, Some e) =>
        match shutil_move fs2 bp path with
        | Ok fs3 => (fs3, Raise e)
        | Raise e' => (fs2, Raise e')
        | OutOfFuel => (fs2, OutOfFuel)
        end
    | (fs2, None) =>
        match os_remove fs2 bp with
        | Ok fs3 => (fs3, Ok tt)
        | Raise e' => (fs2, Raise e')
        | OutOfFuel => (fs2, OutOfFuel)
        end
    end.
Proof.
  intros Hp. unfold backup_open.
  assert (exists_ fs path = true) as ->.
  { apply bool_decide_eq_true. by eexists. }
  pose proof (splitext_join path) as Hjoin.
  destruct (OsPath.splitext path) as [name ext]. simpl in Hjoin.
  destruct (backup_name_total fs name ext) as [name' Hname]. rewrite Hname.
  apply backup_name_Some in Hname.
  assert (fs !! (name' +:+ ext) = None) as Hbp.
  { unfold exists_ in Hname. apply bool_decide_eq_false in Hname.
    by apply eq_None_not_Some. }
  exists (name' +:+ ext). split; [done|].
  unfold shutil_copy. rewrite Hp. unfold open_w.
  rewrite (run_body_writes (old:="")) by apply lookup_insert_eq.
  by rewrite insert_insert_eq, append_nil_l.
Qed.

(** Both ways out of [backup_open] on an existing file, as file systems. *)
Lemma backup_open_existing_outcomes (fs : filesystem) (path A : string)
    (chunks : list string) :
  fs !! path = Some A ->
  (forall e rest,
      backup_open (backup_fuel fs) fs path ((Write <$> chunks) ++ RaiseExn e :: rest)
      = (fs, Raise e)) /\
  backup_open (backup_fuel fs) fs path (Write <$> chunks)
  = (<[path := Str.join chunks]> fs, Ok tt).
Proof.
  intros Hp. split.
  - intros e rest.
    destruct (backup_open_existing chunks (RaiseExn e :: rest) Hp) as (bp & Hbp & ->).
    assert (path ≠ bp) by congruence.
    simpl. unfold shutil_move.
    rewrite lookup_insert_ne, lookup_insert_eq by done.
    by rewrite (restore_backup _ Hp Hbp).
  - destruct (backup_open_existing chunks [] Hp) as (bp & Hbp & Heq).
    rewrite app_nil_r in Heq. rewrite Heq.
    assert (path ≠ bp) by congruence.
    simpl. unfold os_remove.
    rewrite lookup_insert_ne, lookup_insert_eq by done.
    by rewrite (remove_backup _ Hp Hbp).
Qed.

(** On a destination that does not exist there is nothing to back up:
    the file is created and written, and stays as far as it got. *)
Lemma backup_open_new (fs : filesystem) (path : string) (chunks : list string) :
  fs !! path = None ->
  (forall e rest,
      backup_open (backup_fuel fs) fs path ((Write <$> chunks) ++ RaiseExn e :: rest)
      = (<[path := Str.join chunks]> fs, Raise e)) /\
  backup_open (backup_fuel fs) fs path (Write <$> chunks)
  = (<[path := Str.join chunks]> fs, Ok tt).
Proof.
  intros Hp.
  assert (exists_ fs path = false) as Hex.
  { apply bool_decide_eq_false. rewrite Hp. by intros [? ?]. }
  split.
  - intros e rest. unfold backup_open. rewrite Hex. unfold open_w.
    rewrite (run_body_writes (old:="")) by apply lookup_insert_eq.
    simpl. by rewrite insert_insert_eq.
  - unfold backup_open. rewrite Hex. unfold open_w.
    rewrite <- (app_nil_r (Write <$> chunks)).
    rewrite (run_body_writes (old:="")) by apply lookup_insert_eq.
    simpl. by rewrite insert_insert_eq.
Qed.

End BackupFacts.



(** ** [iter_chunks] ends *)

Section ChunkFacts.
Import FileTabs.

Lemma count_le_length (s : string) (c : ascii) :
  Str.count s c <= String.length s.
Proof.
  induction s as [|d s IH]; simpl; [lia|]. destruct (Ascii.eqb d c); lia.
Qed.

Lemma after_newlines_nil (k : nat) : TkText.after_newlines "" k = 0.
Proof. by destruct k. Qed.

(** A line past the last one is ['end']. *)
Lemma after_newlines_end (s : string) (k : nat) :
  Str.count s TkText.newline < k ->
  TkText.after_newlines (TkText.all s) k = String.length (TkText.all s).
Proof.
  unfold TkText.all. revert k.
  induction s as [|c s IH]; intros k Hk.
  - destruct k as [|k]; [lia|]. rewrite append_nil_l.
    cbn [TkText.after_newlines String.length].
    by destruct (if Ascii.eqb TkText.newline TkText.newline then k else S k).
  - destruct k as [|k]; [lia|]. rewrite append_cons.
    cbn [TkText.after_newlines String.length]. f_equal.
    simpl in Hk. destruct (Ascii.eqb c TkText.newline); apply IH; lia.
Qed.

Lemma iter_chunks_loop_total (content : string) (n fuel start : nat) :
  Str.count content TkText.newline + 1 <= start + n * S fuel - 1 ->
  exists chunks, iter_chunks_loop (S fuel) content n start = Ok chunks.
Proof.
  revert start. induction fuel as [|fuel IH]; intros start Hle.
  - cbn [iter_chunks_loop]. unfold TkText.index at 1 2.
    rewrite after_newlines_end by lia. rewrite Nat.eqb_refl. by eexists.
  - remember (S fuel) as fuel' eqn:Hfuel. cbn [iter_chunks_loop].
    destruct (Nat.eqb _ _); [by eexists|].
    subst fuel'. destruct (IH (start + n)) as [rest ->]; [lia|]. by eexists.
Qed.

Lemma iter_chunks_total (content : string) :
  exists chunks, iter_chunks content 100 = Ok chunks.
Proof.
  apply iter_chunks_loop_total.
  pose proof (count_le_length content TkText.newline). lia.
Qed.

Context `{PyLib}.

Lemma _get_hash_total (encoding : string) (t : FileTab) :
  exists h, _get_hash encoding t = Ok h.
Proof.
  unfold _get_hash. destruct (iter_chunks_total (textwidget t)) as [chunks ->].
  by eexists.
Qed.

(** The digest reads the content, and nothing else of the tab. *)
Lemma _get_hash_content (encoding : string) (t u : FileTab) :
  textwidget t = textwidget u -> _get_hash encoding t = _get_hash encoding u.
Proof. unfold _get_hash. by intros ->. Qed.

Lemma is_saved_total (encoding : string) (t : FileTab) :
  exists b, is_saved encoding t = Ok b.
Proof.
  unfold is_saved. destruct (_get_hash_total encoding t) as [h ->]. by eexists.
Qed.

Lemma _update_title_total (encoding : string) (t : FileTab) :
  exists title, _update_title encoding t = Ok (with_title title t).
Proof.
  unfold _update_title. destruct (is_saved_total encoding t) as [b ->].
  by eexists.
Qed.

Lemma mark_saved_total (encoding : string) (t : FileTab) :
  exists h title,
    _get_hash encoding t = Ok h /\
    mark_saved encoding t = Ok (with_title title (with_save_hash (Some h) t)).
Proof.
  unfold mark_saved. destruct (_get_hash_total encoding t) as [h Hh].
  rewrite Hh.
  destruct (_update_title_total encoding (with_save_hash (Some h) t)) as [title ->].
  by exists h, title.
Qed.

End ChunkFacts.

(** C2.  [mark_saved] stores the digest of the current content, so
    [is_saved] right after it answers [True]; [is_saved] answers [True]
    exactly when the digest computed now is the stored one; and once the
    content is changed to one with another digest, [is_saved] answers
    [False], until [mark_saved] is called again. *)
Theorem is_saved_compares_digests `{PyLib} (encoding : string) (t : FileTabs.FileTab) :
  exists h t',
    FileTabs._get_hash encoding t = Ok h /\
    FileTabs.mark_saved encoding t = Ok t' /\
    FileTabs.textwidget t' = FileTabs.textwidget t /\
    FileTabs._save_hash t' = Some h /\
    FileTabs.is_saved encoding t' = Ok true /\
    (forall u, exists hu,
        FileTabs._get_hash encoding u = Ok hu /\
        FileTabs.is_saved encoding u
        = Ok (bool_decide (FileTabs._save_hash u = Some hu))) /\
    (forall content, exists h' t'',
        FileTabs._get_hash encoding (FileTabs.with_content content t') = Ok h' /\
        (h' <> h ->
         FileTabs.is_saved encoding (FileTabs.with_content content t') = Ok false) /\
        FileTabs.mark_saved encoding (FileTabs.with_content content t') = Ok t'' /\
        FileTabs.is_saved encoding t'' = Ok true).
Proof.
  assert (forall u, exists hu,
             FileTabs._get_hash encoding u = Ok hu /\
             FileTabs.is_saved encoding u
             = Ok (bool_decide (FileTabs._save_hash u = Some hu))) as Hchar.
  { intros u. destruct (_get_hash_total encoding u) as [hu Hhu]. exists hu.
    split; [done|]. unfold FileTabs.is_saved. rewrite Hhu. f_equal.
    destruct (FileTabs._save_hash u) as [saved|]; [|done].
    destruct (String.eqb_spec hu saved) as [->|Hne].
    - by rewrite bool_decide_eq_true_2.
    - rewrite bool_decide_eq_false_2; [done|]. congruence. }
  assert (forall u, exists hu title,
             FileTabs._get_hash encoding u = Ok hu /\
             FileTabs.mark_saved encoding u
             = Ok (FileTabs.with_title title
                     (FileTabs.with_save_hash (Some hu) u)) /\
             FileTabs.is_saved encoding
               (FileTabs.with_title title (FileTabs.with_save_hash (Some hu) u))
             = Ok true) as Hmark.
  { intros u. destruct (mark_saved_total encoding u) as (hu & title & Hhu & Hm).
    exists hu, title. split; [done|]. split; [done|].
    unfold FileTabs.is_saved.
    change (FileTabs._get_hash encoding
              (FileTabs.with_title title (FileTabs.with_save_hash (Some hu) u)))
      with (FileTabs._get_hash encoding u).
    rewrite Hhu. simpl. by rewrite String.eqb_refl. }
  destruct (Hmark t) as (h & title & Hh & Hm & Hs).
  exists h, (FileTabs.with_title title (FileTabs.with_save_hash (Some h) t)).
  split; [done|]. split; [done|]. split; [done|]. split; [done|].
  split; [done|]. split; [done|].
  intros content.
  set (t' := FileTabs.with_title title (FileTabs.with_save_hash (Some h) t)).
  destruct (Hmark (FileTabs.with_content content t')) as (h' & title' & Hh' & Hm' & Hs').
  eexists h', _. split; [done|]. split; [|split; [exact Hm'|exact Hs']].
  intros Hne. destruct (Hchar (FileTabs.with_content content t')) as (h2 & Hh2 & ->).
  rewrite Hh' in Hh2. simplify_eq. f_equal.
  apply bool_decide_eq_false_2. simpl. congruence.
Qed.

(** C8.  Assigning an empty list to [tokens] changes nothing, assigning a
    non-empty list replaces the cache, and so a cache that holds tokens
    holds some after any series of assignments. *)
Theorem tokens_setter_ignores_empty (t : FileTabs.FileTab) :
  FileTabs.set_tokens [] t = t /\
  (forall word rest,
      FileTabs._tokens (FileTabs.set_tokens (word :: rest) t) = word :: rest) /\
  (forall assignments : list (list string),
      FileTabs._tokens t <> [] ->
      FileTabs._tokens (foldl (fun t' l => FileTabs.set_tokens l t') t assignments)
      <> []).
Proof.
  split; [done|]. split; [done|].
  intros assignments. revert t.
  induction assignments as [|l assignments IH]; intros t Ht; [done|].
  simpl. apply IH. destruct l as [|word rest]; [done|]. done.
Qed.

(** ** [save], [save_as] and [can_be_closed] *)

Section SaveFacts.
Import Utils FileTabs.
Context `{PyLib}.

Lemma body_split (body : list body_step) :
  exists chunks tail,
    body = (Write <$> chunks) ++ tail /\
    match first_error body with
    | None => tail = []
    | Some e => exists rest, tail = RaiseExn e :: rest
    end.
Proof.
  induction body as [|[data|e] body IH].
  - by exists [], [].
  - destruct IH as (chunks & tail & -> & Htail).
    exists (data :: chunks), tail. split; [done|]. exact Htail.
  - exists [], (RaiseExn e :: body). split; [done|]. by eexists.
Qed.

(** [backup_open] raises what the body raises, and nothing else. *)
Lemma backup_open_result (fs : filesystem) (path : string) (body : list body_step) :
  exists fs',
    backup_open (backup_fuel fs) fs path body =
    (fs', match first_error body with Some e => Raise e | None => Ok tt end).
Proof.
  destruct (body_split body) as (chunks & tail & Hbody & Htail).
  destruct (fs !! path) as [A|] eqn:Hp.
  - destruct (backup_open_existing_outcomes chunks Hp) as [Hfail Hok].
    destruct (first_error body) as [e|].
    + destruct Htail as [rest ->]. subst body.
      rewrite (Hfail e rest). by eexists.
    + subst tail body. rewrite app_nil_r, Hok. by eexists.
  - unfold backup_open.
    assert (exists_ fs path = false) as ->.
    { apply bool_decide_eq_false. rewrite Hp. by intros [? ?]. }
    subst body. unfold open_w.
    rewrite (run_body_writes (old:="")) by apply lookup_insert_eq.
    destruct (first_error _) as [e|].
    + destruct Htail as [rest ->]. simpl. by eexists.
    + subst tail. simpl. by eexists.
Qed.

(** The writes of [save] fail with [OSError] or [UnicodeError] only. *)
Lemma save_body_errors (encoding : string) (fault : option nat) (chunks : list string) :
  first_error (save_body encoding fault chunks) = None \/
  first_error (save_body encoding fault chunks) = Some OSError \/
  first_error (save_body encoding fault chunks) = Some UnicodeError.
Proof.
  revert fault. induction chunks as [|chunk chunks IH]; intros fault; [by left|].
  simpl. destruct fault as [[|k]|].
  - right. by left.
  - destruct (encode_strict encoding chunk); [apply IH|]. right. by right.
  - destruct (encode_strict encoding chunk); [apply IH|]. right. by right.
Qed.

(** [save] on a tab that has a path. *)
Lemma save_with_path (fuel : nat) (t : FileTab) (e : Env) (p : string) :
  _path t = Some p ->
  exists chunks t' e',
    iter_chunks (textwidget t) 100 = Ok chunks /\
    _path t' = Some p /\
    save (S fuel) t e =
    (Ok (match first_error (save_body (env_encoding e) (env_write_fault e) chunks) with
         | Some _ => VNone
         | None => VBool true
         end), t', e').
Proof.
  intros Hp. destruct (iter_chunks_total (textwidget t)) as [chunks Hchunks].
  exists chunks. cbn [save]. rewrite Hp, Hchunks. cbn [log env_encoding env_write_fault env_fs].
  set (body := save_body (env_encoding e) (env_write_fault e) chunks).
  destruct (backup_open_result (env_fs e) p body) as [fs' ->].
  destruct (save_body_errors (env_encoding e) (env_write_fault e) chunks)
    as [Hnone|[Herr|Herr]]; fold body in Hnone || fold body in Herr.
  - rewrite Hnone. cbn [with_fs env_encoding].
    destruct (mark_saved_total (env_encoding (log EvSave e)) t)
      as (h & title & _ & ->).
    eexists _, _. split; [done|]. split; [|done]. done.
  - rewrite Herr. eexists _, _. split; [done|]. split; [|done]. done.
  - rewrite Herr. eexists _, _. split; [done|]. split; [|done]. done.
Qed.

Lemma set_path_ok (new_path : string) (t : FileTab) (e : Env) :
  exists t' e',
    set_path (Some new_path) t e = (Ok tt, t', e') /\
    _path t' = Some new_path /\
    env_saveas_answers e' = env_saveas_answers e.
Proof.
  unfold set_path.
  destruct (_update_title_total (env_encoding e) (with_path (Some new_path) t))
    as [title ->].
  destruct (match _path t with
            | Some old => negb (String.eqb old new_path)
            | None => true
            end); eexists _, _; (split; [done|]); by split.
Qed.

End SaveFacts.



(** ** Closures leave the registry and the notebook in place *)

Section FrameFacts.
Import FileTabs App.

Lemma with_enabled_id (a : Action) : with_enabled (_enabled a) a = a.
Proof. by destruct a. Qed.

Lemma actions_like_refl (m : gmap string Action) : actions_like m m.
Proof.
  intros q. destruct (m !! q) as [a|]; [|done].
  exists (_enabled a). by rewrite with_enabled_id.
Qed.

Lemma actions_like_trans (m1 m2 m3 : gmap string Action) :
  actions_like m1 m2 -> actions_like m2 m3 -> actions_like m1 m3.
Proof.
  intros H12 H23 q. specialize (H12 q). specialize (H23 q).
  destruct (m1 !! q) as [a1|], (m2 !! q) as [a2|], (m3 !! q) as [a3|]; try done.
  destruct H12 as [b ->], H23 as [b' ->]. by exists b'.
Qed.

Lemma actions_like_insert (m : gmap string Action) (p : string) (a : Action) (b : bool) :
  m !! p = Some a -> actions_like m (<[p := with_enabled b a]> m).
Proof.
  intros Hp q. destruct (decide (p = q)) as [->|Hne].
  - rewrite Hp, lookup_insert_eq. by exists b.
  - rewrite lookup_insert_ne by done. apply actions_like_refl.
Qed.

Lemma evolves_refl (w : World) : evolves w w.
Proof. repeat split. apply actions_like_refl. Qed.

Lemma evolves_trans (w1 w2 w3 : World) :
  evolves w1 w2 -> evolves w2 w3 -> evolves w1 w3.
Proof.
  intros (? & ? & ? & ?) (? & ? & ? & ?). repeat split; try congruence.
  by eapply actions_like_trans.
Qed.

Lemma frame_refl (w : World) : frame w w.
Proof. split; [apply evolves_refl|done]. Qed.

Lemma frame_trans (w1 w2 w3 : World) : frame w1 w2 -> frame w2 w3 -> frame w1 w3.
Proof.
  intros (? & ? & ?) (? & ? & ?). split; [by eapply evolves_trans|].
  split; congruence.
Qed.

Lemma quiet_refl (w : World) : quiet w w.
Proof. by repeat split. Qed.

Lemma quiet_trans (w1 w2 w3 : World) : quiet w1 w2 -> quiet w2 w3 -> quiet w1 w3.
Proof.
  intros (? & ? & ? & ? & ? & ? & ?) (? & ? & ? & ? & ? & ? & ?).
  repeat split; congruence.
Qed.

Lemma quiet_frame (w w' : World) : quiet w w' -> frame w w'.
Proof.
  intros (? & ? & Hb & Ha & ? & ? & ?). repeat split; try done.
  - by rewrite Hb.
  - by rewrite Hb.
  - rewrite Ha. apply actions_like_refl.
Qed.

Lemma quiet_emit (ev : event) (w : World) : quiet w (emit ev w).
Proof. by repeat split. Qed.

Lemma _var_set_check_quiet (p : string) (w : World) : quiet w (_var_set_check p w).
Proof.
  unfold _var_set_check.
  destruct (_actions w !! p) as [a|]; [|apply quiet_refl].
  destruct (var a) as [v|]; [|apply quiet_refl].
  destruct (choices a) as [[id|l]|]; try apply quiet_refl.
  case_bool_decide; [apply quiet_refl|apply quiet_emit].
Qed.

Lemma var_set_quiet (v : string) (value : pyval) (w : World) :
  quiet w (var_set v value w).
Proof.
  unfold var_set.
  assert (quiet w (set_tk_vars (<[v:=value]> (tk_vars w)) w)) as Hq by by repeat split.
  revert Hq. generalize (set_tk_vars (<[v:=value]> (tk_vars w)) w).
  generalize (var_traces w) as l.
  induction l as [|[v' p] l IH]; intros w' Hq; [done|].
  simpl. apply IH. destruct (String.eqb v' v); [|done].
  eapply quiet_trans; [exact Hq|apply _var_set_check_quiet].
Qed.

Lemma bind_callback_quiet (p k : string) (w : World) :
  quiet w (bind_callback p k w).1.
Proof.
  unfold bind_callback.
  destruct (_actions w !! p) as [a|]; [|apply quiet_refl].
  destruct (_enabled a); [|apply quiet_refl].
  destruct (String.eqb k "command").
  - destruct (callback a) as [[id|l]|]; simpl; try apply quiet_refl.
    destruct (String.eqb k "yesno"); [|apply quiet_emit].
    destruct (var a) as [v|]; simpl; [|apply quiet_emit].
    eapply quiet_trans; [apply quiet_emit|apply var_set_quiet].
  - simpl. destruct (String.eqb k "yesno"); [|apply quiet_refl].
    destruct (var a) as [v|]; simpl; [|apply quiet_refl].
    apply var_set_quiet.
Qed.

Lemma set_enabled_frame (p : string) (v : pyval) (w : World) :
  frame w (set_enabled p v w).1.
Proof.
  unfold set_enabled. destruct v as [|b| |]; try apply frame_refl.
  destruct (_actions w !! p) as [a|] eqn:Hp; [|apply frame_refl].
  destruct (Bool.eqb (_enabled a) b); [apply frame_refl|].
  assert (frame w (set_actions (<[p:=with_enabled b a]> (_actions w))
                     (_actions_order w) w)) as Hf.
  { repeat split. simpl. by apply actions_like_insert. }
  unfold get_main_window. simpl.
  destruct (m_root w); simpl; [|exact Hf].
  eapply frame_trans; [exact Hf|]. apply quiet_frame, quiet_emit.
Qed.

Lemma set_enabled_other (p q : string) (v : pyval) (w : World) :
  q <> p -> _actions (set_enabled p v w).1 !! q = _actions w !! q.
Proof.
  intros Hne. unfold set_enabled. destruct v as [|b| |]; try done.
  destruct (_actions w !! p) as [a|] eqn:Hp; [|done].
  destruct (Bool.eqb (_enabled a) b); [done|].
  unfold get_main_window. simpl.
  destruct (m_root w); simpl; by rewrite lookup_insert_ne.
Qed.

Lemma set_enabled_sets (p : string) (b : bool) (w : World) :
  is_Some (_actions w !! p) ->
  enabled p (set_enabled p (VBool b) w).1 = Some b.
Proof.
  intros [a Hp]. unfold set_enabled, enabled. rewrite Hp.
  destruct (Bool.eqb (_enabled a) b) eqn:E.
  - simpl. rewrite Hp. simpl. f_equal. by apply Bool.eqb_prop.
  - unfold get_main_window. simpl.
    destruct (m_root w); simpl; by rewrite lookup_insert_eq.
Qed.

Lemma enable_or_disable_tabtypes_frame (p : string) (tt : list pyclass) (w : World) :
  frame w (enable_or_disable_tabtypes p tt w).1.
Proof.
  unfold enable_or_disable_tabtypes, get_tab_manager.
  destruct (m_root w); [apply set_enabled_frame|apply frame_refl].
Qed.

Lemma enable_or_disable_filetypes_frame (p : string) (names : list string) (w : World) :
  frame w (enable_or_disable_filetypes p names w).1.
Proof.
  unfold enable_or_disable_filetypes, get_tab_manager.
  destruct (m_root w); [|apply frame_refl].
  destruct (tab_body_of <$> current_tab (notebook w)) as [[|f]|];
    apply set_enabled_frame.
Qed.

Lemma run_handler_frame (h : handler) (data : option Tab) (w : World) :
  frame w (run_handler h data w).1.
Proof.
  destruct h as [|p tt|p names|p names|p k]; simpl.
  - destruct (selected w) as [t|]; [|apply frame_refl].
    destruct (tab_body_of t); [apply frame_refl|]. by apply quiet_frame.
  - pose proof (enable_or_disable_tabtypes_frame p tt w) as Hf.
    by destruct (enable_or_disable_tabtypes p tt w).
  - pose proof (enable_or_disable_filetypes_frame p names w) as Hf.
    by destruct (enable_or_disable_filetypes p names w).
  - destruct data as [t|]; [|apply frame_refl].
    destruct (tab_body_of t); [apply frame_refl|].
    repeat split. apply actions_like_refl.
  - apply quiet_frame, bind_callback_quiet.
Qed.

Lemma run_handler_other (h : handler) (data : option Tab) (w : World) (q : string) :
  handler_target h <> Some q ->
  _actions (run_handler h data w).1 !! q = _actions w !! q.
Proof.
  intros Hq. destruct h as [|p tt|p names|p names|p k]; simpl in *.
  - destruct (selected w) as [t|]; [|done]. by destruct (tab_body_of t).
  - assert (q <> p) as Hne by congruence.
    unfold enable_or_disable_tabtypes, get_tab_manager.
    destruct (m_root w); [|done].
    pose proof (set_enabled_other (VBool (isinstance (current_tab (notebook w)) tt))
                  w Hne) as Ho.
    by destruct (set_enabled p _ w).
  - assert (q <> p) as Hne by congruence.
    unfold enable_or_disable_filetypes, get_tab_manager.
    destruct (m_root w); [|done].
    destruct (tab_body_of <$> current_tab (notebook w)) as [[|f]|].
    + pose proof (set_enabled_other (VBool false) w Hne) as Ho.
      by destruct (set_enabled p _ w).
    + pose proof (set_enabled_other
                    (VBool (bool_decide (filetype_name f ∈ names))) w Hne) as Ho.
      by destruct (set_enabled p _ w).
    + pose proof (set_enabled_other (VBool false) w Hne) as Ho.
      by destruct (set_enabled p _ w).
  - destruct data as [t|]; [|done]. by destruct (tab_body_of t).
  - destruct (bind_callback_quiet p k w) as (_ & _ & _ & -> & _). done.
Qed.

Lemma run_handler_never_breaks (h : handler) (data : option Tab) (w : World) (s : string) :
  never_breaks h = true -> (run_handler h data w).2 <> Ok (Some s).
Proof.
  intros Hh. destruct h as [|p tt|p names|p names|p k]; simpl in *; try done.
  - destruct (selected w) as [t|]; [|done]. by destruct (tab_body_of t).
  - destruct (enable_or_disable_tabtypes p tt w) as [w' [[]|e|]]; done.
  - destruct (enable_or_disable_filetypes p names w) as [w' [[]|e|]]; done.
  - destruct data as [t|]; [|done]. by destruct (tab_body_of t).
Qed.

Lemma dispatch_cons (h : handler) (hs : list handler) (data : option Tab) (w : World) :
  (dispatch (h :: hs) data w).1 = (run_handler h data w).1 \/
  (dispatch (h :: hs) data w).1 = (dispatch hs data (run_handler h data w).1).1.
Proof.
  simpl. destruct (run_handler h data w) as [w' [[s|]|e|]]; simpl; auto.
Qed.

Lemma dispatch_frame (hs : list handler) (data : option Tab) (w : World) :
  frame w (dispatch hs data w).1.
Proof.
  revert w. induction hs as [|h hs IH]; intros w; [apply frame_refl|].
  destruct (dispatch_cons h hs data w) as [-> | ->].
  - apply run_handler_frame.
  - eapply frame_trans; [apply run_handler_frame|apply IH].
Qed.

Lemma dispatch_other (hs : list handler) (data : option Tab) (w : World) (q : string) :
  q ∉ targets hs ->
  _actions (dispatch hs data w).1 !! q = _actions w !! q.
Proof.
  revert w. induction hs as [|h hs IH]; intros w Hq; [done|].
  assert (handler_target h <> Some q /\ q ∉ targets hs) as [Hh Hrest].
  { unfold targets in *. simpl in Hq.
    destruct (handler_target h) as [p|]; [|done].
    apply not_elem_of_cons in Hq as [? ?]. split; [congruence|done]. }
  destruct (dispatch_cons h hs data w) as [-> | ->].
  - by apply run_handler_other.
  - rewrite IH by done. by apply run_handler_other.
Qed.

End FrameFacts.

(** ** The registry invariant is kept *)

Section RegistryFacts.
Import FileTabs App.

Lemma frame_evolves (w w' : World) : frame w w' -> evolves w w'.
Proof. by intros [? _]. Qed.

Lemma evolves_grows (w w' : World) : evolves w w' -> grows w w'.
Proof.
  intros (_ & Htc & _ & Hlike). split.
  - intros h. by rewrite Htc.
  - intros q [a Hq]. specialize (Hlike q). rewrite Hq in Hlike.
    destruct (_actions w' !! q); [by eexists|done].
Qed.

Lemma grows_refl (w : World) : grows w w.
Proof. by split. Qed.

Lemma grows_trans (w1 w2 w3 : World) : grows w1 w2 -> grows w2 w3 -> grows w1 w3.
Proof. intros [? ?] [? ?]. split; auto. Qed.

Lemma registry_wf_evolves (w w' : World) :
  registry_wf w -> evolves w w' -> registry_wf w'.
Proof.
  intros [Hroot Hpaths Hnb Hnd Hreg Hnew] (Hr & Htc & Hnt & Hlike).
  split.
  - congruence.
  - intros p a' Hp. specialize (Hlike p). rewrite Hp in Hlike.
    destruct (_actions w !! p) as [a|] eqn:Ha; [|done].
    destruct Hlike as [b ->]. by apply Hpaths in Ha.
  - by rewrite Htc.
  - by rewrite Htc.
  - rewrite Htc. intros p Hp. apply Hreg in Hp as [a Ha].
    specialize (Hlike p). rewrite Ha in Hlike.
    destruct (_actions w' !! p); [by eexists|done].
  - by rewrite Hnt.
Qed.

Lemma evolves_set_notebook (nb : Notebook) (w : World) : evolves w (set_notebook nb w).
Proof. repeat split. apply actions_like_refl. Qed.

Lemma evolves_set_stat (st : gmap string nat) (w : World) : evolves w (set_stat st w).
Proof. repeat split. apply actions_like_refl. Qed.

Lemma evolves_destroy (t : Tab) (w : World) : evolves w (destroy t w).
Proof. repeat split. apply actions_like_refl. Qed.

Lemma deliver_frame (k : nat) (w : World) : frame w (deliver k w).
Proof.
  revert w. induction k as [|k IH]; intros w; [apply frame_refl|].
  simpl. eapply frame_trans; [apply dispatch_frame|apply IH].
Qed.

Lemma evolves_update (w : World) : evolves w (update w).
Proof.
  unfold update. eapply evolves_trans; [apply evolves_set_notebook|].
  apply frame_evolves, deliver_frame.
Qed.

Lemma notebook_update (w : World) :
  notebook (update w) =
  {| nb_tabs := nb_tabs (notebook w); nb_current := nb_current (notebook w);
     nb_pending := 0 |}.
Proof.
  unfold update. by destruct (deliver_frame (nb_pending (notebook w))
    (set_notebook {| nb_tabs := nb_tabs (notebook w);
                     nb_current := nb_current (notebook w);
                     nb_pending := 0 |} w)) as (_ & -> & _).
Qed.

Lemma stat_update (w : World) : stat (update w) = stat w.
Proof.
  unfold update. by destruct (deliver_frame (nb_pending (notebook w))
    (set_notebook {| nb_tabs := nb_tabs (notebook w);
                     nb_current := nb_current (notebook w);
                     nb_pending := 0 |} w)) as (_ & _ & ->).
Qed.

Lemma evolves_select (id : tab_id) (w : World) : evolves w (select id w).1.
Proof.
  unfold select. destruct (tk_select (notebook w) id); simpl;
    [apply evolves_set_notebook|apply evolves_refl..].
Qed.

Lemma evolves_generate_new_tab (t : Tab) (w : World) :
  evolves w (generate_new_tab t w).
Proof.
  unfold generate_new_tab.
  eapply evolves_trans; [|apply frame_evolves, dispatch_frame].
  apply frame_evolves, quiet_frame, quiet_emit.
Qed.

Lemma evolves_add_tab (t : Tab) (sel : bool) (w : World) :
  evolves w (add_tab t sel w).1.
Proof.
  unfold add_tab. destruct (existsb _ _); [apply evolves_refl|].
  destruct (find_equivalent _ _ _) as [[ex|]|e|]; try apply evolves_refl.
  - destruct sel; [|apply evolves_refl].
    pose proof (evolves_select (ByWidget ex) w) as He.
    by destruct (select (ByWidget ex) w) as [w1 [[]|e|]].
  - set (w1 := set_notebook (tk_add (notebook w) t) w).
    assert (evolves w w1) as H1 by apply evolves_set_notebook.
    assert (evolves w (if sel then select (ByWidget t) w1 else (w1, Ok ())).1) as H2.
    { destruct sel; [|done]. eapply evolves_trans; [exact H1|apply evolves_select]. }
    destruct (if sel then select (ByWidget t) w1 else (w1, Ok ())) as [w2 [[]|e|]];
      simpl in *; try done.
    eapply evolves_trans; [exact H2|].
    eapply evolves_trans; [apply evolves_update|apply evolves_generate_new_tab].
Qed.

Lemma evolves_close_tab (t : Tab) (w : World) : evolves w (close_tab t w).1.
Proof.
  unfold close_tab. destruct (tk_forget _ _); simpl; try apply evolves_refl.
  eapply evolves_trans; [apply evolves_set_notebook|apply evolves_destroy].
Qed.

Lemma evolves_select_another_tab (diff : Z) (w : World) :
  evolves w (select_another_tab diff w).1.
Proof.
  unfold select_another_tab. destruct (negb _); [apply evolves_refl|].
  case_bool_decide; [apply evolves_refl|].
  destruct (index_of_selected w) as [i|e|]; try apply evolves_refl.
  pose proof (evolves_select (ByIndex (Z.of_nat i + diff)) w) as He.
  by destruct (select _ w) as [w1 [[]|[]|]].
Qed.

Lemma evolves_move_tab (i1 i2 : Z) (w : World) : evolves w (move_tab i1 i2 w).1.
Proof.
  unfold move_tab.
  destruct (_ || _); [apply evolves_refl|].
  destruct (tabs w !! Z.to_nat i2) as [t|]; [|apply evolves_refl].
  destruct (tk_forget _ _) as [nb1|e|]; try apply evolves_refl.
  destruct (tk_insert _ _ _) as [nb2|e|]; simpl; try apply evolves_set_notebook.
  destruct (match selected w with Some s => same_widget t s | None => false end);
    [|apply evolves_set_notebook].
  pose proof (evolves_select (ByWidget t) (set_notebook nb2 w)) as He.
  assert (evolves w (select (ByWidget t) (set_notebook nb2 w)).1) as He'.
  { eapply evolves_trans; [apply evolves_set_notebook|exact He]. }
  by destruct (select (ByWidget t) (set_notebook nb2 w)) as [w3 [[]|e|]].
Qed.

Lemma evolves_move_selected_tab (diff : Z) (w : World) :
  evolves w (move_selected_tab diff w).1.
Proof.
  unfold move_selected_tab. destruct (negb _); [apply evolves_refl|].
  case_bool_decide; [apply evolves_refl|].
  destruct (index_of_selected w) as [i|e|]; try apply evolves_refl.
  destruct (_ <? _)%Z; apply evolves_move_tab.
Qed.

Lemma evolves_press_key (sequence : string) (w : World) :
  evolves w (press_key sequence w).1.
Proof. apply frame_evolves, dispatch_frame. Qed.

(** *** Registering an action *)

Lemma new_Action_spec (p k : string) (c : callable_or_choices)
    (b v : option string) (w : World) :
  frame w (new_Action p k c b v w).1 /\
  forall a, (new_Action p k c b v w).2 = Ok a -> path a = p.
Proof.
  unfold new_Action.
  destruct (String.eqb k "command"); [split; [apply frame_refl|by intros a [= <-]]|].
  destruct (String.eqb k "choice").
  { destruct v as [name|]; simpl.
    - split; [|by intros a [= <-]]. repeat split. apply actions_like_refl.
    - split; [apply frame_refl|done]. }
  destruct (String.eqb k "yesno"); (split; [apply frame_refl|]).
  - by intros a [= <-].
  - done.
Qed.

Lemma targets_app (l1 l2 : list handler) : targets (l1 ++ l2) = targets l1 ++ targets l2.
Proof. apply omap_app. Qed.

Lemma registry_wf_bind_tab_changed (h : handler) (w : World) :
  registry_wf w ->
  never_breaks h = true ->
  (forall q, handler_target h = Some q ->
             (q ∉ targets (tab_changed_bindings (bindings w))) /\
             is_Some (_actions w !! q)) ->
  registry_wf (bind_tab_changed h w).
Proof.
  intros [Hroot Hpaths Hnb Hnd Hreg Hnew] Hh Hq. split; simpl; try done.
  - apply Forall_app. split; [done|]. by apply Forall_singleton.
  - rewrite targets_app. unfold targets at 2. simpl.
    destruct (handler_target h) as [q|]; simpl; [|by rewrite app_nil_r].
    destruct (Hq q eq_refl) as [Hfresh _].
    apply NoDup_app. split; [done|]. split; [|apply NoDup_singleton].
    intros x Hx ->%list_elem_of_singleton. done.
  - intros p. rewrite targets_app. unfold targets at 2. simpl.
    intros [Hp|Hp]%elem_of_app; [by apply Hreg|].
    destruct (handler_target h) as [q|]; simpl in Hp; [|by apply elem_of_nil in Hp].
    apply list_elem_of_singleton in Hp as ->. by apply Hq.
Qed.

Lemma registry_wf_bind_new_tab (p : string) (names : list string) (w : World) :
  registry_wf w -> registry_wf (bind_new_tab (H_on_new_tab p names) w).
Proof.
  intros [Hroot Hpaths Hnb Hnd Hreg Hnew]. split; simpl; try done.
  apply Forall_app. split; [done|]. by apply Forall_singleton.
Qed.

Lemma registration_step_refl (w : World) : registration_step w w.
Proof. repeat split; auto. Qed.

Lemma registration_step_trans (w1 w2 w3 : World) :
  registration_step w1 w2 -> registration_step w2 w3 -> registration_step w1 w3.
Proof.
  intros (? & ? & ? & ?) (? & ? & ? & ?).
  split; [by eapply grows_trans|]. repeat split; try congruence. auto.
Qed.

Lemma frame_registration_step (w w' : World) : frame w w' -> registration_step w w'.
Proof.
  intros (He & ? & ?). split; [by apply evolves_grows|]. repeat split; try done.
  intros q [a Hq]. destruct He as (_ & _ & _ & Hlike). specialize (Hlike q).
  rewrite Hq in Hlike. destruct (_actions w !! q); [by eexists|done].
Qed.

Lemma bind_tab_changed_step (h : handler) (w : World) :
  registration_step w (bind_tab_changed h w).
Proof.
  repeat split; simpl; auto. intros h' Hh'. apply elem_of_app. by left.
Qed.

Lemma install_rule_spec (p : string) (names : option (list string))
    (types : option (list (option pyclass))) (w : World) :
  registry_wf w ->
  is_Some (_actions w !! p) ->
  p ∉ targets (tab_changed_bindings (bindings w)) ->
  registry_wf (install_rule p names types w).1 /\
  registration_step w (install_rule p names types w).1.
Proof.
  intros Hwf Hp Hfresh. unfold install_rule.
  destruct types as [classes|], names as [names|].
  1,3: (* a file-type rule *)
    unfold get_tab_manager; rewrite (wf_root Hwf);
    set (w1 := bind_new_tab (H_on_new_tab p names) w);
    pose proof (enable_or_disable_filetypes_frame p names w1) as Hf;
    assert (registry_wf w1) as Hwf1 by (by apply registry_wf_bind_new_tab);
    assert (registration_step w w1) as Hs1 by (repeat split; auto);
    (destruct (enable_or_disable_filetypes p names w1) as [w2 [[]|e|]];
     simpl in Hf;
     assert (registry_wf w2) as Hwf2
       by (eapply registry_wf_evolves; [exact Hwf1|by apply frame_evolves]);
     assert (registration_step w w2) as Hs2
       by (eapply registration_step_trans;
           [exact Hs1|by apply frame_registration_step]);
     simpl; [|done..]);
    (split;
     [apply registry_wf_bind_tab_changed; [done|done|];
      intros q [= <-]; destruct Hf as ((_ & Htc & _ & Hlike) & _ & _);
      rewrite Htc; split; [done|];
      destruct Hp as [a Ha]; specialize (Hlike p);
      replace (_actions w1 !! p) with (Some a) in Hlike by done;
      destruct (_actions w2 !! p); [by eexists|done]
     |eapply registration_step_trans; [exact Hs2|apply bind_tab_changed_step]]).
  - (* a tab-type rule *)
    set (classes' := map (default ClsNoneType) classes).
    pose proof (enable_or_disable_tabtypes_frame p classes' w) as Hf.
    destruct (enable_or_disable_tabtypes p classes' w) as [w1 [[]|e|]];
      simpl in Hf;
      assert (registry_wf w1) as Hwf1
        by (eapply registry_wf_evolves; [exact Hwf|by apply frame_evolves]);
      assert (registration_step w w1) as Hs1 by (by apply frame_registration_step);
      simpl; [|done..].
    unfold get_tab_manager. rewrite (wf_root Hwf1). simpl.
    split.
    + apply registry_wf_bind_tab_changed; [done|done|].
      intros q [= <-]. destruct Hf as ((_ & Htc & _ & Hlike) & _ & _).
      rewrite Htc. split; [done|].
      destruct Hp as [a Ha]. specialize (Hlike p). rewrite Ha in Hlike.
      destruct (_actions w1 !! p); [by eexists|done].
    + eapply registration_step_trans; [exact Hs1|apply bind_tab_changed_step].
  - split; [done|apply registration_step_refl].
Qed.

Lemma install_binding_spec (p k : string) (b : option string) (w : World) :
  registry_wf w ->
  registry_wf (install_binding p k b w).1 /\
  registration_step w (install_binding p k b w).1.
Proof.
  intros Hwf. unfold install_binding.
  destruct b as [sequence|]; [|split; [done|apply registration_step_refl]].
  destruct (_ || _); simpl; [|split; [done|apply registration_step_refl]].
  split.
  - destruct Hwf. by split.
  - repeat split; auto.
Qed.

Lemma registry_wf_store (p : string) (a : Action) (w : World) :
  registry_wf w ->
  path a = p -> Str.startswith p "/" = false -> Str.endswith p "/" = false ->
  registry_wf (set_actions (<[p := a]> (_actions w)) (_actions_order w ++ [p]) w).
Proof.
  intros [Hroot Hpaths Hnb Hnd Hreg Hnew] Ha Hs He. split; simpl; try done.
  - intros q a'. destruct (decide (p = q)) as [<-|Hne].
    + rewrite lookup_insert_eq. by intros [= <-].
    + rewrite lookup_insert_ne by done. apply Hpaths.
  - intros q Hq. apply Hreg in Hq. destruct (decide (p = q)) as [<-|Hne].
    + rewrite lookup_insert_eq. by eexists.
    + by rewrite lookup_insert_ne.
Qed.

(** The invariant survives a registration, whether it succeeds or
    raises half-way; the notebook is not touched. *)
Lemma _add_any_action_spec (p k : string) (c : callable_or_choices)
    (b v : option string) (names : option (list string))
    (types : option (list (option pyclass))) (w : World) :
  registry_wf w ->
  registry_wf (_add_any_action p k c b v names types w).1 /\
  grows w (_add_any_action p k c b v names types w).1 /\
  notebook (_add_any_action p k c b v names types w).1 = notebook w /\
  stat (_add_any_action p k c b v names types w).1 = stat w.
Proof.
  intros Hwf. unfold _add_any_action.
  destruct (Str.startswith p "/" || Str.endswith p "/") eqn:Hslash.
  { split; [done|]. split; [apply grows_refl|done]. }
  apply orb_false_elim in Hslash as [Hstart Hend].
  destruct (_ && _). { split; [done|]. split; [apply grows_refl|done]. }
  case_bool_decide as Hdup. { split; [done|]. split; [apply grows_refl|done]. }
  destruct (new_Action_spec p k c b v w) as [Hf Hpath].
  destruct (new_Action p k c b v w) as [w1 [a| |]]; simpl in Hf, Hpath.
  2,3: (split; [eapply registry_wf_evolves; [exact Hwf|by apply frame_evolves]|];
        split; [by apply evolves_grows, frame_evolves|];
        by destruct Hf as (_ & ? & ?)).
  assert (registry_wf w1) as Hwf1
    by (eapply registry_wf_evolves; [exact Hwf|by apply frame_evolves]).
  assert (registration_step w w1) as Hs1 by by apply frame_registration_step.
  assert (forall q, is_Some (_actions w1 !! q) -> is_Some (_actions w !! q)) as Hback
    by apply Hs1.
  set (w2 := set_actions (<[p := a]> (_actions w1)) (_actions_order w1 ++ [p]) w1).
  assert (registry_wf w2) as Hwf2 by (by apply registry_wf_store; auto).
  assert (grows w1 w2 /\ notebook w2 = notebook w1 /\ stat w2 = stat w1) as Hs2.
  { repeat split; auto. intros q Hq. simpl.
    destruct (decide (p = q)) as [<-|Hne];
      [rewrite lookup_insert_eq; by eexists|by rewrite lookup_insert_ne]. }
  assert (grows w w2 /\ notebook w2 = notebook w /\ stat w2 = stat w) as Hs02.
  { destruct Hs1 as (? & ? & ? & _), Hs2 as (? & ? & ?).
    split; [by eapply grows_trans|]. split; congruence. }
  unfold get_main_window. rewrite (wf_root Hwf2).
  set (w3 := emit (EvNewAction p) w2).
  assert (registry_wf w3) as Hwf3
    by (eapply registry_wf_evolves;
        [exact Hwf2|apply frame_evolves, quiet_frame, quiet_emit]).
  assert (p ∉ targets (tab_changed_bindings (bindings w3))) as Hfresh.
  { intros Hin. apply Hdup, Hback.
    apply (wf_targets_registered Hwf1). exact Hin. }
  assert (is_Some (_actions w3 !! p)) as Hp3.
  { simpl. rewrite lookup_insert_eq. by eexists. }
  destruct (install_rule_spec names types Hwf3 Hp3 Hfresh) as [Hwf4 Hs4].
  assert (grows w (install_rule p names types w3).1 /\
          notebook (install_rule p names types w3).1 = notebook w /\
          stat (install_rule p names types w3).1 = stat w) as Hs04.
  { destruct Hs02 as (? & ? & ?), Hs4 as (Hg4 & ? & ? & _).
    assert (notebook w3 = notebook w2) by done.
    assert (stat w3 = stat w2) by done.
    split; [|split; congruence].
    eapply grows_trans; [eassumption|]. exact Hg4. }
  destruct (install_rule p names types w3) as [w4 [[]|e|]]; simpl in *; try done.
  destruct (install_binding_spec p k b Hwf4) as [Hwf5 Hs5].
  assert (grows w (install_binding p k b w4).1 /\
          notebook (install_binding p k b w4).1 = notebook w /\
          stat (install_binding p k b w4).1 = stat w) as Hs05.
  { destruct Hs04 as (? & ? & ?), Hs5 as (? & ? & ? & _).
    split; [by eapply grows_trans|]. split; congruence. }
  by destruct (install_binding p k b w4) as [w5 [[]|e|]].
Qed.

(** *** Every operation keeps the invariant *)

Lemma op_body_registry_wf (o : op) (w : World) :
  registry_wf w -> registry_wf (op_body o w) /\ grows w (op_body o w).
Proof.
  intros Hwf.
  assert (forall w', evolves w w' -> registry_wf w' /\ grows w w') as Hev.
  { intros w' He. split; [by eapply registry_wf_evolves|by apply evolves_grows]. }
  destruct o; simpl.
  - destruct (_add_any_action_spec p k callback_or_choices b v filetype_names
                tabtypes Hwf) as (? & ? & _). done.
  - apply Hev, frame_evolves, set_enabled_frame.
  - apply Hev, evolves_press_key.
  - apply Hev, evolves_add_tab.
  - apply Hev, evolves_close_tab.
  - apply Hev, evolves_select.
  - apply Hev, evolves_select_another_tab.
  - apply Hev, evolves_move_selected_tab.
  - apply Hev, evolves_set_notebook.
  - apply Hev, evolves_set_stat.
Qed.

Lemma run_op_registry_wf (o : op) (w : World) :
  registry_wf w -> registry_wf (run_op o w) /\ grows w (run_op o w).
Proof.
  intros Hwf. destruct (op_body_registry_wf o Hwf) as [Hwf' Hg].
  unfold run_op. split.
  - eapply registry_wf_evolves; [exact Hwf'|apply evolves_update].
  - eapply grows_trans; [exact Hg|apply evolves_grows, evolves_update].
Qed.

Lemma registry_wf_init (st : gmap string nat) : registry_wf (init_world st).
Proof.
  split; simpl; try done.
  - by apply Forall_singleton.
  - apply NoDup_nil_2.
  - intros p Hp. by apply elem_of_nil in Hp.
Qed.

Lemma reachable_registry_wf (w : World) : reachable w -> registry_wf w.
Proof.
  induction 1 as [st|o w _ IH]; [apply registry_wf_init|].
  by apply run_op_registry_wf.
Qed.

End RegistryFacts.

(** ** Looking actions up *)

Section LookupFacts.
Import App.

Lemma contains_slash (c : ascii) : Str.contains "/" c = true -> c = "/"%char.
Proof.
  simpl. rewrite orb_false_r. intros Hc. by apply Ascii.eqb_eq in Hc.
Qed.

Lemma endswith_slashes (s : string) :
  Str.all_in "/" s = true -> s <> "" -> Str.endswith s "/" = true.
Proof.
  induction s as [|c s IH]; [done|]. intros [Hc Hs]%andb_prop _.
  apply contains_slash in Hc as ->. cbn [Str.endswith].
  destruct s as [|d s]; [done|]. rewrite IH by done. apply orb_true_r.
Qed.

Lemma endswith_app_slashes (p s : string) :
  Str.all_in "/" s = true -> s <> "" -> Str.endswith (p +:+ s) "/" = true.
Proof.
  intros Hs Hne. induction p as [|c p IH].
  - by apply endswith_slashes.
  - rewrite append_cons. cbn [Str.endswith]. rewrite IH. apply orb_true_r.
Qed.

Lemma get_action_registered (w : World) (p : string) (a : Action) :
  registry_wf w -> _actions w !! p = Some a -> get_action p w = Ok a.
Proof.
  intros Hwf Hp. unfold get_action.
  destruct (wf_paths Hwf Hp) as (_ & _ & Hend).
  by rewrite (rstrip_no_trailing Hend), Hp.
Qed.

End LookupFacts.

(** C10.  Looking up a registered path followed by any number of
    separators gives the action of the path, although no path ending in
    a separator can be registered. *)
Theorem get_action_strips_trailing_separators
    (w : App.World) (p s : string) (a : App.Action) :
  App.reachable w ->
  App._actions w !! p = Some a ->
  Str.all_in "/" s = true ->
  App.get_action (p +:+ s) w = Ok a /\
  App.get_action p w = Ok a /\
  (s <> "" ->
   forall k c b v names types w',
     App._add_any_action (p +:+ s) k c b v names types w' = (w', Raise ValueError)).
Proof.
  intros Hreach Hp Hs. apply reachable_registry_wf in Hreach.
  pose proof (get_action_registered Hreach Hp) as Hget.
  split; [|split; [done|]].
  - unfold App.get_action in *. by rewrite (rstrip_app p Hs).
  - intros Hne k c b v names types w'. unfold App._add_any_action.
    by rewrite (endswith_app_slashes p Hs Hne), orb_true_r.
Qed.

Lemma get_action_strips_trailing_separators_witness :
  let w := App.run_op
             (App.Op_add_any_action "File/Save" "command" (App.Callback 0)
                (Some "<Control-s>") None None (Some [Some App.ClsFileTab]))
             (App.init_world ∅) in
  exists a,
    App._actions w !! "File/Save" = Some a /\
    App.get_action ("File/Save" +:+ "//") w = Ok a /\
    App.get_action "File/Save" w = Ok a.
Proof.
  intros w.
  exists {| App.path := "File/Save"; App.kind := "command";
            App.binding := Some "<Control-s>"; App._enabled := false;
            App.callback := Some (App.Callback 0); App.var := None;
            App.choices := None |}.
  assert (App._actions w !! "File/Save" =
          Some {| App.path := "File/Save"; App.kind := "command";
                  App.binding := Some "<Control-s>"; App._enabled := false;
                  App.callback := Some (App.Callback 0); App.var := None;
                  App.choices := None |}) as Hp by (vm_compute; reflexivity).
  split; [exact Hp|].
  destruct (get_action_strips_trailing_separators (w:=w) (p:="File/Save") (s:="//")
              (App.reachable_step _ (App.reachable_init ∅)) Hp eq_refl)
    as (H1 & H2 & _).
  by split.
Defined.

(** C5.  A registration is rejected, and changes nothing, when the path
    starts or ends with a separator, when both a tab-type and a
    file-type restriction are given, and when the path is registered
    already; and so two different registered paths are looked up to two
    different actions. *)
Theorem registration_rejects_and_paths_are_distinct :
  (forall p k c b v names types w,
      Str.startswith p "/" = true \/ Str.endswith p "/" = true ->
      App._add_any_action p k c b v names types w = (w, Raise ValueError)) /\
  (forall p k c b v names types w,
      exists e,
        App._add_any_action p k c b v (Some names) (Some types) w = (w, Raise e) /\
        (e = ValueError \/ e = TypeError)) /\
  (forall p k c b v names types w,
      is_Some (App._actions w !! p) ->
      exists e,
        App._add_any_action p k c b v names types w = (w, Raise e) /\
        (e = ValueError \/ e = TypeError \/ e = RuntimeError)) /\
  (forall w p1 p2,
      App.reachable w ->
      p1 <> p2 ->
      is_Some (App._actions w !! p1) ->
      is_Some (App._actions w !! p2) ->
      exists a1 a2,
        App.get_action p1 w = Ok a1 /\ App.get_action p2 w = Ok a2 /\ a1 <> a2).
Proof.
  split; [|split; [|split]].
  - intros p k c b v names types w Hslash. unfold App._add_any_action.
    destruct Hslash as [-> | ->]; [done|]. by rewrite orb_true_r.
  - intros p k c b v names types w. unfold App._add_any_action.
    destruct (_ || _); [by exists ValueError; auto|].
    rewrite !bool_decide_eq_true_2 by by eexists. simpl.
    exists TypeError; auto.
  - intros p k c b v names types w Hreg. unfold App._add_any_action.
    destruct (_ || _); [by exists ValueError; auto|].
    destruct (_ && _); [by exists TypeError; auto|].
    rewrite bool_decide_eq_true_2 by done.
    exists RuntimeError; auto.
  - intros w p1 p2 Hreach Hne [a1 H1] [a2 H2].
    apply reachable_registry_wf in Hreach.
    exists a1, a2.
    split; [by apply get_action_registered|].
    split; [by apply get_action_registered|].
    intros ->. destruct (App.wf_paths Hreach H1) as [Hp1 _].
    destruct (App.wf_paths Hreach H2) as [Hp2 _]. congruence.
Qed.

(** ** The notebook *)

Section NotebookFacts.
Import FileTabs App.

Lemma index_of_Some (l : list Tab) (t : Tab) (i : nat) :
  index_of l t = Some i ->
  exists x, l !! i = Some x /\ winfo_name x = winfo_name t.
Proof.
  unfold index_of. destruct (list_find _ l) as [[j x]|] eqn:E; [|done].
  intros [= <-]. apply list_find_Some in E as (? & ? & _). by exists x.
Qed.

Lemma index_of_nodup (l : list Tab) (t : Tab) (i : nat) :
  NoDup (winfo_name <$> l) -> l !! i = Some t -> index_of l t = Some i.
Proof.
  intros Hnd Hi. unfold index_of.
  assert (list_find (fun x => winfo_name x = winfo_name t) l = Some (i, t)) as ->; [|done].
  apply list_find_Some. split; [done|]. split; [done|].
  intros j y Hj Hlt Heq.
  assert (j = i); [|lia].
  apply (NoDup_lookup (winfo_name <$> l) j i (winfo_name t)); [done|..].
  - by rewrite list_lookup_fmap, Hj, <- Heq.
  - by rewrite list_lookup_fmap, Hi.
Qed.

Lemma index_of_None (l : list Tab) (t : Tab) :
  existsb (same_widget t) l = false -> index_of l t = None.
Proof.
  intros Hex. unfold index_of.
  destruct (list_find _ l) as [[j x]|] eqn:E; [|done]. exfalso.
  apply list_find_Some in E as (Hj & Hname & _).
  assert (existsb (same_widget t) l = true); [|congruence].
  apply existsb_exists. exists x. split.
  - apply list_elem_of_In. by eapply list_elem_of_lookup_2.
  - unfold same_widget. apply Nat.eqb_eq. done.
Qed.

Lemma resolve_lt (nb : Notebook) (id : tab_id) (i : nat) :
  resolve nb id = Ok i -> i < length (nb_tabs nb).
Proof.
  destruct id as [t|z]; simpl.
  - destruct (index_of (nb_tabs nb) t) as [j|] eqn:E; [|done]. intros [= <-].
    apply index_of_Some in E as (x & Hx & _). by eapply lookup_lt_Some.
  - destruct (_ && _) eqn:E; [|done]. intros [= <-].
    apply andb_prop in E as [?%Z.leb_le ?%Z.ltb_lt]. lia.
Qed.

Lemma current_tab_selected (nb : Notebook) (c : nat) :
  nb_wf nb -> nb_current nb = Some c ->
  exists t, nb_tabs nb !! c = Some t /\ current_tab nb = Some t /\
            resolve nb (ByWidget t) = Ok c.
Proof.
  intros [Hnd Hcur] Hc. rewrite Hc in Hcur.
  destruct (lookup_lt_is_Some_2 _ _ Hcur) as [t Ht].
  exists t. split; [done|]. split.
  - unfold current_tab. rewrite Hc. simpl. done.
  - simpl. by rewrite (index_of_nodup Hnd Ht).
Qed.

End NotebookFacts.

(** C6.  On a notebook as Tk keeps it, [select_another_tab] with [-1] or
    [+1] returns [False] and changes nothing when there is no tab, and
    when the current tab is the first (for [-1]) or the last (for [+1]);
    otherwise the tab next to the current one in display order becomes
    the current one and the result is [True]. *)
Theorem select_another_tab_stops_at_the_ends (w : App.World) (diff : Z) :
  App.nb_wf (App.notebook w) ->
  diff = 1%Z \/ diff = (-1)%Z ->
  match App.nb_current (App.notebook w) with
  | None =>
      App.tabs w = [] /\ App.select_another_tab diff w = (w, Ok false)
  | Some c =>
      if bool_decide ((diff = (-1)%Z /\ c = 0) \/
                      (diff = 1%Z /\ S c = length (App.tabs w)))
      then App.select_another_tab diff w = (w, Ok false)
      else
        exists w' t,
          App.select_another_tab diff w = (w', Ok true) /\
          App.tabs w' = App.tabs w /\
          App.nb_current (App.notebook w') = Some (Z.to_nat (Z.of_nat c + diff)) /\
          App.tabs w !! Z.to_nat (Z.of_nat c + diff) = Some t /\
          App.selected w' = Some t
  end.
Proof.
  intros Hwf Hdiff. unfold App.select_another_tab.
  assert (App.valid_diff diff = true) as ->.
  { unfold App.valid_diff. destruct Hdiff as [-> | ->]; done. }
  simpl.
  destruct (App.nb_current (App.notebook w)) as [c|] eqn:Hc.
  - destruct (current_tab_selected Hwf Hc) as (t & Ht & Hsel & Hres).
    assert (c < length (App.tabs w)) as Hlt by (by eapply lookup_lt_Some).
    assert (bool_decide (App.tabs w = []) = false) as ->.
    { apply bool_decide_eq_false_2. intros Hnil. rewrite Hnil in Hlt.
      simpl in Hlt. lia. }
    unfold App.index_of_selected, App.selected. rewrite Hsel, Hres.
    unfold App.select, App.tk_select. cbn [App.resolve].
    fold (App.tabs w).
    case_bool_decide as Hedge.
    + assert ((0 <=? Z.of_nat c + diff)%Z &&
              (Z.of_nat c + diff <? Z.of_nat (length (App.tabs w)))%Z = false) as ->; [|done].
      apply andb_false_iff.
      destruct Hedge as [[-> ->]|[-> Hlast]].
      * left. by apply Z.leb_gt.
      * right. apply Z.ltb_ge. lia.
    + assert ((0 <=? Z.of_nat c + diff)%Z &&
              (Z.of_nat c + diff <? Z.of_nat (length (App.tabs w)))%Z = true) as ->.
      { apply andb_true_iff. split; [apply Z.leb_le|apply Z.ltb_lt];
          destruct Hdiff as [-> | ->]; lia. }
      set (i := Z.to_nat (Z.of_nat c + diff)).
      assert (i < length (App.tabs w)) as Hi by (destruct Hdiff as [-> | ->]; lia).
      assert (i <> c) as Hne by (destruct Hdiff as [-> | ->]; lia).
      destruct (lookup_lt_is_Some_2 _ _ Hi) as [t' Ht'].
      unfold App.select_tab. rewrite Hc.
      rewrite bool_decide_eq_false_2 by congruence.
      eexists _, t'. split; [done|]. split; [done|]. split; [done|].
      split; [done|]. exact Ht'.
  - destruct Hwf as [_ Hcur]. rewrite Hc in Hcur.
    split; [done|]. unfold App.tabs. rewrite Hcur. done.
Qed.

Lemma select_another_tab_stops_at_the_ends_witness :
  let plain n := {| App.winfo_name := n; App.tab_body_of := App.PlainTab |} in
  let w := App.run_ops [App.Op_add_tab (plain 1) true; App.Op_add_tab (plain 2) true]
             (App.init_world ∅) in
  App.nb_wf (App.notebook w) /\
  App.select_another_tab 1 w = (w, Ok false).
Proof.
  intros plain w.
  assert (App.nb_wf (App.notebook w)) as Hwf.
  { split; [|vm_compute; lia]. by apply (bool_decide_unpack _). }
  split; [exact Hwf|].
  exact (select_another_tab_stops_at_the_ends (w:=w) (diff:=1) Hwf (or_introl eq_refl)).
Defined.

(** ** The trace only grows *)

Section TraceFacts.
Import FileTabs App.

Lemma quiet_notebook (w w' : World) : quiet w w' -> notebook w' = notebook w.
Proof. by intros (_ & ? & _). Qed.

Lemma trace_emit (ev : event) (w : World) : trace w `prefix_of` trace (emit ev w).
Proof. by exists [ev]. Qed.

Lemma trace_set_enabled (p : string) (v : pyval) (w : World) :
  trace w `prefix_of` trace (set_enabled p v w).1.
Proof.
  unfold set_enabled. destruct v as [|b| |]; try done.
  destruct (_actions w !! p) as [a|]; [|done].
  destruct (Bool.eqb (_enabled a) b); [done|].
  unfold get_main_window. simpl. destruct (m_root w); simpl; [|done].
  by eexists [_].
Qed.

Lemma trace__var_set_check (p : string) (w : World) :
  trace w `prefix_of` trace (_var_set_check p w).
Proof.
  unfold _var_set_check.
  destruct (_actions w !! p) as [a|]; [|done].
  destruct (var a) as [v|]; [|done].
  destruct (choices a) as [[id|l]|]; try done.
  case_bool_decide; [done|apply trace_emit].
Qed.

Lemma trace_var_set (v : string) (value : pyval) (w : World) :
  trace w `prefix_of` trace (var_set v value w).
Proof.
  unfold var_set.
  assert (trace w `prefix_of` trace (set_tk_vars (<[v:=value]> (tk_vars w)) w)) as Hq
    by done.
  revert Hq. generalize (set_tk_vars (<[v:=value]> (tk_vars w)) w).
  generalize (var_traces w) as l.
  induction l as [|[v' p] l IH]; intros w' Hq; [done|].
  simpl. apply IH. destruct (String.eqb v' v); [|done].
  etrans; [exact Hq|apply trace__var_set_check].
Qed.

Lemma trace_bind_callback (p k : string) (w : World) :
  trace w `prefix_of` trace (bind_callback p k w).1.
Proof.
  unfold bind_callback.
  destruct (_actions w !! p) as [a|]; [|done].
  destruct (_enabled a); [|done].
  destruct (String.eqb k "command").
  - destruct (callback a) as [[id|l]|]; simpl; try done.
    destruct (String.eqb k "yesno"); [|apply trace_emit].
    destruct (var a) as [v|]; simpl; [|apply trace_emit].
    etrans; [apply (trace_emit (EvCalled id))|apply trace_var_set].
  - simpl. destruct (String.eqb k "yesno"); [|done].
    destruct (var a) as [v|]; simpl; [|done].
    apply trace_var_set.
Qed.

Lemma trace_run_handler (h : handler) (data : option Tab) (w : World) :
  trace w `prefix_of` trace (run_handler h data w).1.
Proof.
  destruct h as [|p tt|p names|p names|p k]; simpl.
  - destruct (selected w) as [t|]; [|done]. by destruct (tab_body_of t).
  - unfold enable_or_disable_tabtypes, get_tab_manager.
    destruct (m_root w); [|done].
    pose proof (trace_set_enabled p (VBool (isinstance (current_tab (notebook w)) tt)) w).
    by destruct (set_enabled p _ w).
  - unfold enable_or_disable_filetypes, get_tab_manager.
    destruct (m_root w); [|done].
    destruct (tab_body_of <$> current_tab (notebook w)) as [[|f]|].
    + pose proof (trace_set_enabled p (VBool false) w).
      by destruct (set_enabled p _ w).
    + pose proof (trace_set_enabled p (VBool (bool_decide (filetype_name f ∈ names))) w).
      by destruct (set_enabled p _ w).
    + pose proof (trace_set_enabled p (VBool false) w).
      by destruct (set_enabled p _ w).
  - destruct data as [t|]; [|done]. by destruct (tab_body_of t).
  - apply trace_bind_callback.
Qed.

Lemma trace_dispatch (hs : list handler) (data : option Tab) (w : World) :
  trace w `prefix_of` trace (dispatch hs data w).1.
Proof.
  revert w. induction hs as [|h hs IH]; intros w; [done|].
  destruct (dispatch_cons h hs data w) as [-> | ->].
  - apply trace_run_handler.
  - etrans; [apply trace_run_handler|apply IH].
Qed.

End TraceFacts.

(** ** [add_tab] *)

Section AddTabFacts.
Import FileTabs App.

Lemma find_equivalent_found (st : gmap string nat) (t : Tab) (l : list Tab) :
  Forall (fun ex => exists b, equivalent st t ex = Ok b) l ->
  (exists ex, ex ∈ l /\ equivalent st t ex = Ok true) ->
  exists ex,
    find_equivalent st t l = Ok (Some ex) /\ ex ∈ l /\ equivalent st t ex = Ok true.
Proof.
  induction l as [|x l IH]; intros Hdef (ex & Hin & Heq).
  - by apply elem_of_nil in Hin.
  - apply Forall_cons in Hdef as [[b Hb] Hdef]. simpl. rewrite Hb.
    destruct b.
    + exists x. split; [done|]. split; [apply list_elem_of_here|done].
    + apply elem_of_cons in Hin as [->|Hin]; [congruence|].
      destruct (IH Hdef) as (ex' & -> & Hin' & Heq'); [by exists ex|].
      exists ex'. split; [done|]. split; [by apply list_elem_of_further|done].
Qed.

Lemma find_equivalent_none (st : gmap string nat) (t : Tab) (l : list Tab) :
  (forall ex, ex ∈ l -> equivalent st t ex = Ok false) ->
  find_equivalent st t l = Ok None.
Proof.
  induction l as [|x l IH]; intros Hall; [done|].
  simpl. rewrite (Hall x) by apply list_elem_of_here.
  apply IH. intros ex Hex. apply Hall. by apply list_elem_of_further.
Qed.

Lemma select_widget (w : World) (t : Tab) (i : nat) :
  NoDup (winfo_name <$> tabs w) ->
  tabs w !! i = Some t ->
  exists w',
    select (ByWidget t) w = (w', Ok tt) /\
    tabs w' = tabs w /\ nb_current (notebook w') = Some i /\
    selected w' = Some t /\ trace w' = trace w /\ stat w' = stat w /\
    bindings w' = bindings w.
Proof.
  intros Hnd Hi. unfold select, tk_select. cbn [resolve].
  fold (tabs w). rewrite (index_of_nodup Hnd Hi).
  eexists. split; [done|]. unfold select_tab.
  case_bool_decide as Hcur; simpl.
  - repeat split; try done. unfold selected, current_tab. simpl.
    rewrite Hcur. done.
  - repeat split; try done.
Qed.

Lemma nodup_snoc (l : list Tab) (t : Tab) :
  NoDup (winfo_name <$> l) ->
  existsb (same_widget t) l = false ->
  NoDup (winfo_name <$> (l ++ [t])).
Proof.
  intros Hnd Hex. rewrite fmap_app. apply NoDup_app. split; [done|].
  split; [|apply NoDup_singleton].
  intros n Hn ->%list_elem_of_singleton.
  apply list_elem_of_fmap in Hn as (x & Hname & Hx).
  assert (existsb (same_widget t) l = true); [|congruence].
  apply existsb_exists. exists x. split; [by apply list_elem_of_In|].
  unfold same_widget. by apply Nat.eqb_eq.
Qed.

Lemma tk_add_new (nb : Notebook) (t : Tab) :
  nb_wf nb ->
  existsb (same_widget t) (nb_tabs nb) = false ->
  nb_tabs (tk_add nb t) = nb_tabs nb ++ [t] /\
  nb_current (tk_add nb t) =
  Some (default (length (nb_tabs nb)) (nb_current nb)).
Proof.
  intros [Hnd Hcur] Hex. unfold tk_add. rewrite (index_of_None Hex).
  unfold add_tab_at. rewrite firstn_all, drop_all.
  destruct (nb_current nb) as [c|]; simpl.
  - split; [done|]. f_equal.
    destruct (Nat.leb_spec (length (nb_tabs nb)) c); [lia|done].
  - unfold select_tab. simpl. done.
Qed.

End AddTabFacts.



(** ** Key bindings *)

Section KeyFacts.
Import FileTabs App.

Lemma tk_vars__var_set_check (p : string) (w : World) :
  tk_vars (_var_set_check p w) = tk_vars w.
Proof.
  unfold _var_set_check.
  destruct (_actions w !! p) as [a|]; [|done].
  destruct (var a) as [v|]; [|done].
  destruct (choices a) as [[id|l]|]; try done.
  by case_bool_decide.
Qed.

Lemma tk_vars_var_set (v : string) (value : pyval) (w : World) :
  tk_vars (var_set v value w) = <[v := value]> (tk_vars w).
Proof.
  unfold var_set.
  assert (tk_vars (set_tk_vars (<[v:=value]> (tk_vars w)) w) = <[v:=value]> (tk_vars w))
    as Hq by done.
  revert Hq. generalize (set_tk_vars (<[v:=value]> (tk_vars w)) w).
  generalize (var_traces w) as l.
  induction l as [|[v' p] l IH]; intros w' Hq; [done|].
  simpl. apply IH. destruct (String.eqb v' v); [|done].
  by rewrite tk_vars__var_set_check.
Qed.

Lemma set_enabled_bindings (p : string) (v : pyval) (w : World) :
  bindings (set_enabled p v w).1 = bindings w.
Proof.
  unfold set_enabled. destruct v as [|b| |]; try done.
  destruct (_actions w !! p) as [a|]; [|done].
  destruct (Bool.eqb (_enabled a) b); [done|].
  unfold get_main_window. simpl. by destruct (m_root w).
Qed.

Lemma install_rule_bind_all (p : string) (names : option (list string))
    (types : option (list (option pyclass))) (w : World) :
  bind_all_bindings (bindings (install_rule p names types w).1)
  = bind_all_bindings (bindings w).
Proof.
  unfold install_rule.
  assert (forall q l w0,
             bind_all_bindings (bindings (enable_or_disable_filetypes q l w0).1)
             = bind_all_bindings (bindings w0)) as Hft.
  { intros q l w0. unfold enable_or_disable_filetypes, get_tab_manager.
    destruct (m_root w0); [|done].
    destruct (tab_body_of <$> current_tab (notebook w0)) as [[|f]|];
      by rewrite set_enabled_bindings. }
  assert (forall q l w0,
             bind_all_bindings (bindings (enable_or_disable_tabtypes q l w0).1)
             = bind_all_bindings (bindings w0)) as Htt.
  { intros q l w0. unfold enable_or_disable_tabtypes, get_tab_manager.
    destruct (m_root w0); [|done]. by rewrite set_enabled_bindings. }
  destruct types as [classes|], names as [names|]; try done.
  1,3: unfold get_tab_manager; destruct (m_root w); [|done];
    specialize (Hft p names (bind_new_tab (H_on_new_tab p names) w));
    by destruct (enable_or_disable_filetypes p names _) as [w2 [[]|e|]].
  specialize (Htt p (map (default ClsNoneType) classes) w).
  destruct (enable_or_disable_tabtypes p _ w) as [w1 [[]|e|]]; try done.
  unfold get_tab_manager. by destruct (m_root w1).
Qed.

(** A registration that succeeds with a key binding is one of a command
    or of a toggle, and its closure is bound to the key after those
    bound before. *)
Lemma _add_any_action_binds (p k : string) (c : callable_or_choices)
    (sequence : string) (v : option string) (names : option (list string))
    (types : option (list (option pyclass))) (w w' : World) (a : Action) :
  _add_any_action p k c (Some sequence) v names types w = (w', Ok a) ->
  (k = "command" \/ k = "yesno") /\
  bind_all_bindings (bindings w')
  = bind_all_bindings (bindings w) ++ [(sequence, H_bind_callback p k)].
Proof.
  unfold _add_any_action.
  destruct (_ || _); [done|]. destruct (_ && _); [done|].
  case_bool_decide; [done|].
  assert (bindings (new_Action p k c (Some sequence) v w).1 = bindings w) as Hb1.
  { unfold new_Action. destruct (String.eqb k "command"); [done|].
    destruct (String.eqb k "choice"); [by destruct v|].
    by destruct (String.eqb k "yesno"). }
  destruct (new_Action p k c (Some sequence) v w) as [w1 [a1|e|]]; try done.
  simpl in Hb1. unfold get_main_window. simpl.
  destruct (m_root w1); [|done].
  match goal with
  | |- context [install_rule p names types ?w3] =>
      pose proof (install_rule_bind_all p names types w3) as Hb3;
      destruct (install_rule p names types w3) as [w4 [[]|e|]]; try done
  end.
  simpl in Hb3. unfold install_binding.
  destruct (String.eqb k "command" || String.eqb k "yesno") eqn:Hk; [|done].
  simpl. intros [= <- _]. simpl. rewrite Hb3, Hb1. split; [|done].
  apply orb_prop in Hk as [Hk|Hk]; apply String.eqb_eq in Hk; auto.
Qed.

End KeyFacts.



(** ** The notebook keeps its shape *)

Section NotebookInvariant.
Import FileTabs App.

Lemma nb_wf_select_tab (nb : Notebook) (i : nat) :
  nb_wf nb -> i < length (nb_tabs nb) -> nb_wf (select_tab nb i).
Proof.
  intros [Hnd Hcur] Hi. unfold select_tab. case_bool_decide; [done|].
  by split.
Qed.

Lemma nb_wf_add_tab_at (nb : Notebook) (dest : nat) (t : Tab) :
  nb_wf nb -> dest <= length (nb_tabs nb) ->
  index_of (nb_tabs nb) t = None ->
  nb_wf (add_tab_at nb dest t).
Proof.
  intros [Hnd Hcur] Hdest Hfresh.
  assert (NoDup (winfo_name <$> take dest (nb_tabs nb) ++ t :: drop dest (nb_tabs nb)))
    as Hnd'.
  { assert (take dest (nb_tabs nb) ++ t :: drop dest (nb_tabs nb) ≡ₚ t :: nb_tabs nb)
      as ->.
    { rewrite <- Permutation_middle. by rewrite take_drop. }
    rewrite fmap_cons. apply NoDup_cons. split; [|done].
    intros (x & Hname & Hx)%list_elem_of_fmap.
    unfold index_of in Hfresh.
    destruct (list_find _ (nb_tabs nb)) as [[j y]|] eqn:E; [done|].
    apply list_find_None in E. rewrite Forall_forall in E. by apply (E x). }
  assert (length (take dest (nb_tabs nb) ++ t :: drop dest (nb_tabs nb))
          = S (length (nb_tabs nb))) as Hlen.
  { rewrite length_app, length_take. simpl. rewrite length_drop. lia. }
  unfold add_tab_at. destruct (nb_current nb) as [c|].
  - split; simpl; [done|]. rewrite Hlen. destruct (Nat.leb dest c); lia.
  - unfold select_tab. simpl. split; simpl; [done|]. rewrite Hlen. lia.
Qed.

Lemma nb_wf_remove_tab (nb : Notebook) (i : nat) :
  nb_wf nb -> i < length (nb_tabs nb) -> nb_wf (remove_tab nb i).
Proof.
  intros [Hnd Hcur] Hi. unfold remove_tab.
  assert (NoDup (winfo_name <$> delete i (nb_tabs nb))) as Hnd'.
  { rewrite list_fmap_delete. eapply sublist_NoDup; [exact Hnd|apply sublist_delete]. }
  assert (length (delete i (nb_tabs nb)) = length (nb_tabs nb) - 1) as Hlen.
  { rewrite length_delete; [done|]. by apply lookup_lt_is_Some_2. }
  destruct (nb_current nb) as [c|] eqn:Hc.
  - case_bool_decide as Heq.
    + clear Heq Hcur. split; simpl; [done|]. unfold next_tab.
      destruct (Nat.ltb_spec (S i) (length (nb_tabs nb))); simpl.
      { rewrite Hlen. destruct (Nat.ltb_spec i (S i)); lia. }
      destruct (Nat.ltb_spec 0 i); simpl.
      { rewrite Hlen. destruct (Nat.ltb_spec i (i - 1)); lia. }
      apply length_zero_iff_nil. lia.
    + split; simpl; [done|]. rewrite Hlen.
      assert (c <> i) by congruence.
      destruct (Nat.ltb_spec i c); lia.
  - rewrite Hcur in Hi. simpl in Hi. lia.
Qed.

Lemma nb_step_refl (nb : Notebook) : nb_step nb nb.
Proof. by split. Qed.

Lemma nb_step_trans (nb1 nb2 nb3 : Notebook) :
  nb_step nb1 nb2 -> nb_step nb2 nb3 -> nb_step nb1 nb3.
Proof.
  intros [H1 H1'] [H2 H2']. split; [lia|]. intros Heq.
  rewrite H2', H1'; [done|lia|lia].
Qed.

Lemma nb_step_select_tab (nb : Notebook) (i : nat) : nb_step nb (select_tab nb i).
Proof.
  unfold select_tab. case_bool_decide; [apply nb_step_refl|].
  split; simpl; lia.
Qed.

Lemma nb_step_add_tab_at (nb : Notebook) (dest : nat) (t : Tab) :
  nb_wf nb -> dest <= length (nb_tabs nb) -> nb_step nb (add_tab_at nb dest t).
Proof.
  intros [_ Hcur] Hdest. unfold add_tab_at.
  destruct (nb_current nb) as [c|] eqn:Hc.
  - split; simpl; [done|]. intros _. unfold current_tab. rewrite Hc. simpl.
    destruct (Nat.leb_spec dest c).
    + rewrite lookup_app_r by (rewrite length_take; lia).
      rewrite length_take, Nat.min_l by lia.
      replace (S c - dest) with (S (c - dest)) by lia. simpl.
      rewrite lookup_drop. f_equal. lia.
    + rewrite lookup_app_l by (rewrite length_take; lia).
      by rewrite lookup_take_lt.
  - unfold select_tab. simpl. split; simpl; lia.
Qed.

Lemma nb_step_remove_tab (nb : Notebook) (i : nat) :
  nb_wf nb -> nb_step nb (remove_tab nb i).
Proof.
  intros [_ Hcur]. unfold remove_tab.
  case_bool_decide as Heq; [split; simpl; lia|].
  split; simpl; [done|]. intros _. unfold current_tab. simpl.
  destruct (nb_current nb) as [c|]; simpl; [|done].
  assert (c <> i) by congruence.
  destruct (Nat.ltb_spec i c).
  - rewrite list_lookup_delete_ge by lia. f_equal. lia.
  - by rewrite list_lookup_delete_lt by lia.
Qed.

Lemma tk_select_spec (nb nb' : Notebook) (id : tab_id) :
  nb_wf nb -> tk_select nb id = Ok nb' -> nb_wf nb' /\ nb_step nb nb'.
Proof.
  intros Hwf. unfold tk_select.
  destruct (resolve nb id) as [i|e|] eqn:Hres; [|done..]. intros [= <-].
  split; [|apply nb_step_select_tab].
  apply nb_wf_select_tab; [done|by eapply resolve_lt].
Qed.

Lemma tk_add_spec (nb : Notebook) (t : Tab) :
  nb_wf nb -> nb_wf (tk_add nb t) /\ nb_step nb (tk_add nb t).
Proof.
  intros Hwf. unfold tk_add.
  destruct (index_of (nb_tabs nb) t) eqn:E; [split; [done|apply nb_step_refl]|].
  split; [by apply nb_wf_add_tab_at|by apply nb_step_add_tab_at].
Qed.

Lemma tk_forget_spec (nb nb' : Notebook) (id : tab_id) :
  nb_wf nb -> tk_forget nb id = Ok nb' -> nb_wf nb' /\ nb_step nb nb'.
Proof.
  intros Hwf. unfold tk_forget.
  destruct (resolve nb id) as [i|e|] eqn:Hres; [|done..]. intros [= <-].
  split; [|by apply nb_step_remove_tab].
  apply nb_wf_remove_tab; [done|by eapply resolve_lt].
Qed.

Lemma tk_insert_spec (nb nb' : Notebook) (pos : Z) (t : Tab) :
  nb_wf nb -> index_of (nb_tabs nb) t = None ->
  tk_insert nb pos t = Ok nb' -> nb_wf nb' /\ nb_step nb nb'.
Proof.
  intros Hwf Hfresh. unfold tk_insert.
  destruct (resolve nb (ByIndex pos)) as [i|e|] eqn:Hres; [|done..].
  rewrite Hfresh. intros [= <-]. apply resolve_lt in Hres.
  split; [apply nb_wf_add_tab_at|apply nb_step_add_tab_at]; try done; lia.
Qed.

(** Once forgotten, a window is not managed any more. *)
Lemma index_of_removed (nb : Notebook) (i : nat) (t : Tab) :
  nb_wf nb -> nb_tabs nb !! i = Some t ->
  index_of (nb_tabs (remove_tab nb i)) t = None.
Proof.
  intros [Hnd _] Hi.
  assert (nb_tabs (remove_tab nb i) = delete i (nb_tabs nb)) as ->.
  { unfold remove_tab. by case_bool_decide. }
  unfold index_of.
  destruct (list_find _ (delete i (nb_tabs nb))) as [[j x]|] eqn:E; [|done].
  exfalso. apply list_find_Some in E as (Hj & Hname & _).
  assert (i < length (nb_tabs nb)) as Hlt by (by eapply lookup_lt_Some).
  destruct (decide (j < i)) as [Hji|Hji].
  - rewrite list_lookup_delete_lt in Hj by done.
    assert (j = i); [|lia].
    apply (NoDup_lookup (winfo_name <$> nb_tabs nb) j i (winfo_name t)); [done|..].
    + by rewrite list_lookup_fmap, Hj, <- Hname.
    + by rewrite list_lookup_fmap, Hi.
  - rewrite list_lookup_delete_ge in Hj by lia.
    assert (S j = i); [|lia].
    apply (NoDup_lookup (winfo_name <$> nb_tabs nb) (S j) i (winfo_name t)); [done|..].
    + by rewrite list_lookup_fmap, Hj, <- Hname.
    + by rewrite list_lookup_fmap, Hi.
Qed.

Lemma nb_wf_pending (nb : Notebook) (k : nat) :
  nb_wf nb ->
  nb_wf {| nb_tabs := nb_tabs nb; nb_current := nb_current nb; nb_pending := k |}.
Proof. by intros [? ?]. Qed.

(** *** The methods of [TabManager] *)

Lemma select_spec (id : tab_id) (w : World) :
  nb_wf (notebook w) ->
  nb_wf (notebook (select id w).1) /\
  nb_step (notebook w) (notebook (select id w).1).
Proof.
  intros Hwf. unfold select.
  destruct (tk_select (notebook w) id) as [nb|e|] eqn:E; simpl;
    [by eapply tk_select_spec|split; [done|apply nb_step_refl]..].
Qed.

Lemma close_tab_spec (t : Tab) (w : World) :
  nb_wf (notebook w) ->
  nb_wf (notebook (close_tab t w).1) /\
  nb_step (notebook w) (notebook (close_tab t w).1).
Proof.
  intros Hwf. unfold close_tab.
  destruct (tk_forget (notebook w) (ByWidget t)) as [nb|e|] eqn:E; simpl;
    [by eapply tk_forget_spec|split; [done|apply nb_step_refl]..].
Qed.

Lemma select_another_tab_spec (diff : Z) (w : World) :
  nb_wf (notebook w) ->
  nb_wf (notebook (select_another_tab diff w).1) /\
  nb_step (notebook w) (notebook (select_another_tab diff w).1).
Proof.
  intros Hwf. unfold select_another_tab.
  destruct (negb _); [split; [done|apply nb_step_refl]|].
  case_bool_decide; [split; [done|apply nb_step_refl]|].
  destruct (index_of_selected w) as [i|e|]; try (split; [done|apply nb_step_refl]).
  pose proof (select_spec (ByIndex (Z.of_nat i + diff)) Hwf) as Hs.
  by destruct (select _ w) as [w1 [[]|[]|]].
Qed.

Lemma move_tab_spec (i1 i2 : Z) (w : World) :
  (i1 <= i2)%Z ->
  nb_wf (notebook w) ->
  nb_wf (notebook (move_tab i1 i2 w).1) /\
  nb_step (notebook w) (notebook (move_tab i1 i2 w).1).
Proof.
  intros Hle Hwf. unfold move_tab.
  destruct ((i1 <? 0)%Z || _) eqn:Hrange; [split; [done|apply nb_step_refl]|].
  destruct (tabs w !! Z.to_nat i2) as [t|] eqn:Ht; [|split; [done|apply nb_step_refl]].
  assert (tk_forget (notebook w) (ByIndex i2)
          = Ok (remove_tab (notebook w) (Z.to_nat i2))) as Hforget.
  { unfold tk_forget. cbn [resolve].
    apply lookup_lt_Some in Ht. unfold tabs in *.
    apply orb_false_elim in Hrange as [?%Z.ltb_ge ?%Z.leb_gt].
    destruct (Z.leb_spec 0 i2); [|lia].
    destruct (Z.ltb_spec i2 (Z.of_nat (length (nb_tabs (notebook w))))); [done|lia]. }
  rewrite Hforget.
  destruct (tk_forget_spec Hwf Hforget) as [Hwf1 Hs1].
  set (nb1 := remove_tab (notebook w) (Z.to_nat i2)) in *.
  pose proof (index_of_removed Hwf Ht) as Hgone. fold nb1 in Hgone.
  destruct (tk_insert nb1 i1 t) as [nb2|e|] eqn:Hins; simpl; try done.
  destruct (tk_insert_spec Hwf1 Hgone Hins) as [Hwf2 Hs2].
  assert (nb_step (notebook w) nb2) as Hs02 by by eapply nb_step_trans.
  destruct (match selected w with Some s => same_widget t s | None => false end);
    [|done].
  pose proof (select_spec (ByWidget t) (w:=set_notebook nb2 w) Hwf2) as [Hwf3 Hs3].
  assert (nb_step (notebook w) (notebook (select (ByWidget t) (set_notebook nb2 w)).1))
    as Hs03 by (eapply nb_step_trans; [exact Hs02|exact Hs3]).
  by destruct (select (ByWidget t) (set_notebook nb2 w)) as [w3 [[]|e|]].
Qed.

Lemma move_selected_tab_spec (diff : Z) (w : World) :
  nb_wf (notebook w) ->
  nb_wf (notebook (move_selected_tab diff w).1) /\
  nb_step (notebook w) (notebook (move_selected_tab diff w).1).
Proof.
  intros Hwf. unfold move_selected_tab.
  destruct (negb _); [split; [done|apply nb_step_refl]|].
  case_bool_decide; [split; [done|apply nb_step_refl]|].
  destruct (index_of_selected w) as [i|e|]; try (split; [done|apply nb_step_refl]).
  destruct (Z.ltb_spec (Z.of_nat i + diff) (Z.of_nat i));
    apply move_tab_spec; done || lia.
Qed.

Lemma replace_file_tab_name (name : nat) (f : FileTab) (t : Tab) :
  winfo_name (replace_file_tab name f t) = winfo_name t.
Proof.
  unfold replace_file_tab. destruct (tab_body_of t); [done|].
  destruct (Nat.eqb_spec (winfo_name t) name); by subst.
Qed.

Lemma replace_file_tab_names (name : nat) (f : FileTab) (l : list Tab) :
  winfo_name <$> (replace_file_tab name f <$> l) = winfo_name <$> l.
Proof.
  rewrite <- list_fmap_compose. apply list_fmap_ext. intros i x _.
  apply replace_file_tab_name.
Qed.

Lemma add_tab_nb_wf (t : Tab) (sel : bool) (w : World) :
  nb_wf (notebook w) -> nb_wf (notebook (add_tab t sel w).1).
Proof.
  intros Hwf. unfold add_tab. destruct (existsb _ _); [done|].
  destruct (find_equivalent _ _ _) as [[ex|]|e|]; try done.
  - destruct sel; [|done].
    pose proof (select_spec (ByWidget ex) Hwf) as [Hs _].
    by destruct (select (ByWidget ex) w) as [w1 [[]|e|]].
  - destruct (tk_add_spec t Hwf) as [Hwf1 _].
    set (w1 := set_notebook (tk_add (notebook w) t) w).
    assert (nb_wf (notebook (if sel then select (ByWidget t) w1 else (w1, Ok ())).1))
      as Hwf2.
    { destruct sel; [|done]. by apply (select_spec (ByWidget t) (w:=w1)). }
    destruct (if sel then select (ByWidget t) w1 else (w1, Ok ())) as [w2 [[]|e|]];
      simpl in *; try done.
    unfold generate_new_tab.
    destruct (dispatch_frame (new_tab_bindings (bindings (update w2))) (Some t)
                (emit (EvNewTab t) (update w2))) as (_ & -> & _).
    simpl. rewrite notebook_update. by apply nb_wf_pending.
Qed.

Lemma op_body_nb_wf (o : op) (w : World) :
  registry_wf w -> nb_wf (notebook w) -> nb_wf (notebook (op_body o w)).
Proof.
  intros Hreg Hwf. destruct o; simpl.
  - destruct (_add_any_action_spec p k callback_or_choices b v filetype_names
                tabtypes Hreg) as (_ & _ & -> & _). done.
  - by destruct (set_enabled_frame p is_enabled w) as (_ & -> & _).
  - unfold press_key. by destruct (dispatch_frame
      (snd <$> filter (fun x => x.1 = sequence) (bind_all_bindings (bindings w)))
      None w) as (_ & -> & _).
  - by apply add_tab_nb_wf.
  - by apply close_tab_spec.
  - by apply select_spec.
  - by apply select_another_tab_spec.
  - by apply move_selected_tab_spec.
  - destruct Hwf as [Hnd Hcur]. split; simpl.
    + by rewrite replace_file_tab_names.
    + destruct (nb_current (notebook w)); [by rewrite length_fmap|].
      by rewrite Hcur.
  - done.
Qed.

Lemma run_op_wf (o : op) (w : World) : wf w -> wf (run_op o w).
Proof.
  intros (Hreg & Hnb & _). split; [by apply run_op_registry_wf|].
  unfold run_op. rewrite notebook_update. split; [|done].
  apply nb_wf_pending, op_body_nb_wf; done.
Qed.

Lemma wf_init (st : gmap string nat) : wf (init_world st).
Proof.
  split; [apply registry_wf_init|]. split; [|done]. split; simpl; [|done].
  apply NoDup_nil_2.
Qed.

Lemma reachable_wf (w : World) : reachable w -> wf w.
Proof.
  induction 1 as [st|o w _ IH]; [apply wf_init|by apply run_op_wf].
Qed.

End NotebookInvariant.

(** ** The enablement rule follows the selection *)

Section RuleFacts.
Import FileTabs App.

Lemma isinstance_FileTab (v : option Tab) : isinstance v [ClsFileTab] = is_FileTab v.
Proof.
  unfold isinstance, is_FileTab, class_of.
  destruct v as [t|]; simpl; [|done]. by destruct (tab_body_of t).
Qed.

Lemma target_in_targets (h : handler) (hs : list handler) (p : string) :
  h ∈ hs -> handler_target h = Some p -> p ∈ targets hs.
Proof. intros Hin Ht. apply list_elem_of_omap. by exists h. Qed.

(** With no two closures for one action, the closure of an action is the
    one that was installed. *)
Lemma unique_handler (hs : list handler) (h h' : handler) (p : string) :
  NoDup (targets hs) ->
  h ∈ hs -> h' ∈ hs ->
  handler_target h = Some p -> handler_target h' = Some p ->
  h' = h.
Proof.
  induction hs as [|x hs IH]; intros Hnd Hh Hh' Ht Ht'.
  - by apply elem_of_nil in Hh.
  - unfold targets in Hnd. simpl in Hnd.
    destruct (handler_target x) as [q|] eqn:Hx.
    + apply NoDup_cons in Hnd as [Hq Hnd].
      apply elem_of_cons in Hh as [->|Hh], Hh' as [->|Hh'].
      * done.
      * exfalso. apply Hq. simplify_eq. by eapply target_in_targets.
      * exfalso. apply Hq. simplify_eq. by eapply target_in_targets.
      * by apply IH.
    + apply elem_of_cons in Hh as [->|Hh]; [congruence|].
      apply elem_of_cons in Hh' as [->|Hh']; [congruence|].
      by apply IH.
Qed.

Lemma dispatch_quiet_handler (h : handler) (hs : list handler) (w : World) :
  never_breaks h = true ->
  (dispatch (h :: hs) None w).1 = (dispatch hs None (run_handler h None w).1).1.
Proof.
  intros Hh. simpl.
  pose proof (fun s => @run_handler_never_breaks h None w s Hh) as Hno.
  destruct (run_handler h None w) as [w' [[s|]|e|]]; simpl in *; try done.
  by destruct (Hno s).
Qed.

Lemma selected_frame (w w' : World) : frame w w' -> selected w' = selected w.
Proof. intros (_ & Hnb & _). unfold selected. by rewrite Hnb. Qed.

Lemma run_rule_consistent (p : string) (tt : list pyclass) (w : World) :
  m_root w = true -> is_Some (_actions w !! p) ->
  consistent p tt (enable_or_disable_tabtypes p tt w).1.
Proof.
  intros Hroot Hp. unfold consistent.
  rewrite (selected_frame (enable_or_disable_tabtypes_frame p tt w)).
  unfold enable_or_disable_tabtypes, get_tab_manager. rewrite Hroot.
  by apply set_enabled_sets.
Qed.

Lemma dispatch_consistent (hs : list handler) (w : World) (p : string)
    (tt : list pyclass) :
  m_root w = true ->
  is_Some (_actions w !! p) ->
  Forall (fun h => never_breaks h = true) hs ->
  (forall h, h ∈ hs -> handler_target h = Some p ->
             h = H_enable_or_disable_tabtypes p tt) ->
  H_enable_or_disable_tabtypes p tt ∈ hs \/ consistent p tt w ->
  consistent p tt (dispatch hs None w).1.
Proof.
  revert w. induction hs as [|h hs IH]; intros w Hroot Hp Hquiet Huniq Hor.
  - destruct Hor as [Hin|Hc]; [by apply elem_of_nil in Hin|done].
  - apply Forall_cons in Hquiet as [Hh Hquiet].
    rewrite (dispatch_quiet_handler hs w Hh).
    pose proof (run_handler_frame h None w) as Hf.
    set (w' := (run_handler h None w).1) in *.
    assert (m_root w' = true) as Hroot' by (destruct Hf as ((-> & _) & _); done).
    assert (is_Some (_actions w' !! p)) as Hp'.
    { by apply (evolves_grows (frame_evolves Hf)). }
    apply IH; try done.
    { intros h' Hh'. apply Huniq. by apply list_elem_of_further. }
    destruct (decide (handler_target h = Some p)) as [Ht|Ht].
    + right.
      assert (h = H_enable_or_disable_tabtypes p tt) as Heq
        by (apply Huniq; [apply list_elem_of_here|done]).
      subst w' h. simpl.
      pose proof (run_rule_consistent tt Hroot Hp) as Hc.
      by destruct (enable_or_disable_tabtypes p tt w).
    + destruct Hor as [Hin|Hc].
      * left. apply elem_of_cons in Hin as [<-|Hin]; [|done]. by destruct Ht.
      * right. unfold consistent, enabled in *.
        rewrite (selected_frame Hf). subst w'.
        by rewrite (run_handler_other None w Ht).
Qed.

Lemma registry_wf_unique (w : World) (p : string) (tt : list pyclass) :
  registry_wf w ->
  H_enable_or_disable_tabtypes p tt ∈ tab_changed_bindings (bindings w) ->
  forall h, h ∈ tab_changed_bindings (bindings w) -> handler_target h = Some p ->
            h = H_enable_or_disable_tabtypes p tt.
Proof.
  intros Hwf Hin h Hh Ht.
  by eapply (unique_handler (wf_targets_nodup Hwf) Hin Hh).
Qed.

Lemma rule_installed_grows (p : string) (tt : list pyclass) (w w' : World) :
  grows w w' -> rule_installed p tt w -> rule_installed p tt w'.
Proof. intros [Hh Ha] [? ?]. split; auto. Qed.

Lemma deliver_consistent (k : nat) (w : World) (p : string) (tt : list pyclass) :
  registry_wf w -> rule_installed p tt w ->
  0 < k \/ consistent p tt w ->
  consistent p tt (deliver k w).
Proof.
  revert w. induction k as [|k IH]; intros w Hwf Hrule Hor.
  - destruct Hor as [?|?]; [lia|done].
  - simpl.
    pose proof (dispatch_frame (tab_changed_bindings (bindings w)) None w) as Hf.
    set (w' := (dispatch (tab_changed_bindings (bindings w)) None w).1) in *.
    apply IH.
    + eapply registry_wf_evolves; [exact Hwf|by apply frame_evolves].
    + eapply rule_installed_grows; [|exact Hrule].
      by apply evolves_grows, frame_evolves.
    + right. apply dispatch_consistent.
      * apply Hwf.
      * apply Hrule.
      * apply Hwf.
      * apply registry_wf_unique; [done|apply Hrule].
      * left. apply Hrule.
Qed.

Lemma update_consistent (w : World) (p : string) (tt : list pyclass) :
  registry_wf w -> rule_installed p tt w ->
  0 < nb_pending (notebook w) \/ consistent p tt w ->
  consistent p tt (update w).
Proof.
  intros Hwf Hrule Hor. unfold update.
  apply deliver_consistent.
  - eapply registry_wf_evolves; [exact Hwf|apply evolves_set_notebook].
  - eapply rule_installed_grows; [|exact Hrule].
    apply evolves_grows, evolves_set_notebook.
  - destruct Hor as [?|?]; [by left|by right].
Qed.

Lemma selected_update (w : World) : selected (update w) = selected w.
Proof. unfold selected, current_tab. by rewrite notebook_update. Qed.

(** What an operation does to the selection, before Tk delivers the
    events: if none is queued, the widget that was current is still
    current, or the flag has been set from the current tab already. *)
Lemma op_body_selection (o : op) (w : World) (p : string) (tt : list pyclass) :
  wf w -> rule_installed p tt w ->
  nb_pending (notebook (op_body o w)) = 0 ->
  selected_name (op_body o w) = selected_name w \/ consistent p tt (op_body o w).
Proof.
  intros (Hreg & Hnb & Hpending) Hrule Hquiet.
  assert (forall w', nb_step (notebook w) (notebook w') ->
                     nb_pending (notebook w') = 0 ->
                     selected_name w' = selected_name w) as Hstep.
  { intros w' [_ Hsame] H0. unfold selected_name, selected.
    by rewrite Hsame by lia. }
  assert (forall w', notebook w' = notebook w ->
                     selected_name w' = selected_name w) as Hsame.
  { intros w' Heq. unfold selected_name, selected. by rewrite Heq. }
  destruct o; simpl in *.
  - left. apply Hsame.
    by destruct (_add_any_action_spec p0 k callback_or_choices b v filetype_names
                   tabtypes Hreg) as (_ & _ & -> & _).
  - left. apply Hsame. by destruct (set_enabled_frame p0 is_enabled w) as (_ & -> & _).
  - left. apply Hsame. unfold press_key. by destruct (dispatch_frame
      (snd <$> filter (fun x => x.1 = sequence) (bind_all_bindings (bindings w)))
      None w) as (_ & -> & _).
  - (* add_tab *)
    revert Hquiet. unfold add_tab. destruct (existsb _ _); [by left|].
    destruct (find_equivalent _ _ _) as [[ex|]|e|]; try by left.
    + destruct select_it; [|by left].
      pose proof (select_spec (ByWidget ex) Hnb) as [_ Hs].
      destruct (select (ByWidget ex) w) as [w1 [[]|e|]]; simpl in *;
        intros H0; left; by apply Hstep.
    + destruct (tk_add_spec tab Hnb) as [Hwf1 Hs1].
      set (w1 := set_notebook (tk_add (notebook w) tab) w).
      assert (nb_step (notebook w)
                (notebook (if select_it then select (ByWidget tab) w1
                           else (w1, Ok ())).1) /\
              evolves w (if select_it then select (ByWidget tab) w1
                         else (w1, Ok ())).1) as [Hs2 He2].
      { destruct select_it.
        - split.
          + eapply nb_step_trans; [exact Hs1|].
            by apply (select_spec (ByWidget tab) (w:=w1)).
          + eapply evolves_trans; [apply evolves_set_notebook|apply evolves_select].
        - split; [done|apply evolves_set_notebook]. }
      destruct (if select_it then select (ByWidget tab) w1 else (w1, Ok ()))
        as [w2 [[]|e|]]; simpl in *; try (intros H0; left; by apply Hstep).
      intros _.
      assert (selected_name (update w2) = selected_name w \/
              consistent p tt (update w2)) as Hor.
      { destruct (nb_pending (notebook w2)) as [|k] eqn:Hk.
        - left. unfold selected_name. rewrite selected_update. by apply Hstep.
        - right. apply update_consistent.
          + by eapply registry_wf_evolves.
          + eapply rule_installed_grows; [by apply evolves_grows|done].
          + left. lia. }
      set (w3 := update w2) in *.
      assert (registry_wf w3) as Hreg3.
      { eapply registry_wf_evolves; [exact Hreg|].
        eapply evolves_trans; [exact He2|apply evolves_update]. }
      unfold generate_new_tab.
      pose proof (dispatch_frame (new_tab_bindings (bindings w3)) (Some tab)
                    (emit (EvNewTab tab) w3)) as Hf.
      assert (_actions (dispatch (new_tab_bindings (bindings w3)) (Some tab)
                          (emit (EvNewTab tab) w3)).1 !! p = _actions w3 !! p) as Hp.
      { rewrite dispatch_other; [done|].
        intros (h & Hh & Ht)%list_elem_of_omap.
        pose proof (wf_new_tab Hreg3) as Hnew. rewrite Forall_forall in Hnew.
        simpl in Hh. rewrite (Hnew h Hh) in Ht. done. }
      destruct Hor as [Hsel|Hc].
      * left. rewrite <- Hsel. unfold selected_name.
        by rewrite (selected_frame Hf).
      * right. unfold consistent, enabled in *.
        by rewrite (selected_frame Hf), Hp.
  - left. by apply Hstep; [apply close_tab_spec|].
  - left. by apply Hstep; [apply select_spec|].
  - left. by apply Hstep; [apply select_another_tab_spec|].
  - left. by apply Hstep; [apply move_selected_tab_spec|].
  - left. unfold selected_name, selected, current_tab. simpl.
    destruct (nb_current (notebook w)) as [c|]; simpl; [|done].
    rewrite list_lookup_fmap.
    destruct (nb_tabs (notebook w) !! c) as [x|]; simpl; [|done].
    by rewrite replace_file_tab_name.
  - by left.
Qed.

(** After an operation and the delivery of the events it queued: the
    invariants hold, the rule is still installed, and if another widget
    is current the flag is the one the rule gives. *)
Lemma run_op_consistent (o : op) (w : World) (p : string) (tt : list pyclass) :
  wf w -> rule_installed p tt w ->
  wf (run_op o w) /\ rule_installed p tt (run_op o w) /\
  (selected_name (run_op o w) <> selected_name w -> consistent p tt (run_op o w)).
Proof.
  intros Hwf Hrule. split; [by apply run_op_wf|].
  destruct (run_op_registry_wf o (proj1 Hwf)) as [_ Hg].
  split; [by eapply rule_installed_grows|].
  destruct (op_body_registry_wf o (proj1 Hwf)) as [Hreg' Hg'].
  pose proof (rule_installed_grows Hg' Hrule) as Hrule'.
  unfold run_op. intros Hne.
  destruct (nb_pending (notebook (op_body o w))) as [|k] eqn:Hk.
  - destruct (op_body_selection Hwf Hrule Hk) as [Hsel|Hc].
    + destruct Hne. unfold selected_name. by rewrite selected_update.
    + apply update_consistent; auto.
  - apply update_consistent; [done|done|]. left. lia.
Qed.

Lemma run_ops_rule (ops : list op) (w : World) (p : string) (tt : list pyclass) :
  wf w -> rule_installed p tt w ->
  wf (run_ops ops w) /\ rule_installed p tt (run_ops ops w).
Proof.
  revert w. induction ops as [|o ops IH]; intros w Hwf Hrule; [done|].
  simpl. destruct (run_op_consistent o Hwf Hrule) as (? & ? & _). by apply IH.
Qed.

(** A registration with a tab-type rule that succeeds leaves the rule
    installed and the flag set from the current tab. *)
Lemma _add_any_action_rule (p k : string) (c : callable_or_choices)
    (b v : option string) (classes : list (option pyclass)) (w : World) (a : Action) :
  registry_wf w ->
  (_add_any_action p k c b v None (Some classes) w).2 = Ok a ->
  let tt := map (default ClsNoneType) classes in
  rule_installed p tt (_add_any_action p k c b v None (Some classes) w).1 /\
  consistent p tt (_add_any_action p k c b v None (Some classes) w).1.
Proof.
  intros Hwf. unfold _add_any_action.
  destruct (_ || _); [done|]. simpl.
  case_bool_decide as Hdup; [done|].
  destruct (new_Action_spec p k c b v w) as [Hf1 _].
  destruct (new_Action p k c b v w) as [w1 [a1|e|]]; try done. simpl in Hf1.
  unfold get_main_window. simpl.
  assert (m_root w1 = true) as Hroot1.
  { destruct Hf1 as ((-> & _) & _). apply Hwf. }
  rewrite Hroot1.
  set (w3 := emit (EvNewAction p)
               (set_actions (<[p:=a1]> (_actions w1)) (_actions_order w1 ++ [p]) w1)).
  assert (is_Some (_actions w3 !! p)) as Hp3.
  { simpl. rewrite lookup_insert_eq. by eexists. }
  unfold install_rule.
  set (tt := map (default ClsNoneType) classes).
  pose proof (run_rule_consistent tt (w:=w3) Hroot1 Hp3) as Hc.
  pose proof (enable_or_disable_tabtypes_frame p tt w3) as Hf4.
  destruct (enable_or_disable_tabtypes p tt w3) as [w4 [[]|e|]]; try done.
  simpl in Hc, Hf4. unfold get_tab_manager.
  assert (m_root w4 = true) as ->.
  { destruct Hf4 as ((-> & _) & _). exact Hroot1. }
  simpl.
  assert (rule_installed p tt (bind_tab_changed (H_enable_or_disable_tabtypes p tt) w4)
          /\ consistent p tt (bind_tab_changed (H_enable_or_disable_tabtypes p tt) w4))
    as [Hrule5 Hc5].
  { split; [|exact Hc]. split.
    - simpl. apply elem_of_app. right. apply list_elem_of_here.
    - simpl. by apply (evolves_grows (frame_evolves Hf4)). }
  unfold install_binding. destruct b as [sequence|]; simpl.
  - destruct (_ || _); simpl; [|done]. intros _. done.
  - intros _. done.
Qed.

End RuleFacts.

(** C4.  An action registered with the tab-type rule [[FileTab]]: right
    after the registration, and after every later operation that leaves
    another widget (or none) selected, whatever happened in between
    (other registrations, key presses, tab operations, explicit
    assignments to [enabled]), the action is enabled exactly when the
    selected tab is a [FileTab].  No operation assigns the flag itself:
    the closure bound to [<<NotebookTabChanged>>] does. *)
Theorem tab_type_rule_follows_selection
    (w0 : App.World) (p k : string) (c : App.callable_or_choices)
    (b v : option string) (a : App.Action) (ops : list App.op) (o : App.op) :
  App.reachable w0 ->
  (App._add_any_action p k c b v None (Some [Some App.ClsFileTab]) w0).2 = Ok a ->
  let w1 := App.run_op
              (App.Op_add_any_action p k c b v None (Some [Some App.ClsFileTab])) w0 in
  let w2 := App.run_ops ops w1 in
  let w3 := App.run_op o w2 in
  App.enabled p w1 = Some (App.is_FileTab (App.selected w1)) /\
  (App.selected_name w3 <> App.selected_name w2 ->
   App.enabled p w3 = Some (App.is_FileTab (App.selected w3))).
Proof.
  intros Hreach Hok w1 w2 w3.
  pose proof (reachable_wf Hreach) as Hwf0.
  destruct (_add_any_action_rule (proj1 Hwf0) Hok) as [Hrule Hc].
  simpl in Hrule, Hc.
  set (wb := (App._add_any_action p k c b v None (Some [Some App.ClsFileTab]) w0).1)
    in *.
  assert (App.registry_wf wb) as Hregb.
  { by destruct (_add_any_action_spec p k c b v None (Some [Some App.ClsFileTab])
                   (proj1 Hwf0)) as (? & _). }
  assert (w1 = App.update wb) as Hw1 by done.
  assert (App.wf w1) as Hwf1 by (by apply run_op_wf).
  assert (App.rule_installed p [App.ClsFileTab] w1) as Hrule1.
  { rewrite Hw1. eapply rule_installed_grows; [|exact Hrule].
    apply evolves_grows, evolves_update. }
  assert (App.consistent p [App.ClsFileTab] w1) as Hc1.
  { rewrite Hw1. apply update_consistent; auto. }
  destruct (run_ops_rule ops Hwf1 Hrule1) as [Hwf2 Hrule2]. fold w2 in Hwf2, Hrule2.
  destruct (run_op_consistent o Hwf2 Hrule2) as (_ & _ & Hc3). fold w3 in Hc3.
  unfold App.consistent in *. rewrite isinstance_FileTab in *.
  split; [exact Hc1|]. intros Hne. by apply Hc3.
Qed.

Lemma tab_type_rule_follows_selection_witness :
  let plain := {| App.winfo_name := 1; App.tab_body_of := App.PlainTab |} in
  let file :=
    {| App.winfo_name := 2;
       App.tab_body_of :=
         App.AFileTab
           {| FileTabs._path := None; FileTabs.textwidget := "";
              FileTabs._save_hash := None; FileTabs._tokens := [];
              FileTabs._title := "New File";
              FileTabs.filetype_name := "Plain Text" |} |} in
  let w0 := App.init_world ∅ in
  let w1 := App.run_op
              (App.Op_add_any_action "File/Save" "command" (App.Callback 0)
                 (Some "<Control-s>") None None (Some [Some App.ClsFileTab])) w0 in
  let w2 := App.run_ops [App.Op_add_tab plain true; App.Op_set_enabled "File/Save" (VBool true)] w1 in
  let w3 := App.run_op (App.Op_close_tab plain) w2 in
  let w4 := App.run_op (App.Op_add_tab file true) w3 in
  App.reachable w0 /\
  App.enabled "File/Save" w2 = Some true /\
  App.enabled "File/Save" w3 = Some false /\
  App.enabled "File/Save" w4 = Some true.
Proof.
  intros plain file w0 w1 w2 w3 w4.
  split; [apply App.reachable_init|]. split; [vm_compute; reflexivity|].
  assert ((App._add_any_action "File/Save" "command" (App.Callback 0)
             (Some "<Control-s>") None None (Some [Some App.ClsFileTab]) w0).2
          = Ok {| App.path := "File/Save"; App.kind := "command";
                  App.binding := Some "<Control-s>"; App._enabled := false;
                  App.callback := Some (App.Callback 0); App.var := None;
                  App.choices := None |}) as Hok by (vm_compute; reflexivity).
  split.
  - pose proof (tab_type_rule_follows_selection
                  [App.Op_add_tab plain true;
                   App.Op_set_enabled "File/Save" (VBool true)]
                  (App.Op_close_tab plain) (App.reachable_init ∅) Hok) as H3.
    cbv zeta in H3. destruct H3 as [_ H3].
    etrans; [apply H3; vm_compute; discriminate|]. vm_compute. reflexivity.
  - pose proof (tab_type_rule_follows_selection
                  [App.Op_add_tab plain true;
                   App.Op_set_enabled "File/Save" (VBool true);
                   App.Op_close_tab plain]
                  (App.Op_add_tab file true) (App.reachable_init ∅) Hok) as H4.
    cbv zeta in H4. destruct H4 as [_ H4].
    etrans; [apply H4; vm_compute; discriminate|]. vm_compute. reflexivity.
Defined.

(* ===================================================================== *)
(** * Further properties *)
(* ===================================================================== *)

(** ** [backup_open], whatever the destination *)




(** ** The chunks of [iter_chunks] *)

Section ChunkCoverFacts.
Import FileTabs.

Lemma substring_app (s : string) (a m k : nat) :
  String.substring a (m + k) s
  = String.substring a m s +:+ String.substring (a + m) k s.
Proof.
  revert a m. induction s as [|c s IH]; intros a m.
  - destruct a, m, k; done.
  - destruct a as [|a].
    + destruct m as [|m]; [done|]. simpl. rewrite append_cons. f_equal.
      apply (IH 0 m).
    + simpl. apply IH.
Qed.

Lemma substring_prefix (s t : string) :
  String.substring 0 (String.length s) (s +:+ t) = s.
Proof.
  induction s as [|c s IH]; [by destruct t|].
  rewrite append_cons. simpl. by rewrite IH.
Qed.

Lemma length_substring (s : string) (a m : nat) :
  a + m <= String.length s -> String.length (String.substring a m s) = m.
Proof.
  revert a m. induction s as [|c s IH]; intros a m Hle; simpl in Hle.
  - assert (m = 0) as -> by lia. by destruct a.
  - destruct a as [|a].
    + destruct m as [|m]; [done|]. simpl. f_equal. apply IH. lia.
    + simpl. apply IH. lia.
Qed.

Lemma after_newlines_le (s : string) (k : nat) :
  TkText.after_newlines s k <= String.length s.
Proof.
  revert k. induction s as [|c s IH]; intros [|k]; simpl; try lia.
  specialize (IH (if Ascii.eqb c TkText.newline then k else S k)). lia.
Qed.

(** A later line starts further on, as long as the earlier one is not
    ['end'] already. *)
Lemma after_newlines_lt (s : string) (k k' : nat) :
  k < k' -> TkText.after_newlines s k < String.length s ->
  TkText.after_newlines s k < TkText.after_newlines s k'.
Proof.
  revert k k'. induction s as [|c s IH]; intros k k' Hk Hlt.
  - destruct k; simpl in Hlt; lia.
  - destruct k' as [|k']; [lia|]. destruct k as [|k]; simpl; [lia|].
    simpl in Hlt. apply ->Nat.succ_lt_mono.
    destruct (Ascii.eqb c TkText.newline); apply IH; lia.
Qed.

Lemma after_newlines_mono (s : string) (k k' : nat) :
  k <= k' -> TkText.after_newlines s k <= TkText.after_newlines s k'.
Proof.
  revert k k'. induction s as [|c s IH]; intros k k' Hk.
  - destruct k, k'; simpl; lia.
  - destruct k as [|k]; simpl; [lia|]. destruct k' as [|k']; [lia|]. simpl.
    apply le_n_S. destruct (Ascii.eqb c TkText.newline); apply IH; lia.
Qed.

Lemma length_all (content : string) :
  String.length (TkText.all content) = S (String.length content).
Proof. unfold TkText.all. rewrite length_append. simpl. lia. Qed.

(** From line [start] on, the loop yields the text up to ['end - 1 char'],
    cut into non-empty pieces. *)
Lemma iter_chunks_loop_covers (content : string) (n fuel start : nat)
    (chunks : list string) :
  1 <= n -> 1 <= start ->
  iter_chunks_loop fuel content n start = Ok chunks ->
  Str.join chunks
  = String.substring (TkText.index content (TkText.LineStart start))
      (String.length content - TkText.index content (TkText.LineStart start))
      (TkText.all content) /\
  Forall (fun c => c <> "") chunks.
Proof.
  intros Hn. revert start chunks.
  induction fuel as [|fuel IH]; intros start chunks Hstart; [done|].
  cbn [iter_chunks_loop].
  destruct (Nat.eqb_spec (TkText.index content (TkText.LineStart (start + n)))
              (TkText.index content TkText.End)) as [Hend|Hmore].
  - intros [= <-]. unfold TkText.get.
    replace (TkText.index content TkText.EndMinus1Char) with (String.length content)
      by (unfold TkText.index; rewrite length_all; lia).
    destruct (String.eqb_spec
                (String.substring (TkText.index content (TkText.LineStart start))
                   (String.length content
                    - TkText.index content (TkText.LineStart start))
                   (TkText.all content)) "") as [Hempty|Hfull].
    + rewrite Hempty. by split.
    + split; [by rewrite join_cons, append_nil_r|]. by apply Forall_singleton.
  - destruct (iter_chunks_loop fuel content n (start + n)) as [rest|e|] eqn:Hrest;
      [|done..].
    intros [= <-].
    destruct (IH (start + n) rest ltac:(lia) Hrest) as [Hjoin Hne].
    set (a := TkText.index content (TkText.LineStart start)) in *.
    set (b := TkText.index content (TkText.LineStart (start + n))) in *.
    assert (b <= String.length content) as Hb.
    { assert (b <= String.length (TkText.all content))
        by apply after_newlines_le.
      unfold TkText.index in Hmore. fold b in Hmore.
      rewrite length_all in *. lia. }
    assert (a < b) as Hab.
    { unfold a, b, TkText.index in *.
      pose proof (after_newlines_le (TkText.all content) (start - 1)) as Hle.
      pose proof (after_newlines_mono (TkText.all content) (k:=start - 1)
                    (k':=start + n - 1) ltac:(lia)) as Hmono.
      destruct (decide (TkText.after_newlines (TkText.all content) (start - 1)
                        < String.length (TkText.all content))) as [Hlt|Hge].
      - apply after_newlines_lt; [lia|done].
      - rewrite length_all in *. lia. }
    split.
    + rewrite join_cons, Hjoin. unfold TkText.get. fold a b.
      replace (String.length content - a) with ((b - a) + (String.length content - b))
        by lia.
      rewrite substring_app. do 2 f_equal. lia.
    + apply Forall_cons. split; [|done].
      unfold TkText.get. fold a b. intros Hempty.
      apply (f_equal String.length) in Hempty.
      rewrite length_substring in Hempty by (rewrite length_all; lia).
      simpl in Hempty. lia.
Qed.

End ChunkCoverFacts.

(** X3.  [iter_chunks] with chunks of at least one line cuts the content
    of the widget into pieces without losing or adding a character: the
    chunks, none of them empty, put together are the content. *)
Theorem iter_chunks_covers_content (content : string) (n : nat) :
  1 <= n ->
  exists chunks,
    FileTabs.iter_chunks content n = Ok chunks /\
    Str.join chunks = content /\
    Forall (fun c => c <> "") chunks.
Proof.
  intros Hn. unfold FileTabs.iter_chunks.
  destruct (@iter_chunks_loop_total content n (String.length content) 1)
    as [chunks Hchunks].
  { pose proof (count_le_length content TkText.newline). nia. }
  exists chunks. split; [done|].
  destruct (iter_chunks_loop_covers Hn (le_n 1) Hchunks) as [Hjoin Hne].
  split; [|done]. rewrite Hjoin.
  assert (TkText.index content (TkText.LineStart 1) = 0) as ->.
  { unfold TkText.index. simpl. by destruct (TkText.all content). }
  rewrite Nat.sub_0_r. apply substring_prefix.
Qed.

Lemma iter_chunks_covers_content_witness :
  1 <= 2 /\
  exists chunks,
    FileTabs.iter_chunks "one
two
three" 2 = Ok chunks /\
    Str.join chunks = "one
two
three" /\
    Forall (fun c => c <> "") chunks.
Proof.
  split; [lia|]. apply iter_chunks_covers_content. lia.
Defined.

(** ** More on saving and closing a [FileTab] *)

Section SaveEffectFacts.
Import Utils FileTabs.
Context `{PyLib}.

Lemma save_body_all_written (encoding : string) (chunks bytes : list string) :
  mapM (encode_strict encoding) chunks = Some bytes ->
  save_body encoding None chunks = Write <$> bytes.
Proof.
  intros Hall%mapM_Some.
  induction Hall as [|chunk b chunks bytes Hb _ IH]; [done|].
  simpl. by rewrite Hb, IH.
Qed.

(** What [mark_saved] leaves: a saved tab with a plain title. *)
Lemma mark_saved_spec (encoding : string) (t : FileTab) :
  exists t',
    mark_saved encoding t = Ok t' /\
    is_saved encoding t' = Ok true /\
    textwidget t' = textwidget t /\ _path t' = _path t /\
    _tokens t' = _tokens t /\
    _title t' = match _path t with
                | None => "New File"
                | Some p => OsPath.basename p
                end.
Proof.
  unfold mark_saved. destruct (_get_hash_total encoding t) as [h Hh]. rewrite Hh.
  assert (is_saved encoding (with_save_hash (Some h) t) = Ok true) as Hs.
  { unfold is_saved.
    change (_get_hash encoding (with_save_hash (Some h) t))
      with (_get_hash encoding t).
    rewrite Hh. simpl. by rewrite String.eqb_refl. }
  unfold _update_title. rewrite Hs. eexists. split; [done|].
  split; [|done].
  unfold is_saved.
  change (_get_hash encoding (with_title _ (with_save_hash (Some h) t)))
    with (_get_hash encoding t).
  rewrite Hh. simpl. by rewrite String.eqb_refl.
Qed.

(** [backup_open] with a body that only writes. *)
Lemma backup_open_writes (fs : filesystem) (path : string) (chunks : list string) :
  backup_open (backup_fuel fs) fs path (Write <$> chunks)
  = (<[path := Str.join chunks]> fs, Ok tt).
Proof.
  destruct (fs !! path) as [A|] eqn:Hp.
  - by destruct (backup_open_existing_outcomes chunks Hp) as [_ ->].
  - by destruct (backup_open_new chunks Hp) as [_ ->].
Qed.

Lemma save_succeeds (fuel : nat) (t : FileTab) (e : Env) (p : string)
    (chunks bytes : list string) :
  _path t = Some p ->
  iter_chunks (textwidget t) 100 = Ok chunks ->
  env_write_fault e = None ->
  mapM (encode_strict (env_encoding e)) chunks = Some bytes ->
  exists t' e',
    save (S fuel) t e = (Ok (VBool true), t', e') /\
    env_fs e' = <[p := Str.join bytes]> (env_fs e) /\
    env_log e' = env_log e ++ [EvSave] /\
    env_yesnocancel_answers e' = env_yesnocancel_answers e /\
    is_saved (env_encoding e) t' = Ok true /\
    textwidget t' = textwidget t /\ _path t' = Some p.
Proof.
  intros Hp Hchunks Hfault Hbytes. cbn [save]. rewrite Hp, Hchunks.
  cbn [log env_encoding env_write_fault env_fs]. rewrite Hfault.
  rewrite (save_body_all_written Hbytes), backup_open_writes.
  change (env_encoding (with_fs (<[p:=Str.join bytes]> (env_fs e)) (log EvSave e)))
    with (env_encoding e).
  destruct (mark_saved_spec (env_encoding e) t) as (t' & -> & Hs & Hc & Hpath & _).
  exists t'. eexists. split; [done|]. simpl. rewrite Hpath. by repeat split.
Qed.

Lemma save_fails (fuel : nat) (t : FileTab) (e : Env) (p A : string)
    (chunks : list string) :
  _path t = Some p ->
  iter_chunks (textwidget t) 100 = Ok chunks ->
  env_fs e !! p = Some A ->
  first_error (save_body (env_encoding e) (env_write_fault e) chunks) <> None ->
  exists name e',
    save (S fuel) t e = (Ok VNone, t, e') /\
    env_fs e' = env_fs e /\
    env_log e' = env_log e ++ [EvSave; EvErrorDialog name "Saving failed!"].
Proof.
  intros Hp Hchunks Hfile Herr. cbn [save]. rewrite Hp, Hchunks.
  cbn [log env_encoding env_write_fault env_fs].
  set (body := save_body (env_encoding e) (env_write_fault e) chunks) in *.
  destruct (body_split body) as (written & tail & Hbody & Htail).
  destruct (save_body_errors (env_encoding e) (env_write_fault e) chunks)
    as [Hnone|[Hos|Huni]]; fold body in Hnone || fold body in Hos || fold body in Huni;
    [done|..].
  - rewrite Hos in Htail. destruct Htail as [rest ->]. rewrite Hbody.
    destruct (backup_open_existing_outcomes written Hfile) as [-> _].
    exists "OSError". eexists. split; [done|]. simpl.
    by rewrite <- app_assoc.
  - rewrite Huni in Htail. destruct Htail as [rest ->]. rewrite Hbody.
    destruct (backup_open_existing_outcomes written Hfile) as [-> _].
    exists "UnicodeError". eexists. split; [done|]. simpl.
    by rewrite <- app_assoc.
Qed.

End SaveEffectFacts.



(** X5.  [can_be_closed] asks only about a tab with unsaved changes, and
    writes only on a yes: a saved tab gives [True] with no dialog and no
    change; on an unsaved tab, cancel gives [False] and no gives [True],
    the file system untouched in both cases; and a yes whose save
    succeeds gives [True] and leaves the tab saved. *)
Theorem can_be_closed_writes_only_on_yes `{PyLib}
    (t : FileTabs.FileTab) (e : FileTabs.Env) :
  (FileTabs.is_saved (FileTabs.env_encoding e) t = Ok true ->
   FileTabs.can_be_closed FileTabs.save_fuel t e = (Ok (VBool true), t, e)) /\
  (FileTabs.is_saved (FileTabs.env_encoding e) t = Ok false ->
   (hd None (FileTabs.env_yesnocancel_answers e) = None ->
    exists e',
      FileTabs.can_be_closed FileTabs.save_fuel t e = (Ok (VBool false), t, e') /\
      FileTabs.env_fs e' = FileTabs.env_fs e) /\
   (hd None (FileTabs.env_yesnocancel_answers e) = Some false ->
    exists e',
      FileTabs.can_be_closed FileTabs.save_fuel t e = (Ok (VBool true), t, e') /\
      FileTabs.env_fs e' = FileTabs.env_fs e) /\
   (hd None (FileTabs.env_yesnocancel_answers e) = Some true ->
    forall p chunks bytes,
      FileTabs._path t = Some p ->
      FileTabs.iter_chunks (FileTabs.textwidget t) 100 = Ok chunks ->
      FileTabs.env_write_fault e = None ->
      mapM (encode_strict (FileTabs.env_encoding e)) chunks = Some bytes ->
      exists t' e',
        FileTabs.can_be_closed FileTabs.save_fuel t e = (Ok (VBool true), t', e') /\
        FileTabs.env_fs e' = <[p := Str.join bytes]> (FileTabs.env_fs e) /\
        FileTabs.is_saved (FileTabs.env_encoding e) t' = Ok true)).
Proof.
  split.
  - intros Hs. unfold FileTabs.can_be_closed. by rewrite Hs.
  - intros Hs. unfold FileTabs.can_be_closed. rewrite Hs.
    unfold FileTabs.askyesnocancel. split; [|split].
    + intros ->. by eexists.
    + intros ->. by eexists.
    + intros -> p chunks bytes Hp Hc Hfault Hbytes. unfold FileTabs.save_fuel.
      match goal with
      | |- context [FileTabs.save 3 t ?e1] =>
          destruct (save_succeeds 2 (e:=e1) Hp Hc Hfault Hbytes)
            as (t' & e' & -> & Hfs & _ & _ & Hsaved & _)
      end.
      exists t', e'. split; [done|]. split; [exact Hfs|exact Hsaved].
Qed.

(** X6.  A [FileTab] as its constructor leaves it is saved, whatever its
    content: it has no tokens, its title is ['New File'] or the base name
    of its path, without stars, and it can be closed without a question. *)
Theorem new_FileTab_is_saved `{PyLib}
    (encoding content : string) (path : option string) :
  exists t,
    FileTabs.new_FileTab encoding content path = Ok t /\
    FileTabs.textwidget t = content /\ FileTabs._path t = path /\
    FileTabs._tokens t = [] /\
    FileTabs._title t = match path with
                        | None => "New File"
                        | Some p => OsPath.basename p
                        end /\
    FileTabs.is_saved encoding t = Ok true /\
    forall e,
      FileTabs.env_encoding e = encoding ->
      FileTabs.can_be_closed FileTabs.save_fuel t e = (Ok (VBool true), t, e).
Proof.
  unfold FileTabs.new_FileTab.
  destruct (mark_saved_spec encoding
              {| FileTabs._path := path; FileTabs.textwidget := content;
                 FileTabs._save_hash := None; FileTabs._tokens := [];
                 FileTabs._title := ""; FileTabs.filetype_name := "Plain Text" |})
    as (t & -> & Hs & Hc & Hp & Htok & Htitle).
  exists t. repeat (split; [done|]).
  intros e <-. unfold FileTabs.can_be_closed. by rewrite Hs.
Qed.

(** ** The registry, the key bindings and the events agree *)

Section LogFacts.
Import App.

Lemma neutral_refl (w : World) : neutral w w.
Proof. repeat split. exists []. by rewrite app_nil_r. Qed.

Lemma neutral_trans (w1 w2 w3 : World) : neutral w1 w2 -> neutral w2 w3 -> neutral w1 w3.
Proof.
  intros (? & ? & ? & ? & evs & Ht & Hn) (? & ? & ? & ? & evs' & Ht' & Hn').
  repeat split; try congruence.
  exists (evs ++ evs'). split; [|by apply Forall_app].
  by rewrite Ht', Ht, <- app_assoc.
Qed.

Lemma neutral_same (w w' : World) :
  m_root w' = m_root w -> _actions w' = _actions w ->
  _actions_order w' = _actions_order w ->
  bind_all_bindings (bindings w') = bind_all_bindings (bindings w) ->
  trace w' = trace w -> neutral w w'.
Proof. intros ? ? ? ? Ht. repeat split; try done. exists []. by rewrite app_nil_r. Qed.

Lemma neutral_emit (ev : event) (w : World) :
  is_action_event ev = false -> neutral w (emit ev w).
Proof. intros Hev. repeat split. exists [ev]. split; [done|]. by constructor. Qed.

Lemma announced_app (tr tr' : list event) :
  announced (tr ++ tr') = announced tr ++ announced tr'.
Proof. apply omap_app. Qed.

Lemma announced_neutral (evs : list event) :
  Forall (fun ev => is_action_event ev = false) evs -> announced evs = [].
Proof.
  induction 1 as [|ev evs Hev _ IH]; [done|].
  change (ev :: evs) with ([ev] ++ evs).
  rewrite announced_app, IH. by destruct ev.
Qed.

Lemma flag_of_trace_app (p : string) (tr tr' : list event) :
  flag_of_trace p (tr ++ tr') = foldl (flag_step p) (flag_of_trace p tr) tr'.
Proof. apply foldl_app. Qed.

Lemma flag_neutral (p : string) (b : bool) (evs : list event) :
  Forall (fun ev => is_action_event ev = false) evs -> foldl (flag_step p) b evs = b.
Proof.
  induction 1 as [|ev evs Hev _ IH]; [done|].
  simpl. rewrite <- IH at 2. f_equal. by destruct ev.
Qed.

Lemma log_wf_neutral (w w' : World) : log_wf w -> neutral w w' -> log_wf w'.
Proof.
  intros [Hr Hn Ho Ha Hf Hk] (Er & Ea & Eo & Eb & evs & Et & Hevs).
  split.
  - congruence.
  - by rewrite Eo.
  - intros q. rewrite Eo, Ea. apply Ho.
  - by rewrite Et, announced_app, (announced_neutral Hevs), app_nil_r, Eo.
  - intros q. rewrite Et, flag_of_trace_app, (flag_neutral _ _ Hevs).
    unfold enabled. rewrite Ea. apply Hf.
  - by rewrite Eb, Ea, Eo.
Qed.

Lemma omap_ext_in {A B : Type} (f g : A -> option B) (l : list A) :
  (forall x, x ∈ l -> f x = g x) -> omap f l = omap g l.
Proof.
  intros Hfg. apply list_omap_ext, Forall2_same_length_lookup. split; [done|].
  intros i x y Hx Hy. assert (y = x) as -> by congruence.
  apply Hfg. by eapply list_elem_of_lookup_2.
Qed.

Lemma key_of_with_enabled (m : gmap string Action) (p q : string) (a : Action) (b : bool) :
  m !! p = Some a ->
  key_of (<[p := with_enabled b a]> m) q = key_of m q.
Proof.
  intros Hp. unfold key_of. destruct (decide (q = p)) as [->|Hne].
  - by rewrite lookup_insert_eq, Hp.
  - by rewrite lookup_insert_ne.
Qed.

Lemma log_wf_set_enabled (p : string) (v : pyval) (w : World) :
  log_wf w -> log_wf (set_enabled p v w).1.
Proof.
  intros Hwf. unfold set_enabled. destruct v as [|b| |]; try done.
  destruct (_actions w !! p) as [a|] eqn:Hp; [|done].
  destruct (Bool.eqb (_enabled a) b) eqn:Heq; [done|].
  unfold get_main_window. simpl. rewrite (log_root Hwf). simpl.
  destruct Hwf as [Hr Hn Ho Ha Hf Hk].
  split; simpl.
  - done.
  - done.
  - intros q. rewrite Ho. destruct (decide (q = p)) as [->|Hne].
    + rewrite lookup_insert_eq, Hp. split; by eexists.
    + by rewrite lookup_insert_ne.
  - rewrite announced_app, Ha.
    assert (announced [if b then EvActionEnabled p else EvActionDisabled p] = []) as ->
      by (by destruct b).
    by rewrite app_nil_r.
  - intros q. rewrite flag_of_trace_app. simpl. unfold enabled. simpl.
    destruct (decide (q = p)) as [->|Hne].
    + rewrite lookup_insert_eq. simpl. destruct b; simpl; by rewrite String.eqb_refl.
    + rewrite lookup_insert_ne by done.
      assert (String.eqb p q = false) as Hpq by (apply String.eqb_neq; congruence).
      specialize (Hf q). unfold enabled in Hf. rewrite <- Hf.
      destruct b; simpl; by rewrite Hpq.
  - rewrite Hk. apply omap_ext_in. intros q _. symmetry.
    by apply key_of_with_enabled.
Qed.

Lemma neutral__var_set_check (p : string) (w : World) : neutral w (_var_set_check p w).
Proof.
  unfold _var_set_check. destruct (_actions w !! p) as [a|]; [|apply neutral_refl].
  destruct (var a); [|apply neutral_refl].
  destruct (choices a) as [[|l]|]; try apply neutral_refl.
  case_bool_decide; [apply neutral_refl|by apply neutral_emit].
Qed.

Lemma neutral_var_set (v : string) (value : pyval) (w : World) :
  neutral w (var_set v value w).
Proof.
  unfold var_set.
  assert (neutral w (set_tk_vars (<[v:=value]> (tk_vars w)) w)) as H0
    by (by apply neutral_same).
  revert H0. generalize (set_tk_vars (<[v:=value]> (tk_vars w)) w).
  generalize (var_traces w). intros l. induction l as [|[v' p] l IH]; intros w0 H0; [done|].
  simpl. apply IH. destruct (String.eqb v' v); [|done].
  eapply neutral_trans; [exact H0|apply neutral__var_set_check].
Qed.

Lemma neutral_bind_callback (p k : string) (w : World) :
  neutral w (bind_callback p k w).1.
Proof.
  unfold bind_callback. destruct (_actions w !! p) as [a|]; [|apply neutral_refl].
  destruct (_enabled a); [|apply neutral_refl].
  destruct (String.eqb k "command").
  - destruct (callback a) as [[id|l]|]; simpl; try apply neutral_refl.
    destruct (String.eqb k "yesno").
    + destruct (var a); simpl; [|by apply neutral_emit].
      eapply neutral_trans; [|apply neutral_var_set]. by apply neutral_emit.
    + by apply neutral_emit.
  - destruct (String.eqb k "yesno"); [|apply neutral_refl].
    destruct (var a); simpl; [apply neutral_var_set|apply neutral_refl].
Qed.

Lemma log_wf_run_handler (h : handler) (data : option Tab) (w : World) :
  log_wf w -> log_wf (run_handler h data w).1.
Proof.
  intros Hwf. destruct h as [|p tt|p names|p names|p k]; simpl.
  - destruct (selected w) as [t|]; [|done].
    destruct (tab_body_of t); [done|].
    eapply log_wf_neutral; [exact Hwf|]. by apply neutral_same.
  - pose proof (log_wf_set_enabled p (VBool (isinstance (current_tab (notebook w)) tt)) Hwf).
    unfold enable_or_disable_tabtypes, get_tab_manager.
    destruct (m_root w); [|done]. by destruct (set_enabled _ _ _).
  - unfold enable_or_disable_filetypes, get_tab_manager.
    destruct (m_root w); [|done].
    destruct (tab_body_of <$> current_tab (notebook w)) as [[|f]|].
    + pose proof (log_wf_set_enabled p (VBool false) Hwf).
      by destruct (set_enabled _ _ _).
    + pose proof (log_wf_set_enabled p
        (VBool (bool_decide (FileTabs.filetype_name f ∈ names))) Hwf).
      by destruct (set_enabled _ _ _).
    + pose proof (log_wf_set_enabled p (VBool false) Hwf).
      by destruct (set_enabled _ _ _).
  - destruct data as [t|]; [|done]. destruct (tab_body_of t); [done|].
    eapply log_wf_neutral; [exact Hwf|]. by apply neutral_same.
  - eapply log_wf_neutral; [exact Hwf|apply neutral_bind_callback].
Qed.

Lemma log_wf_dispatch (hs : list handler) (data : option Tab) (w : World) :
  log_wf w -> log_wf (dispatch hs data w).1.
Proof.
  revert w. induction hs as [|h hs IH]; intros w Hwf; [done|].
  pose proof (log_wf_run_handler h data Hwf) as Hh.
  destruct (dispatch_cons h hs data w) as [-> | ->]; [done|by apply IH].
Qed.

Lemma log_wf_deliver (k : nat) (w : World) : log_wf w -> log_wf (deliver k w).
Proof.
  revert w. induction k as [|k IH]; intros w Hwf; [done|].
  simpl. apply IH. by apply log_wf_dispatch.
Qed.

Lemma neutral_set_notebook (nb : Notebook) (w : World) : neutral w (set_notebook nb w).
Proof. by apply neutral_same. Qed.

Lemma log_wf_update (w : World) : log_wf w -> log_wf (update w).
Proof.
  intros Hwf. unfold update. apply log_wf_deliver.
  eapply log_wf_neutral; [exact Hwf|apply neutral_set_notebook].
Qed.

Lemma neutral_select (id : tab_id) (w : World) : neutral w (select id w).1.
Proof.
  unfold select. destruct (tk_select _ _); simpl;
    [apply neutral_set_notebook|apply neutral_refl..].
Qed.

Lemma neutral_close_tab (t : Tab) (w : World) : neutral w (close_tab t w).1.
Proof.
  unfold close_tab. destruct (tk_forget _ _); simpl; [|apply neutral_refl..].
  by apply neutral_same.
Qed.

Lemma neutral_select_another_tab (diff : Z) (w : World) :
  neutral w (select_another_tab diff w).1.
Proof.
  unfold select_another_tab. destruct (negb _); [apply neutral_refl|].
  case_bool_decide; [apply neutral_refl|].
  destruct (index_of_selected w) as [i|e|]; try apply neutral_refl.
  pose proof (neutral_select (ByIndex (Z.of_nat i + diff)) w) as Hs.
  by destruct (select _ w) as [w1 [[]|[]|]].
Qed.

Lemma neutral_move_tab (i1 i2 : Z) (w : World) : neutral w (move_tab i1 i2 w).1.
Proof.
  unfold move_tab. destruct (_ || _); [apply neutral_refl|].
  destruct (tabs w !! Z.to_nat i2) as [tab|]; [|apply neutral_refl].
  destruct (tk_forget _ _) as [nb1|e|]; try apply neutral_refl.
  destruct (tk_insert _ _ _) as [nb2|e|]; try apply neutral_set_notebook.
  destruct (match selected w with Some s => same_widget tab s | None => false end);
    [|apply neutral_set_notebook].
  pose proof (neutral_select (ByWidget tab) (set_notebook nb2 w)) as Hs.
  assert (neutral w (select (ByWidget tab) (set_notebook nb2 w)).1) as Hn.
  { eapply neutral_trans; [apply neutral_set_notebook|exact Hs]. }
  by destruct (select _ _) as [w3 [[]|e|]].
Qed.

Lemma neutral_move_selected_tab (diff : Z) (w : World) :
  neutral w (move_selected_tab diff w).1.
Proof.
  unfold move_selected_tab. destruct (negb _); [apply neutral_refl|].
  case_bool_decide; [apply neutral_refl|].
  destruct (index_of_selected w) as [i|e|]; try apply neutral_refl.
  destruct (_ <? _)%Z; apply neutral_move_tab.
Qed.

Lemma log_wf_add_tab (t : Tab) (sel : bool) (w : World) :
  log_wf w -> log_wf (add_tab t sel w).1.
Proof.
  intros Hwf. unfold add_tab. destruct (existsb _ _); [done|].
  destruct (find_equivalent _ _ _) as [[ex|]|e|]; try done.
  - destruct sel; [|done].
    pose proof (neutral_select (ByWidget ex) w) as Hs.
    destruct (select _ w) as [w1 [[]|e|]]; simpl in *; by eapply log_wf_neutral.
  - set (w1 := set_notebook (tk_add (notebook w) t) w).
    assert (log_wf (if sel then select (ByWidget t) w1 else (w1, Ok ())).1) as H2.
    { eapply log_wf_neutral; [exact Hwf|]. destruct sel.
      - eapply neutral_trans; [apply neutral_set_notebook|apply neutral_select].
      - apply neutral_set_notebook. }
    destruct (if sel then select (ByWidget t) w1 else (w1, Ok ())) as [w2 [[]|e|]];
      try done.
    simpl in *. unfold generate_new_tab. apply log_wf_dispatch.
    eapply log_wf_neutral; [apply log_wf_update, H2|]. by apply neutral_emit.
Qed.

End LogFacts.

(** ** Registering an action, step by step *)

Section RegistrationFacts.
Import App.

Lemma with_enabled_true (a : Action) : _enabled a = true -> with_enabled true a = a.
Proof. intros <-. by destruct a. Qed.

Lemma set_enabled_fresh (p : string) (a : Action) (b : bool) (w : World) :
  m_root w = true ->
  _actions w !! p = Some a -> _enabled a = true ->
  exists w',
    set_enabled p (VBool b) w = (w', Ok tt) /\
    _actions w' = <[p := with_enabled b a]> (_actions w) /\
    _actions_order w' = _actions_order w /\
    trace w' = trace w ++ (if b then [] else [EvActionDisabled p]) /\
    notebook w' = notebook w /\ bindings w' = bindings w /\ m_root w' = true.
Proof.
  intros Hroot Hp He. unfold set_enabled. rewrite Hp, He.
  destruct b; simpl.
  - exists w. split; [done|]. rewrite app_nil_r, (with_enabled_true He).
    by rewrite insert_id.
  - unfold get_main_window. simpl. rewrite Hroot. eexists. split; [done|]. done.
Qed.

Lemma install_rule_fresh (p : string) (a : Action)
    (names : option (list string)) (types : option (list (option pyclass)))
    (w : World) :
  m_root w = true ->
  _actions w !! p = Some a -> _enabled a = true ->
  names = None \/ types = None ->
  let flag := initial_flag names types w in
  exists w',
    install_rule p names types w = (w', Ok tt) /\
    _actions w' = <[p := with_enabled flag a]> (_actions w) /\
    _actions_order w' = _actions_order w /\
    trace w' = trace w ++ (if flag then [] else [EvActionDisabled p]) /\
    notebook w' = notebook w /\ m_root w' = true /\
    bind_all_bindings (bindings w') = bind_all_bindings (bindings w).
Proof.
  intros Hroot Hp He Hone flag. unfold install_rule.
  destruct types as [classes|], names as [ns|]; try (by destruct Hone).
  - unfold enable_or_disable_tabtypes, get_tab_manager. rewrite Hroot.
    destruct (set_enabled_fresh flag Hroot Hp He)
      as (w1 & Hs & Ha & Ho & Ht & Hn & Hb & Hr).
    subst flag. unfold initial_flag, selected in *. rewrite Hs, Hr.
    eexists. split; [done|]. simpl. by rewrite Hb.
  - unfold get_tab_manager. rewrite Hroot.
    set (w0 := bind_new_tab (H_on_new_tab p ns) w).
    unfold enable_or_disable_filetypes, get_tab_manager.
    assert (m_root w0 = true) as Hroot0 by done. rewrite Hroot0.
    destruct (@set_enabled_fresh p a flag w0 Hroot0 Hp He)
      as (w1 & Hs & Ha & Ho & Ht & Hn & Hb & Hr).
    assert (match tab_body_of <$> current_tab (notebook w0) with
            | Some (AFileTab f) =>
                set_enabled p (VBool (bool_decide (FileTabs.filetype_name f ∈ ns))) w0
            | _ => set_enabled p (VBool false) w0
            end = (w1, Ok tt)) as ->.
    { rewrite <- Hs. subst flag. unfold initial_flag, selected.
      change (notebook w0) with (notebook w).
      by destruct (tab_body_of <$> current_tab (notebook w)) as [[|f]|]. }
    eexists. split; [done|]. simpl. by rewrite Hb.
  - exists w. split; [done|]. subst flag. simpl.
    rewrite app_nil_r, (with_enabled_true He). by rewrite insert_id.
Qed.

Lemma new_Action_fields (p k : string) (c : callable_or_choices)
    (b v : option string) (w : World) :
  let r := new_Action p k c b v w in
  m_root r.1 = m_root w /\ _actions r.1 = _actions w /\
  _actions_order r.1 = _actions_order w /\ trace r.1 = trace w /\
  notebook r.1 = notebook w /\ bindings r.1 = bindings w /\
  match r.2 with
  | Ok a => path a = p /\ kind a = k /\ binding a = b /\ _enabled a = true
  | _ => r.1 = w
  end.
Proof.
  unfold new_Action.
  destruct (String.eqb k "command"); [done|].
  destruct (String.eqb k "choice"); [by destruct v|].
  by destruct (String.eqb k "yesno").
Qed.

(** A call of [_add_any_action] that passes the three checks: either
    the kind is unknown and nothing happens, or the action is stored,
    announced and put under its rule, and only then the binding is
    looked at. *)
Lemma _add_any_action_accepted (p k : string) (c : callable_or_choices)
    (b v : option string) (names : option (list string))
    (types : option (list (option pyclass))) (w : World) :
  m_root w = true ->
  Str.startswith p "/" = false -> Str.endswith p "/" = false ->
  _actions w !! p = None ->
  names = None \/ types = None ->
  let r := _add_any_action p k c b v names types w in
  let flag := initial_flag names types w in
  match (new_Action p k c b v w).2 with
  | Ok a0 =>
      let a := with_enabled flag a0 in
      m_root r.1 = true /\
      _actions r.1 = <[p := a]> (_actions w) /\
      _actions_order r.1 = _actions_order w ++ [p] /\
      trace r.1 = trace w ++ EvNewAction p ::
                    (if flag then [] else [EvActionDisabled p]) /\
      notebook r.1 = notebook w /\
      bind_all_bindings (bindings r.1)
      = bind_all_bindings (bindings w) ++ option_list (key_of (_actions r.1) p) /\
      r.2 = match b with
            | Some _ =>
                if String.eqb k "command" || String.eqb k "yesno"
                then Ok a else Raise AssertionError
            | None => Ok a
            end
  | Raise e => r = (w, Raise e)
  | OutOfFuel => r = (w, OutOfFuel)
  end.
Proof.
  intros Hroot Hs He Hnew Hone r flag. subst r.
  unfold _add_any_action. rewrite Hs, He. simpl.
  assert (bool_decide (is_Some names) && bool_decide (is_Some types) = false) as ->.
  { destruct Hone as [-> | ->]; [done|]. by rewrite andb_false_r. }
  rewrite Hnew. simpl.
  destruct (new_Action_fields p k c b v w)
    as (Hr1 & Ha1 & Ho1 & Ht1 & Hn1 & Hbd1 & Hfields).
  destruct (new_Action p k c b v w) as [w1 [a0|e|]]; simpl in *;
    try (by rewrite Hfields).
  destruct Hfields as (Hpath & Hkind & Hbind & Hen).
  unfold get_main_window. simpl. rewrite Hr1, Hroot.
  set (w3 := emit _ _).
  assert (_actions w3 !! p = Some a0) as Hp3 by (simpl; by rewrite lookup_insert_eq).
  assert (m_root w3 = true) as Hroot3 by (simpl; congruence).
  destruct (@install_rule_fresh p a0 names types w3 Hroot3 Hp3 Hen Hone)
    as (w4 & -> & Ha4 & Ho4 & Ht4 & Hn4 & Hr4 & Hk4).
  assert (initial_flag names types w3 = flag) as Hflag.
  { unfold flag, initial_flag, selected. simpl. by rewrite Hn1. }
  rewrite Hflag in *.
  assert (_actions w4 = <[p := with_enabled flag a0]> (_actions w)) as Ha4'.
  { rewrite Ha4. simpl. by rewrite insert_insert_eq, Ha1. }
  assert (_actions w4 !! p = Some (with_enabled flag a0)) as Hp4
    by (by rewrite Ha4', lookup_insert_eq).
  assert (key_of (_actions w4) p
          = match b with
            | Some sequence =>
                if String.eqb k "command" || String.eqb k "yesno"
                then Some (sequence, H_bind_callback p k) else None
            | None => None
            end) as Hkey.
  { unfold key_of. rewrite Hp4. simpl. by rewrite Hbind, Hkind. }
  assert (trace w4 = trace w ++ EvNewAction p ::
                       (if flag then [] else [EvActionDisabled p])) as Ht4'.
  { rewrite Ht4. simpl. by rewrite Ht1, <- app_assoc. }
  assert (_actions_order w4 = _actions_order w ++ [p]) as Ho4'.
  { rewrite Ho4. simpl. by rewrite Ho1. }
  assert (notebook w4 = notebook w) as Hn4' by (rewrite Hn4; simpl; done).
  assert (bind_all_bindings (bindings w4) = bind_all_bindings (bindings w)) as Hk4'.
  { rewrite Hk4. simpl. by rewrite Hbd1. }
  unfold install_binding. destruct b as [sequence|]; simpl.
  - destruct (String.eqb k "command" || String.eqb k "yesno") eqn:Hk; simpl.
    + rewrite Hp4, Hkey. simpl. by rewrite Hk4'.
    + rewrite Hkey, app_nil_r. done.
  - rewrite Hp4, Hkey, app_nil_r. done.
Qed.

Lemma log_wf__add_any_action (p k : string) (c : callable_or_choices)
    (b v : option string) (names : option (list string))
    (types : option (list (option pyclass))) (w : World) :
  log_wf w -> log_wf (_add_any_action p k c b v names types w).1.
Proof.
  intros Hwf.
  destruct (Str.startswith p "/" || Str.endswith p "/") eqn:Hends.
  { unfold _add_any_action. by rewrite Hends. }
  apply orb_false_elim in Hends as [Hs He].
  destruct (bool_decide (is_Some names) && bool_decide (is_Some types)) eqn:Hboth.
  { unfold _add_any_action. by rewrite Hs, He, Hboth. }
  destruct (_actions w !! p) as [a|] eqn:Hnew.
  { unfold _add_any_action. by rewrite Hs, He, Hboth, Hnew. }
  assert (names = None \/ types = None) as Hone.
  { destruct names, types; try (by left); by right. }
  pose proof (_add_any_action_accepted k c b v (log_root Hwf) Hs He Hnew Hone) as Hacc.
  simpl in Hacc.
  destruct (new_Action p k c b v w).2 as [a0|e|]; try (by rewrite Hacc).
  destruct Hacc as (Hr & Ha & Ho & Ht & Hn & Hk & _).
  set (w' := (_add_any_action p k c b v names types w).1) in *.
  set (flag := initial_flag names types w) in *.
  assert (p ∉ _actions_order w) as Hfresh.
  { intros Hin%(log_order Hwf). rewrite Hnew in Hin. by destruct Hin. }
  split.
  - done.
  - rewrite Ho. apply NoDup_app. split; [apply Hwf|]. split; [|apply NoDup_singleton].
    intros q Hq ->%list_elem_of_singleton. done.
  - intros q. rewrite Ho, Ha, elem_of_app, list_elem_of_singleton, (log_order Hwf).
    destruct (decide (q = p)) as [->|Hne].
    + rewrite lookup_insert_eq. split; [by eexists|by right].
    + rewrite lookup_insert_ne by done. split; [by intros [?|?]|by left].
  - rewrite Ht, Ho, announced_app, (log_announced Hwf). f_equal.
    by destruct flag.
  - intros q. rewrite Ht, flag_of_trace_app, (log_flags Hwf). unfold enabled.
    rewrite Ha. destruct (decide (q = p)) as [->|Hne].
    + rewrite lookup_insert_eq, Hnew. simpl.
      destruct flag; simpl; [done|by rewrite String.eqb_refl].
    + rewrite lookup_insert_ne by done.
      assert (String.eqb p q = false) as Hpq by (apply String.eqb_neq; congruence).
      destruct flag; simpl; [done|by rewrite Hpq].
  - rewrite Hk, Ho, omap_app, (log_keys Hwf).
    assert (omap (key_of (_actions w')) [p] = option_list (key_of (_actions w') p)) as ->.
    { simpl. by destruct (key_of (_actions w') p). }
    f_equal. apply omap_ext_in. intros q Hq. unfold key_of. rewrite Ha.
    rewrite lookup_insert_ne; [done|]. intros ->. done.
Qed.

Lemma log_wf_op_body (o : op) (w : World) : log_wf w -> log_wf (op_body o w).
Proof.
  intros Hwf. destruct o; simpl.
  - by apply log_wf__add_any_action.
  - by apply log_wf_set_enabled.
  - unfold press_key. by apply log_wf_dispatch.
  - by apply log_wf_add_tab.
  - eapply log_wf_neutral; [exact Hwf|apply neutral_close_tab].
  - eapply log_wf_neutral; [exact Hwf|apply neutral_select].
  - eapply log_wf_neutral; [exact Hwf|apply neutral_select_another_tab].
  - eapply log_wf_neutral; [exact Hwf|apply neutral_move_selected_tab].
  - eapply log_wf_neutral; [exact Hwf|by apply neutral_same].
  - eapply log_wf_neutral; [exact Hwf|by apply neutral_same].
Qed.

Lemma log_wf_init (st : gmap string nat) : log_wf (init_world st).
Proof.
  split; try done; simpl.
  - apply NoDup_nil_2.
  - intros q. rewrite lookup_empty. split; [by intros ?%elem_of_nil|by intros [? ?]].
Qed.

Lemma reachable_log_wf (w : World) : reachable w -> log_wf w.
Proof.
  induction 1 as [st|o w _ IH]; [apply log_wf_init|].
  by apply log_wf_update, log_wf_op_body.
Qed.

End RegistrationFacts.

Section RegistryOrderFacts.
Import App.

Lemma paths_of_lookups (m : gmap string Action) (l : list string) :
  (forall q, q ∈ l -> exists a, m !! q = Some a /\ path a = q) ->
  path <$> omap (fun q => m !! q) l = l.
Proof.
  induction l as [|q l IH]; intros Hl; [done|].
  destruct (Hl q) as (a & Ha & Hpa); [apply list_elem_of_here|].
  simpl. rewrite Ha. rewrite fmap_cons, Hpa. f_equal. apply IH.
  intros q' Hq'. apply Hl. by apply list_elem_of_further.
Qed.

Lemma get_all_actions_paths (w : World) :
  registry_wf w -> log_wf w -> path <$> get_all_actions w = _actions_order w.
Proof.
  intros Hreg Hlog. apply paths_of_lookups. intros q Hq.
  apply (log_order Hlog) in Hq as [a Ha]. exists a. split; [done|].
  by apply (wf_paths Hreg) in Ha as [? _].
Qed.

(** The handlers of a key are the closures of the actions bound to it. *)
Lemma handlers_of_key (m : gmap string Action) (sequence : string) (l : list string) :
  snd <$> filter (fun x => x.1 = sequence) (omap (key_of m) l)
  = omap (fun p => snd <$> key_of m p)
         (filter (fun p => fst <$> key_of m p = Some sequence) l).
Proof.
  induction l as [|p l IH]; [done|].
  rewrite (filter_cons _ p).
  change (omap (key_of m) (p :: l))
    with (match key_of m p with
          | Some y => y :: omap (key_of m) l
          | None => omap (key_of m) l
          end).
  destruct (key_of m p) as [[s h]|] eqn:Hk.
  - rewrite filter_cons. simpl fst. simpl (_ <$> Some _).
    destruct (decide (s = sequence)) as [->|Hne].
    + rewrite decide_True by done. rewrite fmap_cons, IH.
      cbn [omap list_omap]. by rewrite Hk.
    + rewrite decide_False by congruence. done.
  - rewrite decide_False by done. done.
Qed.

Lemma key_of_Some (m : gmap string Action) (p sequence : string) :
  fst <$> key_of m p = Some sequence ->
  exists a, m !! p = Some a /\ binding a = Some sequence /\
            key_of m p = Some (sequence, H_bind_callback p (kind a)).
Proof.
  unfold key_of. destruct (m !! p) as [a|]; [|done].
  destruct (binding a) as [s|] eqn:Hb; [|done].
  destruct (_ || _); [|done]. simpl. intros [= ->]. by exists a.
Qed.

(** Closures of disabled actions let the event through. *)
Lemma dispatch_disabled (sequence : string) (ps : list string) (hs : list handler)
    (w : World) :
  Forall (fun p => fst <$> key_of (_actions w) p = Some sequence /\
                   enabled p w = Some false) ps ->
  dispatch (omap (fun p => snd <$> key_of (_actions w) p) ps ++ hs) None w
  = dispatch hs None w.
Proof.
  induction 1 as [|p ps [Hk Hoff] _ IH]; [done|].
  apply key_of_Some in Hk as (a & Hp & _ & Hk).
  simpl. rewrite Hk. simpl. unfold bind_callback. rewrite Hp.
  unfold enabled in Hoff. rewrite Hp in Hoff. injection Hoff as ->. exact IH.
Qed.

End RegistryOrderFacts.

(** X7.  [add_command] in a running application, with a path that has
    no separator at either end and is not registered yet and with at
    most one of the two filters: the call returns the new action, a
    command with the given callback and binding; the action is stored
    under its path and comes last in [get_all_actions], the others are
    as they were; observers see [<<NewAction>>] first and, when the
    enablement rule turns the action off at once, [<<ActionDisabled>>]
    after it; the notebook is not touched. *)
Theorem add_command_registers
    (w : App.World) (p : string) (cb : nat) (key : option string)
    (names : option (list string)) (types : option (list (option App.pyclass))) :
  App.reachable w ->
  Str.startswith p "/" = false -> Str.endswith p "/" = false ->
  App._actions w !! p = None ->
  names = None \/ types = None ->
  let flag := App.initial_flag names types w in
  let a := {| App.path := p; App.kind := "command"; App.binding := key;
              App._enabled := flag; App.callback := Some (App.Callback cb);
              App.var := None; App.choices := None |} in
  let r := App.add_command p cb key names types w in
  r.2 = Ok a /\
  App._actions r.1 = <[p := a]> (App._actions w) /\
  App.get_action p r.1 = Ok a /\
  App.get_all_actions r.1 = App.get_all_actions w ++ [a] /\
  App.trace r.1 = App.trace w ++ App.EvNewAction p ::
                    (if flag then [] else [App.EvActionDisabled p]) /\
  App.notebook r.1 = App.notebook w.
Proof.
  intros Hreach Hs He Hnew Hone flag a r.
  pose proof (reachable_log_wf Hreach) as Hlog.
  pose proof (_add_any_action_accepted "command" (App.Callback cb) key None
                (App.log_root Hlog) Hs He Hnew Hone) as Hacc.
  simpl in Hacc. fold flag in Hacc.
  change (App._add_any_action p "command" (App.Callback cb) key None names types w)
    with r in Hacc.
  change (App.with_enabled flag _) with a in Hacc.
  destruct Hacc as (Hr & Ha & Ho & Ht & Hn & _ & Hres).
  split; [by destruct key|]. split; [done|].
  split.
  { unfold App.get_action. rewrite (rstrip_no_trailing He), Ha.
    by rewrite lookup_insert_eq. }
  split; [|done].
  unfold App.get_all_actions. rewrite Ho, Ha, omap_app. simpl.
  rewrite lookup_insert_eq. f_equal. apply omap_ext_in. intros q Hq.
  rewrite lookup_insert_ne; [done|]. intros ->.
  apply (App.log_order Hlog) in Hq. rewrite Hnew in Hq. by destruct Hq.
Qed.

Lemma add_command_registers_witness :
  let w := App.run_op (App.Op_add_any_action "File/New File" "command" (App.Callback 0)
                         (Some "<Control-n>") None None None) (App.init_world ∅) in
  let r := App.add_command "File/Save" 1 (Some "<Control-s>") None
             (Some [Some App.ClsFileTab]) w in
  App.enabled "File/Save" r.1 = Some false /\
  App.path <$> App.get_all_actions r.1 = ["File/New File"; "File/Save"] /\
  App.trace r.1 = [App.EvNewAction "File/New File"; App.EvNewAction "File/Save";
                   App.EvActionDisabled "File/Save"].
Proof.
  intros w r.
  assert (App.reachable w) as Hreach
    by (apply App.reachable_step, App.reachable_init).
  destruct (@add_command_registers w "File/Save" 1 (Some "<Control-s>") None
              (Some [Some App.ClsFileTab]) Hreach eq_refl eq_refl eq_refl
              (or_introl eq_refl)) as (_ & Ha & _ & Hall & Ht & _).
  fold r in Ha, Hall, Ht.
  split; [unfold App.enabled; rewrite Ha; vm_compute; reflexivity|].
  split; [rewrite Hall; vm_compute; reflexivity|].
  rewrite Ht. vm_compute. reflexivity.
Defined.

(** X8.  The events tell the flags: in every state the application
    reaches, the [enabled] flag of a registered action is the one that
    an observer gets who starts from "enabled" and follows the
    [<<ActionEnabled>>] and [<<ActionDisabled>>] events of that path. *)
Theorem events_tell_the_flags (w : App.World) (p : string) (a : App.Action) :
  App.reachable w ->
  App._actions w !! p = Some a ->
  App._enabled a = App.flag_of_trace p (App.trace w).
Proof.
  intros Hreach Hp.
  pose proof (App.log_flags (reachable_log_wf Hreach) p) as Hf.
  unfold App.enabled in Hf. by rewrite Hp in Hf.
Qed.

Lemma events_tell_the_flags_witness :
  let plain := {| App.winfo_name := 1; App.tab_body_of := App.PlainTab |} in
  let w := App.run_ops
             [App.Op_add_any_action "File/Close" "command" (App.Callback 0)
                None None None (Some [Some App.ClsTab]);
              App.Op_add_tab plain true;
              App.Op_set_enabled "File/Close" (VBool true);
              App.Op_close_tab plain]
             (App.init_world ∅) in
  App.trace w = [App.EvNewAction "File/Close"; App.EvActionDisabled "File/Close";
                 App.EvActionEnabled "File/Close"; App.EvNewTab plain;
                 App.EvActionDisabled "File/Close"] /\
  exists a, App._actions w !! "File/Close" = Some a /\ App._enabled a = false.
Proof.
  intros plain w. split; [vm_compute; reflexivity|].
  assert (App.reachable w) as Hreach
    by (repeat apply App.reachable_step; apply App.reachable_init).
  eexists. split; [vm_compute; reflexivity|].
  etrans; [apply (@events_tell_the_flags w "File/Close" _ Hreach); vm_compute; reflexivity|].
  vm_compute. reflexivity.
Defined.

(** X9.  [get_all_actions] in a state the application reaches: it
    returns every registered action once, in the order in which the
    actions were registered, which is the order of the [<<NewAction>>]
    events; an action is in the list exactly when [_actions] holds it
    under its path. *)
Theorem get_all_actions_in_registration_order (w : App.World) :
  App.reachable w ->
  App.path <$> App.get_all_actions w = App.announced (App.trace w) /\
  NoDup (App.path <$> App.get_all_actions w) /\
  forall a, a ∈ App.get_all_actions w <-> App._actions w !! App.path a = Some a.
Proof.
  intros Hreach.
  pose proof (reachable_log_wf Hreach) as Hlog.
  pose proof (reachable_registry_wf Hreach) as Hreg.
  pose proof (get_all_actions_paths Hreg Hlog) as Hpaths.
  split; [by rewrite Hpaths, (App.log_announced Hlog)|].
  split; [rewrite Hpaths; apply Hlog|].
  intros a. unfold App.get_all_actions. rewrite list_elem_of_omap. split.
  - intros (q & Hq & Ha). by destruct (App.wf_paths Hreg Ha) as [-> _].
  - intros Ha. exists (App.path a). split; [|done].
    apply (App.log_order Hlog). by eexists.
Qed.

Lemma get_all_actions_in_registration_order_witness :
  let w := App.run_ops
             [App.Op_add_any_action "File/Save" "command" (App.Callback 0)
                (Some "<Control-s>") None None (Some [Some App.ClsFileTab]);
              App.Op_add_any_action "Edit/Undo" "command" (App.Callback 1)
                None None None None;
              App.Op_add_any_action "File/Save" "command" (App.Callback 2)
                None None None None;
              App.Op_add_any_action "File/Close" "command" (App.Callback 3)
                None None None (Some [Some App.ClsTab])]
             (App.init_world ∅) in
  App.path <$> App.get_all_actions w = ["File/Save"; "Edit/Undo"; "File/Close"].
Proof.
  intros w.
  assert (App.reachable w) as Hreach
    by (repeat apply App.reachable_step; apply App.reachable_init).
  etrans; [apply (get_all_actions_in_registration_order Hreach)|].
  vm_compute. reflexivity.
Defined.



(** X11.  A registration that fails late is not undone.  A choice
    action cannot have a key binding, but [_add_any_action] finds that
    out last: in a running application, with a path that passes the
    checks, the call raises [AssertionError] after the action was
    stored and announced.  The action stays registered without its
    binding, and registering the path again, with or without the
    binding, raises [RuntimeError]. *)
Theorem failed_binding_leaves_the_action_registered
    (w : App.World) (p sequence v : string) (l : list pyval)
    (names : option (list string)) (types : option (list (option App.pyclass))) :
  App.reachable w ->
  Str.startswith p "/" = false -> Str.endswith p "/" = false ->
  App._actions w !! p = None ->
  names = None \/ types = None ->
  let r := App._add_any_action p "choice" (App.Choices l) (Some sequence) (Some v)
             names types w in
  r.2 = Raise AssertionError /\
  (exists a, App.get_action p r.1 = Ok a /\ App.kind a = "choice" /\
             App.binding a = Some sequence /\ a ∈ App.get_all_actions r.1) /\
  App.EvNewAction p ∈ App.trace r.1 /\
  App.bind_all_bindings (App.bindings r.1) = App.bind_all_bindings (App.bindings w) /\
  forall b,
    App._add_any_action p "choice" (App.Choices l) b (Some v) names types r.1
    = (r.1, Raise RuntimeError).
Proof.
  intros Hreach Hs He Hnew Hone r.
  pose proof (reachable_log_wf Hreach) as Hlog.
  pose proof (_add_any_action_accepted "choice" (App.Choices l) (Some sequence)
                (Some v) (App.log_root Hlog) Hs He Hnew Hone) as Hacc.
  simpl in Hacc.
  change (App._add_any_action p "choice" (App.Choices l) (Some sequence) (Some v)
            names types w) with r in Hacc.
  destruct Hacc as (Hr & Ha & Ho & Ht & Hn & Hk & Hres).
  set (a := App.with_enabled (App.initial_flag names types w) _) in *.
  assert (App._actions r.1 !! p = Some a) as Hp by (by rewrite Ha, lookup_insert_eq).
  split; [done|]. split; [|split; [|split]].
  - exists a. split.
    { unfold App.get_action. by rewrite (rstrip_no_trailing He), Hp. }
    split; [done|]. split; [done|].
    unfold App.get_all_actions. apply list_elem_of_omap. exists p. split; [|done].
    rewrite Ho. apply elem_of_app. right. apply list_elem_of_here.
  - rewrite Ht. apply elem_of_app. right. apply list_elem_of_here.
  - rewrite Hk. unfold App.key_of. rewrite Hp. simpl. by rewrite app_nil_r.
  - intros b. unfold App._add_any_action. rewrite Hs, He. simpl.
    assert (bool_decide (is_Some names) && bool_decide (is_Some types) = false) as ->.
    { destruct Hone as [-> | ->]; [done|]. by rewrite andb_false_r. }
    rewrite Hp. done.
Qed.

Lemma failed_binding_leaves_the_action_registered_witness :
  let r := App._add_any_action "View/Theme" "choice"
             (App.Choices [VStr "light"; VStr "dark"]) (Some "<Control-t>")
             (Some "theme") None None (App.init_world ∅) in
  r.2 = Raise AssertionError /\
  App.path <$> App.get_all_actions r.1 = ["View/Theme"] /\
  (App._add_any_action "View/Theme" "choice"
     (App.Choices [VStr "light"; VStr "dark"]) None (Some "theme") None None r.1).2
  = Raise RuntimeError.
Proof.
  intros r.
  destruct (@failed_binding_leaves_the_action_registered (App.init_world ∅)
              "View/Theme" "<Control-t>" "theme" [VStr "light"; VStr "dark"] None None
              (App.reachable_init ∅) eq_refl eq_refl eq_refl (or_introl eq_refl))
    as (Hres & _ & _ & _ & Hagain).
  split; [exact Hres|]. split; [vm_compute; reflexivity|].
  fold r in Hagain. by rewrite Hagain.
Defined.
